(** * Tushle dashboard frontend: a shallow embedding of the React pages

    The development follows the TypeScript sources of the single-page
    application: the task pages ([pages/Tasks.tsx], [TaskManagement]),
    the route guard of [App.tsx], the authentication context, the client
    form, the client portal, the meeting list and the content engine.

    Components are modelled as pure functions from their props, hook
    state and the outcome of the HTTP calls they make to what they
    render or send.  Strings are [string], JavaScript objects used as
    request bodies are association lists in insertion order, the browser
    [localStorage] is a [gmap string string].

    The shared axios instance of [lib/api] and the REST backend are not
    among the sources. Where a property needs them they are modelled
    from the specification, and each such definition says so. *)

From Stdlib Require Import ZArith QArith Lqa Bool List Ascii String Sorting.Sorted Sorting.Permutation.
From stdpp Require Import base option list strings gmap pretty.

Set Warnings "-register-all".

Open Scope Z_scope.
Open Scope string_scope.
Open Scope list_scope.

(** ** JavaScript values *)

Module JS.

(** A JavaScript number: a finite number is given by a rational (a
    decimal literal by the rational it spells); the two infinities and
    NaN are kept apart because arithmetic on them differs. *)
Inductive number : Type :=
| Finite (q : Q)
| PosInfinity
| NegInfinity
| NaN.

(** Plain values, as they occur in request bodies and JSON responses.
    An object keeps its own properties in insertion order. *)
Inductive value : Type :=
| VUndefined
| VNull
| VBool (b : bool)
| VNum (n : number)
| VStr (s : string)
| VArr (l : list value)
| VObj (props : list (string * value)).

Definition num_of_Z (z : Z) : number := Finite (inject_Z z).

(** [obj.key = v]: overwrite an existing own property in place, or
    append a new one. *)
Fixpoint set_prop (k : string) (v : value) (props : list (string * value))
  : list (string * value) :=
  match props with
  | [] => [(k, v)]
  | (k', v') :: rest =>
      if String.eqb k k' then (k, v) :: rest else (k', v') :: set_prop k v rest
  end.

(** [Object.keys(obj)] *)
Definition keys (props : list (string * value)) : list string := map fst props.

(** [obj[key]] *)
Fixpoint get_prop (k : string) (props : list (string * value)) : option value :=
  match props with
  | [] => None
  | (k', v) :: rest => if String.eqb k k' then Some v else get_prop k rest
  end.

(** Truthiness of a string: only the empty string is falsy. *)
Definition truthy_string (s : string) : bool := negb (String.eqb s "").

(** A template literal [`${x}`] over a value that may be [null]. *)
Definition template_nullable (x : option string) : string :=
  match x with Some s => s | None => "null" end.

(** The browser's local storage. *)
Abbreviation Storage := (gmap string string).

Definition getItem (k : string) (st : Storage) : option string := st !! k.
Definition removeItem (k : string) (st : Storage) : Storage := delete k st.
Definition setItem (k v : string) (st : Storage) : Storage := <[k := v]> st.

End JS.

(** ** HTTP requests *)

Module Http.

Inductive method : Type := GET | POST | PUT | PATCH | DELETE.

(** A request target: the path and the decoded [URLSearchParams]
    entries, in the order they were appended. *)
Record Url : Type := mkUrl {
  url_path : string;
  url_query : list (string * string)
}.

Definition path (p : string) : Url := mkUrl p [].

(** A call through the shared axios instance [api] of [lib/api]: the
    page supplies the verb, the path and the body; headers are added
    by the instance. *)
Record ApiCall : Type := mkApiCall {
  api_method : method;
  api_url : Url;
  api_body : option JS.value
}.

(** A call through the browser's [fetch]: the page writes the headers
    itself. *)
Record FetchCall : Type := mkFetchCall {
  fetch_url : Url;
  fetch_method : method;
  fetch_headers : list (string * string);
  fetch_body : option JS.value
}.

Definition header (name : string) (r : FetchCall) : option string :=
  snd <$> List.find (fun h => String.eqb (fst h) name) (fetch_headers r).

(** How an awaited HTTP call ends. *)
Inductive outcome : Type :=
| Fulfilled (data : JS.value)
| Failed (error : string).

(** How a React Query [queryFn] promise settles. *)
Inductive settled : Type :=
| Resolved (data : JS.value)
| Rejected (error : string).

(** [data] of a [useQuery] whose promise has settled: absent after a
    rejection. *)
Definition data (s : settled) : option JS.value :=
  match s with
  | Resolved d => Some d
  | Rejected _ => None
  end.

End Http.

(** ** [lib/api]: the shared axios instance *)

Module Api.



End Api.

(** ** [types/index.ts]: the user record shared by the pages *)

Module Types.

Record User : Type := mkUser {
  user_id : Z;
  email : string;
  full_name : string;
  role : string;
  is_active : bool
}.

(** The literal union declared for [Task.status] in [types/index.ts]. *)
Definition Task_status : list string :=
  ["pending"; "in_progress"; "completed"; "failed"].

End Types.

(** ** [pages/Tasks.tsx] *)

Module Tasks.

Record Task : Type := mkTask {
  id : Z;
  title : string;
  description : option string;
  type : string;
  status : string;
  priority : string;
  due_date : option string;
  assigned_to_id : Z;
  assigned_to_name : option string;
  created_by_id : Z;
  created_by_name : option string;
  client_id : option Z;
  client_name : option string;
  estimated_hours : option JS.number;
  actual_hours : option JS.number;
  created_at : string;
  updated_at : option string
}.

(** The literal union declared for [status] in the local [Task]
    interface. *)
Definition Task_status : list string :=
  ["todo"; "in_progress"; "review"; "completed"; "blocked"].

(** The values of the status filter's [<option>] elements. *)
Definition statusFilter_options : list string :=
  [""; "todo"; "in_progress"; "review"; "completed"; "blocked"].

(** The argument of [updateTaskMutation.mutate]. *)
Record UpdateArgs : Type := mkUpdateArgs {
  taskId : Z;
  arg_status : option string;
  arg_actual_hours : option JS.number
}.

(** [updateTaskMutation.mutationFn]: the body starts empty; [status]
    is added when truthy, [actual_hours] when not [undefined]. *)
Definition updateData (a : UpdateArgs) : list (string * JS.value) :=
  let d0 : list (string * JS.value) := [] in
  let d1 :=
    match arg_status a with
    | Some s => if JS.truthy_string s then JS.set_prop "status" (JS.VStr s) d0 else d0
    | None => d0
    end in
  match arg_actual_hours a with
  | Some h => JS.set_prop "actual_hours" (JS.VNum h) d1
  | None => d1
  end.

Definition updateTaskMutation (a : UpdateArgs) : Http.ApiCall :=
  Http.mkApiCall Http.PUT (Http.path ("/api/v1/tasks/" +:+ pretty (taskId a)))
    (Some (JS.VObj (updateData a))).

Definition handleStatusChange (task_id : Z) (newStatus : string) : Http.ApiCall :=
  updateTaskMutation (mkUpdateArgs task_id (Some newStatus) None).

(** A rendered status button: its caption and the status its click
    handler passes to [handleStatusChange]. *)
Record Button : Type := mkButton {
  caption : string;
  newStatus : string
}.

Definition onClick (task : Task) (b : Button) : Http.ApiCall :=
  handleStatusChange (id task) (newStatus b).

(** [user?.role === 'admin' || task.assigned_to_id === user?.id] *)
Definition may_update (user : option Types.User) (task : Task) : bool :=
  match user with
  | Some u => String.eqb (Types.role u) "admin" || Z.eqb (assigned_to_id task) (Types.user_id u)
  | None => false
  end.

(** The "Status Update Buttons" block of one task card. *)
Definition statusButtons (user : option Types.User) (task : Task) : list Button :=
  if may_update user task then
    (if String.eqb (status task) "todo"
     then [mkButton "Start" "in_progress"] else [])
    ++ (if String.eqb (status task) "in_progress"
        then [mkButton "Review" "review"; mkButton "Complete" "completed"] else [])
    ++ (if String.eqb (status task) "review"
        then [mkButton "Complete" "completed"] else [])
  else [].

(** The keys of the literal object inside [getStatusColor]: the
    statuses that get a badge colour of their own. *)
Definition statusColors : list (string * string) :=
  [("todo", "bg-gray-100 text-gray-800");
   ("in_progress", "bg-blue-100 text-blue-800");
   ("review", "bg-yellow-100 text-yellow-800");
   ("completed", "bg-green-100 text-green-800");
   ("blocked", "bg-red-100 text-red-800")].

(** The [tasks] query function: no [try]/[catch], a failed call rejects
    the query. *)
Definition tasks_queryFn (api_get : Http.Url -> Http.outcome)
    (statusFilter priorityFilter assigneeFilter : string) : Http.settled :=
  let params :=
    (if JS.truthy_string statusFilter then [("status", statusFilter)] else [])
    ++ (if JS.truthy_string priorityFilter then [("priority", priorityFilter)] else [])
    ++ (if JS.truthy_string assigneeFilter then [("assigned_to_id", assigneeFilter)] else []) in
  match api_get (Http.mkUrl "/api/v1/tasks/" params) with
  | Http.Fulfilled data => Http.Resolved data
  | Http.Failed e => Http.Rejected e
  end.

(** The [taskStats] query function. *)
Definition taskStats_queryFn (api_get : Http.Url -> Http.outcome) : Http.settled :=
  match api_get (Http.path "/api/v1/tasks/stats") with
  | Http.Fulfilled data => Http.Resolved data
  | Http.Failed e => Http.Rejected e
  end.

(** The [employees] query function; the query is enabled for an admin
    only. *)
Definition employees_queryFn (api_get : Http.Url -> Http.outcome) : Http.settled :=
  match api_get (Http.path "/api/v1/tasks/employees/list") with
  | Http.Fulfilled data => Http.Resolved data
  | Http.Failed e => Http.Rejected e
  end.

Definition employees_enabled (user : option Types.User) : bool :=
  match user with
  | Some u => String.eqb (Types.role u) "admin"
  | None => false
  end.

Section Overdue.

(** [new Date(s)] for a date string: its time value, or [None] for an
    invalid date. *)
Variable Date_parse : string -> option Z.

(** [isOverdue]: [new Date(dueDate) < new Date()], with the clock at
    [now]. *)
Definition isOverdue (now : Z) (dueDate : string) : bool :=
  match Date_parse dueDate with
  | Some t => Z.ltb t now
  | None => false
  end.

(** Whether the card of a task carries the OVERDUE badge. *)
Definition overdueBadge (now : Z) (task : Task) : bool :=
  match due_date task with
  | Some d =>
      JS.truthy_string d && isOverdue now d && negb (String.eqb (status task) "completed")
  | None => false
  end.

End Overdue.

(** The state of the "Create New Task" form. *)
Record NewTask : Type := mkNewTask {
  nt_title : string;
  nt_description : string;
  nt_type : string;
  nt_priority : string;
  nt_due_date : string;
  nt_assigned_to_id : string;
  nt_estimated_hours : string
}.

Section Create.

(** [parseInt] and [parseFloat], built-ins of the platform. *)
Variable parseInt : string -> JS.number.
Variable parseFloat : string -> JS.number.

(** The body built by [createTaskMutation]: the form's properties, with
    the assignee parsed and the empty optional fields turned into
    [null]. *)
Definition createBody (t : NewTask) : list (string * JS.value) :=
  [("title", JS.VStr (nt_title t));
   ("description", JS.VStr (nt_description t));
   ("type", JS.VStr (nt_type t));
   ("priority", JS.VStr (nt_priority t));
   ("due_date",
     if JS.truthy_string (nt_due_date t) then JS.VStr (nt_due_date t) else JS.VNull);
   ("assigned_to_id", JS.VNum (parseInt (nt_assigned_to_id t)));
   ("estimated_hours",
     if JS.truthy_string (nt_estimated_hours t)
     then JS.VNum (parseFloat (nt_estimated_hours t)) else JS.VNull)].

Definition createTaskMutation (t : NewTask) : Http.ApiCall :=
  Http.mkApiCall Http.POST (Http.path "/api/v1/tasks/") (Some (JS.VObj (createBody t))).

(** [handleCreateTask]: the call it makes, if any. *)
Definition handleCreateTask (t : NewTask) : option Http.ApiCall :=
  if JS.truthy_string (nt_title t) && JS.truthy_string (nt_assigned_to_id t)
  then Some (createTaskMutation t)
  else None.

End Create.

End Tasks.

(** ** [TaskManagement]: the task page written against [fetch] *)

Module TaskManagement.

Record Task : Type := mkTask {
  id : Z;
  title : string;
  description : option string;
  type : string;
  status : string;
  priority : string;
  due_date : option string;
  assigned_to_id : Z;
  assigned_to_name : option string;
  created_by_id : Z;
  created_by_name : option string;
  client_id : option Z;
  client_name : option string;
  estimated_hours : option JS.number;
  actual_hours : option JS.number;
  created_at : string;
  updated_at : option string
}.

(** The values of the status filter's [<option>] elements. *)
Definition statusFilter_options : list string :=
  [""; "todo"; "in_progress"; "review"; "completed"; "blocked"].

Record Filters : Type := mkFilters {
  f_status : string;
  f_priority : string;
  f_type : string;
  f_assigned_to_id : string
}.

(** The two headers every call of this page writes. *)
Definition auth_headers (st : JS.Storage) : list (string * string) :=
  let token := JS.getItem "access_token" st in
  [("Authorization", "Bearer " +:+ JS.template_nullable token);
   ("Content-Type", "application/json")].

Definition fetchTasks (st : JS.Storage) (currentPage : Z) (filters : Filters)
  : Http.FetchCall :=
  let params :=
    [("page", pretty currentPage); ("per_page", "10")]
    ++ List.filter (fun kv => JS.truthy_string (snd kv))
         [("status", f_status filters); ("priority", f_priority filters);
          ("type", f_type filters); ("assigned_to_id", f_assigned_to_id filters)] in
  Http.mkFetchCall (Http.mkUrl "http://localhost:8000/api/v1/tasks/" params)
    Http.GET (auth_headers st) None.

Definition fetchStats (st : JS.Storage) : Http.FetchCall :=
  Http.mkFetchCall (Http.path "http://localhost:8000/api/v1/tasks/stats")
    Http.GET (auth_headers st) None.

Definition fetchEmployees (st : JS.Storage) : Http.FetchCall :=
  Http.mkFetchCall (Http.path "http://localhost:8000/api/v1/tasks/employees/list")
    Http.GET (auth_headers st) None.

(** [createTask]: the body is the form state with its numeric fields
    parsed; the parsed object is passed in. *)
Definition createTask (st : JS.Storage) (taskData : JS.value) : Http.FetchCall :=
  Http.mkFetchCall (Http.path "http://localhost:8000/api/v1/tasks/")
    Http.POST (auth_headers st) (Some taskData).

Definition updateTaskStatus (st : JS.Storage) (taskId : Z) (new_status : string)
  : Http.FetchCall :=
  Http.mkFetchCall (Http.path ("http://localhost:8000/api/v1/tasks/" +:+ pretty taskId))
    Http.PUT (auth_headers st)
    (Some (JS.VObj [("status", JS.VStr new_status)])).

Record Button : Type := mkButton {
  caption : string;
  newStatus : string
}.

Definition onClick (st : JS.Storage) (task : Task) (b : Button) : Http.FetchCall :=
  updateTaskStatus st (id task) (newStatus b).

(** The button group at the right of one task card. *)
Definition statusButtons (task : Task) : list Button :=
  if negb (String.eqb (status task) "completed") then
    (if String.eqb (status task) "todo"
     then [mkButton "Start" "in_progress"] else [])
    ++ (if String.eqb (status task) "in_progress"
        then [mkButton "Review" "review"; mkButton "Complete" "completed"] else [])
    ++ (if String.eqb (status task) "review"
        then [mkButton "Complete" "completed"] else [])
  else [].

(** The cases of [getStatusIcon] and [getStatusColor] before
    [default]. *)
Definition status_cases : list string :=
  ["todo"; "in_progress"; "review"; "completed"; "blocked"].

(** [getStatusColor]: a [switch] over the status with a [default]. *)
Definition getStatusColor (s : string) : string :=
  if String.eqb s "todo" then "bg-gray-100 text-gray-800"
  else if String.eqb s "in_progress" then "bg-blue-100 text-blue-800"
  else if String.eqb s "review" then "bg-yellow-100 text-yellow-800"
  else if String.eqb s "completed" then "bg-green-100 text-green-800"
  else if String.eqb s "blocked" then "bg-red-100 text-red-800"
  else "bg-gray-100 text-gray-800".

(** The text of the status badge: [task.status.replace('_', ' ')]
    replaces the first underscore. *)
Fixpoint replace_first_underscore (s : string) : string :=
  match s with
  | EmptyString => EmptyString
  | String c rest =>
      if Ascii.eqb c "_" then String " " rest
      else String c (replace_first_underscore rest)
  end.

(** The status badge of a task card: its class and its text. *)
Definition statusBadge (task : Task) : string * string :=
  (getStatusColor (status task) +:+ " flex items-center",
   replace_first_underscore (status task)).

(** One of the two pagination buttons. *)
Record PageButton : Type := mkPageButton {
  pb_caption : string;
  pb_target : Z;
  pb_disabled : bool
}.

(** The pagination block under the task list, rendered when there is
    more than one page; each button sets [currentPage] to its target. *)
Definition pagination (currentPage totalPages : Z) : list PageButton :=
  if Z.ltb 1 totalPages then
    [mkPageButton "Previous" (currentPage - 1) (Z.eqb currentPage 1);
     mkPageButton "Next" (currentPage + 1) (Z.eqb currentPage totalPages)]
  else [].

End TaskManagement.

(** ** [PerformanceDashboard] *)

Module PerformanceDashboard.

Definition API_BASE_URL : string := "http://localhost:8000/api/v1".

Definition auth_headers (st : JS.Storage) : list (string * string) :=
  let token := JS.getItem "access_token" st in
  [("Authorization", "Bearer " +:+ JS.template_nullable token);
   ("Content-Type", "application/json")].

Definition fetchTeamOverview (st : JS.Storage) : Http.FetchCall :=
  Http.mkFetchCall (Http.path (API_BASE_URL +:+ "/performance/team-overview"))
    Http.GET (auth_headers st) None.

Definition fetchEmployeeStats (st : JS.Storage) : Http.FetchCall :=
  Http.mkFetchCall (Http.path (API_BASE_URL +:+ "/performance/employees"))
    Http.GET (auth_headers st) None.

Definition fetchEmployeeHistory (st : JS.Storage) (employeeId : Z) : Http.FetchCall :=
  Http.mkFetchCall
    (Http.mkUrl (API_BASE_URL +:+ "/performance/employee/" +:+ pretty employeeId
                 +:+ "/performance") [("months", "6")])
    Http.GET (auth_headers st) None.

End PerformanceDashboard.

(** ** [ClientPortal]: the public project-information form *)

Module ClientPortal.

Record ClientPortalData : Type := mkData {
  project_requirements : string;
  budget_range : string;
  timeline : string;
  additional_info : string;
  preferred_contact_method : string;
  urgency_level : string
}.

Definition body (d : ClientPortalData) : JS.value :=
  JS.VObj [("project_requirements", JS.VStr (project_requirements d));
           ("budget_range", JS.VStr (budget_range d));
           ("timeline", JS.VStr (timeline d));
           ("additional_info", JS.VStr (additional_info d));
           ("preferred_contact_method", JS.VStr (preferred_contact_method d));
           ("urgency_level", JS.VStr (urgency_level d))].

(** The request of [handleSubmit]; [clientId] is the route parameter,
    absent when the route did not bind it. *)
Definition handleSubmit (clientId : option string) (formData : ClientPortalData)
  : Http.FetchCall :=
  Http.mkFetchCall
    (Http.path ("http://localhost:8000/api/v1/clients/portal/"
                +:+ match clientId with Some c => c | None => "undefined" end
                +:+ "/submit"))
    Http.POST
    [("Content-Type", "application/json")]
    (Some (body formData)).

(** The page state. *)
Record State : Type := mkState {
  formData : ClientPortalData;
  isSubmitted : bool;
  isSubmitting : bool
}.

(** The state on first render. *)
Definition initial : State :=
  mkState (mkData "" "" "" "" "email" "medium") false false.

Inductive Field : Type :=
| ProjectRequirements | BudgetRange | Timeline | AdditionalInfo
| PreferredContactMethod | UrgencyLevel.

(** [handleInputChange]: the update [{ ...prev, [field]: value }]. *)
Definition handleInputChange (field : Field) (v : string) (s : State) : State :=
  let d := formData s in
  let d' :=
    match field with
    | ProjectRequirements =>
        mkData v (budget_range d) (timeline d) (additional_info d)
          (preferred_contact_method d) (urgency_level d)
    | BudgetRange =>
        mkData (project_requirements d) v (timeline d) (additional_info d)
          (preferred_contact_method d) (urgency_level d)
    | Timeline =>
        mkData (project_requirements d) (budget_range d) v (additional_info d)
          (preferred_contact_method d) (urgency_level d)
    | AdditionalInfo =>
        mkData (project_requirements d) (budget_range d) (timeline d) v
          (preferred_contact_method d) (urgency_level d)
    | PreferredContactMethod =>
        mkData (project_requirements d) (budget_range d) (timeline d) (additional_info d)
          v (urgency_level d)
    | UrgencyLevel =>
        mkData (project_requirements d) (budget_range d) (timeline d) (additional_info d)
          (preferred_contact_method d) v
    end in
  mkState d' (isSubmitted s) (isSubmitting s).

(** How the awaited [fetch] ends: with a response, whose [ok] flag
    tells a 2xx status, or with a network error. *)
Inductive fetch_result : Type :=
| Response (ok : bool)
| NetworkError (error : string).

(** [handleSubmit], run to completion: the form is marked as submitted
    only after a response that is [ok]; the [finally] block clears
    [isSubmitting] in every case. *)
Definition submitted (r : fetch_result) (s : State) : State :=
  let s1 := mkState (formData s) (isSubmitted s) true in
  let s2 :=
    match r with
    | Response true => mkState (formData s1) true (isSubmitting s1)
    | Response false => s1
    | NetworkError _ => s1
    end in
  mkState (formData s2) (isSubmitted s2) false.

(** What the page renders. *)
Inductive View : Type :=
| ThankYou
| Form (data : ClientPortalData) (submitting : bool).

Definition render (s : State) : View :=
  if isSubmitted s then ThankYou else Form (formData s) (isSubmitting s).

(** One handler call on the page. *)
Inductive step : State -> State -> Prop :=
| step_input (field : Field) (v : string) (s : State) :
    step s (handleInputChange field v s)
| step_submit (r : fetch_result) (s : State) :
    step s (submitted r s).

End ClientPortal.

(** ** [MeetingManagement] *)

Module MeetingManagement.

Record Meeting : Type := mkMeeting {
  id : Z;
  title : string;
  description : option string;
  start_time : string;
  end_time : string;
  type : string;
  status : string;
  location : option string;
  meeting_url : option string;
  assigned_to_id : Z;
  assigned_to_name : string;
  client_id : option Z;
  client_name : option string;
  lead_id : option Z;
  lead_name : option string;
  attendees : option string;
  calendar_event_id : option string;
  created_at : string;
  updated_at : option string
}.

Definition API_BASE_URL : string := "http://localhost:8000/api/v1".

Definition auth_headers (st : JS.Storage) : list (string * string) :=
  let token := JS.getItem "access_token" st in
  [("Authorization", "Bearer " +:+ JS.template_nullable token);
   ("Content-Type", "application/json")].

Definition fetchMeetings (st : JS.Storage) : Http.FetchCall :=
  Http.mkFetchCall (Http.path (API_BASE_URL +:+ "/meetings/"))
    Http.GET (auth_headers st) None.

Definition fetchUsers (st : JS.Storage) : Http.FetchCall :=
  Http.mkFetchCall (Http.path (API_BASE_URL +:+ "/users/"))
    Http.GET (auth_headers st) None.

Definition fetchClients (st : JS.Storage) : Http.FetchCall :=
  Http.mkFetchCall (Http.path (API_BASE_URL +:+ "/clients/"))
    Http.GET (auth_headers st) None.

Definition fetchLeads (st : JS.Storage) : Http.FetchCall :=
  Http.mkFetchCall (Http.path (API_BASE_URL +:+ "/leads/"))
    Http.GET (auth_headers st) None.

(** The request of the form's [handleSubmit]: an update when a meeting
    is being edited, a creation otherwise. *)
Definition handleSubmit (st : JS.Storage) (editingMeeting : option Meeting)
    (formData : JS.value) : Http.FetchCall :=
  let url :=
    match editingMeeting with
    | Some m => API_BASE_URL +:+ "/meetings/" +:+ pretty (id m)
    | None => API_BASE_URL +:+ "/meetings/"
    end in
  let method := match editingMeeting with Some _ => Http.PUT | None => Http.POST end in
  Http.mkFetchCall (Http.path url) method (auth_headers st) (Some formData).

Definition handleDelete (st : JS.Storage) (meeting_id : Z) : Http.FetchCall :=
  let token := JS.getItem "access_token" st in
  Http.mkFetchCall (Http.path (API_BASE_URL +:+ "/meetings/" +:+ pretty meeting_id))
    Http.DELETE
    [("Authorization", "Bearer " +:+ JS.template_nullable token)]
    None.

Definition handleStatusUpdate (st : JS.Storage) (meeting_id : Z) (new_status : string)
  : Http.FetchCall :=
  Http.mkFetchCall
    (Http.path (API_BASE_URL +:+ "/meetings/" +:+ pretty meeting_id +:+ "/status"))
    Http.PATCH (auth_headers st)
    (Some (JS.VObj [("status", JS.VStr new_status)])).

(** The captions of the filter buttons. *)
Definition filterOptions : list string :=
  ["all"; "upcoming"; "past"; "scheduled"; "completed"; "cancelled"].

(** The time value of a [Date]: milliseconds since the epoch, or [None]
    for an invalid date (the time value NaN). *)
Definition timeValue : Type := option Z.

(** [a > b] and [a < b] on two dates compare their time values; a
    comparison with NaN is false. *)
Definition date_gt (a b : timeValue) : bool :=
  match a, b with
  | Some x, Some y => Z.ltb y x
  | _, _ => false
  end.

Definition date_lt (a b : timeValue) : bool :=
  match a, b with
  | Some x, Some y => Z.ltb x y
  | _, _ => false
  end.

Section Filter.

(** [new Date(s)] for a date string, a built-in of the platform. *)
Variable Date_parse : string -> timeValue.

(** The callback passed to [meetings.filter]; [now] is the clock value
    that its [new Date()] reads. *)
Definition keep (filter : string) (now : Z) (meeting : Meeting) : bool :=
  if String.eqb filter "all" then true
  else if String.eqb filter "upcoming"
       then date_gt (Date_parse (start_time meeting)) (Some now)
  else if String.eqb filter "past"
       then date_lt (Date_parse (start_time meeting)) (Some now)
  else String.eqb (status meeting) filter.

(** [Array.prototype.filter] calls the callback once per element, in
    order; the [k]-th call reads the clock at [clock k]. *)
Fixpoint filter_from (filter : string) (clock : nat -> Z) (k : nat)
    (meetings : list Meeting) : list Meeting :=
  match meetings with
  | [] => []
  | m :: rest =>
      if keep filter (clock k) m
      then m :: filter_from filter clock (S k) rest
      else filter_from filter clock (S k) rest
  end.

Definition filteredMeetings (filter : string) (clock : nat -> Z)
    (meetings : list Meeting) : list Meeting :=
  filter_from filter clock 0%nat meetings.

End Filter.

(** The state of the meeting form. *)
Record MeetingFormData : Type := mkFormData {
  fd_title : string;
  fd_description : string;
  fd_start_time : string;
  fd_end_time : string;
  fd_type : string;
  fd_location : string;
  fd_meeting_url : string;
  fd_assigned_to_id : option Z;
  fd_client_id : option Z;
  fd_lead_id : option Z;
  fd_attendees : string
}.

(** The blank form of [useState] and [resetForm]. *)
Definition blankForm : MeetingFormData :=
  mkFormData "" "" "" "" "client_meeting" "" "" None None None "".

(** The part of the page state the form handlers work on. *)
Record FormState : Type := mkFormState {
  editingMeeting : option Meeting;
  formData : MeetingFormData;
  showForm : bool
}.

(** A call of one of the three state setters. *)
Inductive SetterCall : Type :=
| SetEditingMeeting (m : option Meeting)
| SetFormData (f : MeetingFormData)
| SetShowForm (b : bool).

Definition apply_call (c : SetterCall) (s : FormState) : FormState :=
  match c with
  | SetEditingMeeting m => mkFormState m (formData s) (showForm s)
  | SetFormData f => mkFormState (editingMeeting s) f (showForm s)
  | SetShowForm b => mkFormState (editingMeeting s) (formData s) b
  end.

(** The state once the calls, made in the given order, have been
    applied. *)
Definition apply_calls (calls : list SetterCall) (s : FormState) : FormState :=
  fold_left (fun st c => apply_call c st) calls s.

(** How a handler ends. *)
Inductive completion : Type :=
| Returned
| Threw.

(** [x || ''] on a text that may be [null]. *)
Definition or_empty (x : option string) : string :=
  match x with
  | Some t => t
  | None => ""
  end.

Section Editing.

Variable Date_parse : string -> timeValue.

(** [Date.prototype.toISOString] on a valid time value. *)
Variable toISOString : Z -> string.

(** [new Date(s).toISOString().slice(0, 16)]; [toISOString] throws on
    an invalid date. *)
Definition local_input (s : string) : option string :=
  match Date_parse s with
  | Some t => Some (substring 0 16 (toISOString t))
  | None => None
  end.

(** [handleEdit]: the setter calls it makes, in order, and how it
    ends. The meeting is recorded first; the form object is built next,
    and building it throws when a time does not parse. *)
Definition handleEdit (meeting : Meeting) : list SetterCall * completion :=
  match local_input (start_time meeting) with
  | None => ([SetEditingMeeting (Some meeting)], Threw)
  | Some start =>
      match local_input (end_time meeting) with
      | None => ([SetEditingMeeting (Some meeting)], Threw)
      | Some stop =>
          ([SetEditingMeeting (Some meeting);
            SetFormData
              (mkFormData (title meeting) (or_empty (description meeting)) start stop
                 (type meeting) (or_empty (location meeting))
                 (or_empty (meeting_url meeting)) (Some (assigned_to_id meeting))
                 (client_id meeting) (lead_id meeting) (or_empty (attendees meeting)));
            SetShowForm true],
           Returned)
      end
  end.

End Editing.

(** [resetForm] *)
Definition resetForm : list SetterCall :=
  [SetFormData blankForm; SetEditingMeeting None; SetShowForm false].

(** The "Schedule Meeting" button of the page header. *)
Definition scheduleButton : list SetterCall := [SetShowForm true].

(** The form state as a request body. *)
Definition num_or_null (x : option Z) : JS.value :=
  match x with
  | Some z => JS.VNum (JS.num_of_Z z)
  | None => JS.VNull
  end.

Definition form_body (f : MeetingFormData) : JS.value :=
  JS.VObj [("title", JS.VStr (fd_title f));
           ("description", JS.VStr (fd_description f));
           ("start_time", JS.VStr (fd_start_time f));
           ("end_time", JS.VStr (fd_end_time f));
           ("type", JS.VStr (fd_type f));
           ("location", JS.VStr (fd_location f));
           ("meeting_url", JS.VStr (fd_meeting_url f));
           ("assigned_to_id", num_or_null (fd_assigned_to_id f));
           ("client_id", num_or_null (fd_client_id f));
           ("lead_id", num_or_null (fd_lead_id f));
           ("attendees", JS.VStr (fd_attendees f))].

(** The request sent when the form is submitted in the given state. *)
Definition submit (st : JS.Storage) (s : FormState) : Http.FetchCall :=
  handleSubmit st (editingMeeting s) (form_body (formData s)).

(** A status button of a meeting card: its tooltip and the status it
    passes to [handleStatusUpdate]. *)
Record StatusButton : Type := mkStatusButton {
  sb_title : string;
  sb_status : string
}.

(** The status buttons of a meeting card, shown for scheduled meetings
    only. *)
Definition statusButtons (meeting : Meeting) : list StatusButton :=
  if String.eqb (status meeting) "scheduled"
  then [mkStatusButton "Mark as Completed" "completed";
        mkStatusButton "Cancel Meeting" "cancelled"]
  else [].

Definition onStatusClick (st : JS.Storage) (meeting : Meeting) (b : StatusButton)
  : Http.FetchCall :=
  handleStatusUpdate st (id meeting) (sb_status b).

End MeetingManagement.

(** ** [contexts/AuthContext.tsx] *)

Module AuthContext.

(** The provider's hook state together with the local storage it
    writes. *)
Record State : Type := mkState {
  user : option Types.User;
  loading : bool;
  storage : JS.Storage
}.

(** The state on first render: [useState(null)], [useState(true)]. *)
Definition initial (st : JS.Storage) : State := mkState None true st.

(** How [api.get('/api/v1/auth/me')] ends: a response whose [data] is
    a user record (or [null]), or a rejection. *)
Inductive me_result : Type :=
| MeOk (data : option Types.User)
| MeFailed (error : string).

Definition setUser (u : option Types.User) (s : State) : State :=
  mkState u (loading s) (storage s).

Definition setLoading (b : bool) (s : State) : State :=
  mkState (user s) b (storage s).

Definition removeToken (s : State) : State :=
  mkState (user s) (loading s) (JS.removeItem "token" (storage s)).

Definition me_call : Http.ApiCall :=
  Http.mkApiCall Http.GET (Http.path "/api/v1/auth/me") None.

(** The mount effect, run to completion: [api] answers the
    verification call, which is made only when the stored token is
    truthy ([if (token)]). The [then] handler stores the user, the
    [catch] handler drops the token, the [finally] handler clears
    [loading]; without a truthy token only [loading] is cleared. *)
Definition verifyToken (api : Http.ApiCall -> me_result) (s : State) : State :=
  match JS.getItem "token" (storage s) with
  | Some token =>
      if JS.truthy_string token then
        let s1 :=
          match api me_call with
          | MeOk data => setUser data s
          | MeFailed _ => removeToken s
          end in
        setLoading false s1
      else setLoading false s
  | None => setLoading false s
  end.

Definition logout (s : State) : State :=
  setUser None (removeToken s).

(** How [api.post('/api/v1/auth/login', ...)] ends: a response whose
    [data] holds [access_token], or a rejection. *)
Inductive login_result : Type :=
| LoginOk (access_token : string)
| LoginFailed (error : string).

(** [login], run until it returns or throws; either way the state
    reached is returned. The token is stored under the key [token]
    before the user record is fetched. *)
Definition login (post : login_result) (me : me_result) (s : State) : State :=
  match post with
  | LoginOk access_token =>
      let s1 := mkState (user s) (loading s) (JS.setItem "token" access_token (storage s)) in
      match me with
      | MeOk data => setUser data s1
      | MeFailed _ => s1
      end
  | LoginFailed _ => s
  end.

(** How [api.post('/api/v1/auth/register', ...)] ends. *)
Inductive register_result : Type :=
| RegisterOk
| RegisterFailed (error : string).

(** [register]: the account is created first; only then is [login]
    run. *)
Definition register (reg : register_result) (post : login_result) (me : me_result)
    (s : State) : State :=
  match reg with
  | RegisterOk => login post me s
  | RegisterFailed _ => s
  end.

End AuthContext.

(** ** [App.tsx]: the route guard *)

Module App.

(** What [ProtectedRoute] returns. *)
Inductive Element (C : Type) : Type :=
| Spinner
| Navigate (to : string) (replace : bool)
| Fragment (children : C).

Arguments Spinner {C}.
Arguments Navigate {C} to replace.
Arguments Fragment {C} children.

Definition ProtectedRoute {C : Type} (user : option Types.User) (loading : bool)
    (children : C) : Element C :=
  if loading then Spinner
  else match user with
       | None => Navigate "/login" true
       | Some _ => Fragment children
       end.

(** The guard as it is mounted: it reads [user] and [loading] from the
    authentication context. *)
Definition guarded {C : Type} (s : AuthContext.State) (children : C) : Element C :=
  ProtectedRoute (AuthContext.user s) (AuthContext.loading s) children.

End App.

(** ** [ContentEngine]: the trending-topics tab *)

Module ContentEngine.

Import JS.

Record TrendingTopic : Type := mkTopic {
  title : string;
  description : string;
  popularity_score : number;
  keywords : list string;
  hashtags : list string;
  engagement_potential : string;
  content_angles : list string;
  source : string;
  trending_since : string
}.

(** [x - y] on numbers. For two finite operands the exact difference is
    kept: the double the engine computes is that difference rounded, and
    rounding preserves its sign, which is all a comparator's caller
    looks at. *)
Definition sub (x y : number) : number :=
  match x, y with
  | NaN, _ | _, NaN => NaN
  | PosInfinity, PosInfinity => NaN
  | NegInfinity, NegInfinity => NaN
  | PosInfinity, _ => PosInfinity
  | NegInfinity, _ => NegInfinity
  | Finite _, PosInfinity => NegInfinity
  | Finite _, NegInfinity => PosInfinity
  | Finite p, Finite q => Finite (p - q)
  end.

(** The comparator written in the page:
    [(a, b) => b.popularity_score - a.popularity_score]. *)
Definition compareFn (a b : TrendingTopic) : number :=
  sub (popularity_score b) (popularity_score a).

(** [SortCompare] of the language specification, reduced to the sign the
    sort acts on: a NaN result of the comparator counts as [+0]. *)
Definition SortCompare {A : Type} (comparefn : A -> A -> number) (x y : A) : Z :=
  match comparefn x y with
  | NaN => 0
  | PosInfinity => 1
  | NegInfinity => -1
  | Finite q =>
      match Qcompare q 0 with
      | Lt => -1
      | Eq => 0
      | Gt => 1
      end
  end.

(** [Array.prototype.sort(comparefn)], as a stable insertion sort: an
    element stays in front of the ones after it unless the comparator
    says it sorts after them. *)
Fixpoint sort_insert {A : Type} (comparefn : A -> A -> number) (x : A) (l : list A)
  : list A :=
  match l with
  | [] => [x]
  | y :: rest =>
      if Z.ltb 0 (SortCompare comparefn x y)
      then y :: sort_insert comparefn x rest
      else x :: y :: rest
  end.

Definition Array_sort {A : Type} (comparefn : A -> A -> number) (l : list A) : list A :=
  foldr (sort_insert comparefn) [] l.

(** One card of the tab: the rank badge [#index + 1] and the topic. *)
Record Card : Type := mkCard {
  rank : nat;
  topic : TrendingTopic
}.

(** The cards of the "Trending Topics" tab:
    [trending_topics.sort(...).map((topic, index) => ...)]. *)
Definition TrendingTopicsTab (trending_topics : list TrendingTopic) : list Card :=
  imap (fun index t => mkCard (S index) t) (Array_sort compareFn trending_topics).

(** [a >= b] on numbers; false as soon as one side is NaN. *)
Definition num_ge (a b : number) : bool :=
  match a, b with
  | NaN, _ | _, NaN => false
  | PosInfinity, _ => true
  | _, NegInfinity => true
  | NegInfinity, _ => false
  | _, PosInfinity => false
  | Finite p, Finite q => Qle_bool q p
  end.

(** Adjacent cards are in non-increasing order of score. *)
Definition ranked (cards : list Card) : Prop :=
  forall (i : nat) (c1 c2 : Card),
    cards !! i = Some c1 -> cards !! S i = Some c2 ->
    num_ge (popularity_score (topic c1)) (popularity_score (topic c2)) = true.

End ContentEngine.

(** ** Regular expressions, as far as the form validation uses them *)

Module RegExp.

(** Characters are the code units below 256. *)
Inductive regex : Type :=
| Empty
| Eps
| Cls (p : ascii -> bool)
| Seq (r1 r2 : regex)
| Alt (r1 r2 : regex)
| Star (r : regex).

Definition Plus (r : regex) : regex := Seq r (Star r).
Definition Opt (r : regex) : regex := Alt Eps r.

(** [r{0,n}] *)
Fixpoint UpTo (n : nat) (r : regex) : regex :=
  match n with
  | O => Eps
  | S k => Opt (Seq r (UpTo k r))
  end.

Fixpoint nullable (r : regex) : bool :=
  match r with
  | Empty => false
  | Eps => true
  | Cls _ => false
  | Seq r1 r2 => nullable r1 && nullable r2
  | Alt r1 r2 => nullable r1 || nullable r2
  | Star _ => true
  end.

(** The derivative of a pattern by one character. *)
Fixpoint deriv (c : ascii) (r : regex) : regex :=
  match r with
  | Empty => Empty
  | Eps => Empty
  | Cls p => if p c then Eps else Empty
  | Seq r1 r2 =>
      if nullable r1
      then Alt (Seq (deriv c r1) r2) (deriv c r2)
      else Seq (deriv c r1) r2
  | Alt r1 r2 => Alt (deriv c r1) (deriv c r2)
  | Star r' => Seq (deriv c r') (Star r')
  end.

(** [/^r$/.test(s)] *)
Definition test (r : regex) (s : string) : bool :=
  nullable (fold_left (fun r' c => deriv c r') (list_ascii_of_string s) r).

Definition code (c : ascii) : N := N_of_ascii c.

(** [\s] on code units below 256: tab, line feed, vertical tab, form
    feed, carriage return, space and the no-break space. *)
Definition is_space (c : ascii) : bool :=
  let n := code c in
  (N.leb 9 n && N.leb n 13) || N.eqb n 32 || N.eqb n 160.

(** [\d] *)
Definition is_digit (c : ascii) : bool :=
  let n := code c in N.leb 48 n && N.leb n 57.

Definition is_char (x : ascii) (c : ascii) : bool := Ascii.eqb c x.

Fixpoint dropWhile (p : ascii -> bool) (l : list ascii) : list ascii :=
  match l with
  | [] => []
  | c :: rest => if p c then dropWhile p rest else l
  end.

(** [String.prototype.trim] *)
Definition trim (s : string) : string :=
  string_of_list_ascii
    (rev (dropWhile is_space (rev (dropWhile is_space (list_ascii_of_string s))))).

(** [s.replace(/[cls]/g, '')] for a character class [cls]. *)
Definition remove_all (cls : ascii -> bool) (s : string) : string :=
  string_of_list_ascii (List.filter (fun c => negb (cls c)) (list_ascii_of_string s)).

(** What it means for a sequence of characters to match a pattern. *)
Inductive matches : regex -> list ascii -> Prop :=
| matches_eps : matches Eps []
| matches_cls (p : ascii -> bool) (c : ascii) : p c = true -> matches (Cls p) [c]
| matches_seq (r1 r2 : regex) (s1 s2 : list ascii) :
    matches r1 s1 -> matches r2 s2 -> matches (Seq r1 r2) (s1 ++ s2)
| matches_alt_l (r1 r2 : regex) (s : list ascii) :
    matches r1 s -> matches (Alt r1 r2) s
| matches_alt_r (r1 r2 : regex) (s : list ascii) :
    matches r2 s -> matches (Alt r1 r2) s
| matches_star_nil (r : regex) : matches (Star r) []
| matches_star_app (r : regex) (s1 s2 : list ascii) :
    matches r s1 -> matches (Star r) s2 -> matches (Star r) (s1 ++ s2).

(** Every character of the sequence is in the class. *)
Definition all_in (p : ascii -> bool) (l : list ascii) : Prop :=
  Forall (fun c => p c = true) l.

End RegExp.

(** ** [components/ClientForm.tsx] *)

Module ClientForm.

Import RegExp.

(** The [client] prop. *)
Record Client : Type := mkClient {
  id : option Z;
  name : string;
  email : string;
  phone : option string;
  company : option string;
  status : string;
  onboarding_stage : string
}.

(** The form state: the six properties it is created with. *)
Record FormData : Type := mkForm {
  fd_name : string;
  fd_email : string;
  fd_phone : string;
  fd_company : string;
  fd_status : string;
  fd_onboarding_stage : string
}.

(** [x || d] on a string that may be missing. *)
Definition or_default (x : option string) (d : string) : string :=
  match x with
  | Some s => if JS.truthy_string s then s else d
  | None => d
  end.

(** The initial value handed to [useState]. *)
Definition initialForm (client : option Client) : FormData :=
  mkForm (or_default (name <$> client) "")
         (or_default (email <$> client) "")
         (or_default (client ≫= phone) "")
         (or_default (client ≫= company) "")
         (or_default (status <$> client) "pending")
         (or_default (onboarding_stage <$> client) "initial").

Inductive Field : Type :=
| FName | FEmail | FPhone | FCompany | FStatus | FOnboardingStage.

(** [handleInputChange]: the state update [{ ...prev, [field]: value }]. *)
Definition handleInputChange (field : Field) (v : string) (prev : FormData) : FormData :=
  match field with
  | FName => mkForm v (fd_email prev) (fd_phone prev) (fd_company prev)
               (fd_status prev) (fd_onboarding_stage prev)
  | FEmail => mkForm (fd_name prev) v (fd_phone prev) (fd_company prev)
               (fd_status prev) (fd_onboarding_stage prev)
  | FPhone => mkForm (fd_name prev) (fd_email prev) v (fd_company prev)
               (fd_status prev) (fd_onboarding_stage prev)
  | FCompany => mkForm (fd_name prev) (fd_email prev) (fd_phone prev) v
               (fd_status prev) (fd_onboarding_stage prev)
  | FStatus => mkForm (fd_name prev) (fd_email prev) (fd_phone prev) (fd_company prev)
               v (fd_onboarding_stage prev)
  | FOnboardingStage => mkForm (fd_name prev) (fd_email prev) (fd_phone prev)
               (fd_company prev) (fd_status prev) v
  end.

(** [[^\s@]] *)
Definition not_space_at (c : ascii) : bool := negb (is_space c || is_char "@" c).

(** [/^[^\s@]+@[^\s@]+\.[^\s@]+$/] *)
Definition email_re : regex :=
  Seq (Plus (Cls not_space_at))
    (Seq (Cls (is_char "@"))
       (Seq (Plus (Cls not_space_at))
          (Seq (Cls (is_char ".")) (Plus (Cls not_space_at))))).

(** [/^[\+]?[1-9][\d]{0,15}$/] *)
Definition phone_re : regex :=
  Seq (Opt (Cls (is_char "+")))
    (Seq (Cls (fun c => N.leb 49 (code c) && N.leb (code c) 57))
       (UpTo 15 (Cls is_digit))).

(** [[\s\-\(\)]] *)
Definition phone_noise (c : ascii) : bool :=
  is_space c || is_char "-" c || is_char "(" c || is_char ")" c.

(** [validateForm]: the error object it builds. *)
Definition newErrors (f : FormData) : list (string * string) :=
  (if negb (JS.truthy_string (trim (fd_name f)))
   then [("name", "Name is required")] else [])
  ++ (if negb (JS.truthy_string (trim (fd_email f)))
      then [("email", "Email is required")]
      else if negb (test email_re (fd_email f))
           then [("email", "Please enter a valid email address")] else [])
  ++ (if JS.truthy_string (fd_phone f)
         && negb (test phone_re (remove_all phone_noise (fd_phone f)))
      then [("phone", "Please enter a valid phone number")] else []).

Definition validateForm (f : FormData) : bool :=
  Nat.eqb (length (newErrors f)) 0.

(** The object React Query hands to [api.post]/[api.put]: the form
    state itself. *)
Definition body (f : FormData) : list (string * JS.value) :=
  [("name", JS.VStr (fd_name f));
   ("email", JS.VStr (fd_email f));
   ("phone", JS.VStr (fd_phone f));
   ("company", JS.VStr (fd_company f));
   ("status", JS.VStr (fd_status f));
   ("onboarding_stage", JS.VStr (fd_onboarding_stage f))].

Definition createClientMutation (f : FormData) : Http.ApiCall :=
  Http.mkApiCall Http.POST (Http.path "/api/v1/clients/") (Some (JS.VObj (body f))).

Definition updateClientMutation (client_id : Z) (f : FormData) : Http.ApiCall :=
  Http.mkApiCall Http.PUT (Http.path ("/api/v1/clients/" +:+ pretty client_id))
    (Some (JS.VObj (body f))).

(** [handleSubmit]: nothing is sent when validation fails; otherwise an
    update when the [client] prop carries a truthy id, a creation when
    it does not. *)
Definition handleSubmit (client : option Client) (f : FormData) : option Http.ApiCall :=
  if validateForm f then
    match client ≫= id with
    | Some i => if Z.eqb i 0 then Some (createClientMutation f)
                else Some (updateClientMutation i f)
    | None => Some (createClientMutation f)
    end
  else None.

End ClientForm.

(** ** [ContentEngine]: the search form *)

Module ContentEngineForm.

Import JS.

(** The search form of the page. *)
Record SearchParams : Type := mkSearchParams {
  field : string;
  content_type : string;
  target_audience : string;
  industry : string;
  custom_topics : list string
}.

Record State : Type := mkState {
  searchParams : SearchParams;
  newCustomTopic : string;
  showCustomTopicInput : bool
}.

(** [addCustomTopic]: a topic that is empty once trimmed is ignored;
    otherwise the trimmed topic is appended, the input emptied and
    hidden. *)
Definition addCustomTopic (s : State) : State :=
  if truthy_string (RegExp.trim (newCustomTopic s)) then
    let prev := searchParams s in
    mkState
      (mkSearchParams (field prev) (content_type prev) (target_audience prev)
         (industry prev) (custom_topics prev ++ [RegExp.trim (newCustomTopic s)]))
      "" false
  else s.

(** [topics.filter((_, i) => i !== index)], the callback being called
    with the positions [i], [i + 1], ... *)
Fixpoint filter_not_index {A : Type} (index i : nat) (l : list A) : list A :=
  match l with
  | [] => []
  | x :: rest =>
      if Nat.eqb i index then filter_not_index index (S i) rest
      else x :: filter_not_index index (S i) rest
  end.

Definition removeCustomTopic (index : nat) (s : State) : State :=
  let prev := searchParams s in
  mkState
    (mkSearchParams (field prev) (content_type prev) (target_audience prev)
       (industry prev) (filter_not_index index 0 (custom_topics prev)))
    (newCustomTopic s) (showCustomTopicInput s).

(** The search form as a request body. *)
Definition params_body (p : SearchParams) : value :=
  VObj [("field", VStr (field p));
        ("content_type", VStr (content_type p));
        ("target_audience", VStr (target_audience p));
        ("industry", VStr (industry p));
        ("custom_topics", VArr (map VStr (custom_topics p)))].

(** [handleDiscoverTopics]: the call it makes, if any. *)
Definition handleDiscoverTopics (p : SearchParams) : option Http.ApiCall :=
  if truthy_string (field p) && truthy_string (content_type p)
  then Some (Http.mkApiCall Http.POST (Http.path "/api/v1/content/discover-topics")
               (Some (params_body p)))
  else None.

(** [handleGeneratePDF]: the call it makes, if any. *)
Definition handleGeneratePDF (p : SearchParams) : option Http.ApiCall :=
  if truthy_string (field p) && truthy_string (content_type p)
  then Some (Http.mkApiCall Http.POST (Http.path "/api/v1/content/generate-pdf-report")
               (Some (params_body p)))
  else None.

(** The [disabled] attribute shared by the two action buttons;
    [isPending] is the state of the button's own mutation. *)
Definition action_disabled (isPending : bool) (p : SearchParams) : bool :=
  isPending || negb (truthy_string (field p)) || negb (truthy_string (content_type p)).

(** [analyzeCustomTopic]: clicking a custom topic asks for its
    analysis with the current field and content type. *)
Definition analyzeCustomTopic (p : SearchParams) (topic_title : string) : Http.ApiCall :=
  Http.mkApiCall Http.POST (Http.path "/api/v1/content/analyze-custom-topic")
    (Some (VObj [("topic_title", VStr topic_title);
                 ("field", VStr (field p));
                 ("content_type", VStr (content_type p))])).

(** The [trending-keywords] query function: without a field it returns
    [null] and makes no call. *)
Definition keywords_queryFn (api_get : Http.Url -> Http.outcome) (p : SearchParams)
  : Http.settled :=
  if negb (truthy_string (field p)) then Http.Resolved VNull
  else
    match api_get (Http.path ("/api/v1/content/trending-keywords/" +:+ field p)) with
    | Http.Fulfilled data => Http.Resolved data
    | Http.Failed e => Http.Rejected e
    end.

End ContentEngineForm.

(** ** [pages/Clients.tsx]: the client list *)

Module Clients.

Record Client : Type := mkClient {
  id : Z;
  name : string;
  email : string;
  phone : option string;
  company : option string;
  status : string;
  onboarding_stage : string;
  owner_id : Z;
  created_at : string;
  updated_at : option string
}.

(** The target of the [clients] query. *)
Definition clients_url (searchTerm statusFilter : string) (currentPage perPage : Z)
  : Http.Url :=
  Http.mkUrl "/api/v1/clients/"
    ([("page", pretty currentPage); ("per_page", pretty perPage)]
     ++ (if JS.truthy_string searchTerm then [("search", searchTerm)] else [])
     ++ (if JS.truthy_string statusFilter then [("status", statusFilter)] else [])).

(** [clientsResponse?.items || []]; the query declares its data as a
    [PaginatedClientResponse], whose [items] is an array of clients. *)
Definition clients (clientsResponse : option JS.value) : list JS.value :=
  match clientsResponse with
  | Some (JS.VObj props) =>
      match JS.get_prop "items" props with
      | Some (JS.VArr rows) => rows
      | _ => []
      end
  | _ => []
  end.

(** The number on the [i]-th numbered page button. *)
Definition pageNum (page pages i : Z) : Z :=
  if Z.leb pages 5 then i + 1
  else if Z.leb page 3 then i + 1
  else if Z.geb page (pages - 2) then pages - 4 + i
  else page - 2 + i.

(** The numbered page buttons:
    [Array.from({ length: Math.min(5, pages) }, (_, i) => ...)]. *)
Definition pageButtons (page pages : Z) : list Z :=
  map (fun i => pageNum page pages (Z.of_nat i)) (seq 0 (Z.to_nat (Z.min 5 pages))).

(** The two numbers of "Showing a to b of total results". *)
Definition showing (page perPage total : Z) : Z * Z :=
  ((page - 1) * perPage + 1, Z.min (page * perPage) total).

(** The [clientStats] query function. *)
Definition stats_queryFn (api_get : Http.Url -> Http.outcome) : Http.settled :=
  match api_get (Http.path "/api/v1/clients/stats") with
  | Http.Fulfilled data => Http.Resolved data
  | Http.Failed e => Http.Rejected e
  end.

(** The [clients] query function. *)
Definition clients_queryFn (api_get : Http.Url -> Http.outcome)
    (searchTerm statusFilter : string) (currentPage perPage : Z) : Http.settled :=
  match api_get (clients_url searchTerm statusFilter currentPage perPage) with
  | Http.Fulfilled data => Http.Resolved data
  | Http.Failed e => Http.Rejected e
  end.

End Clients.

(** ** The client resource behind the REST API *)

Module Backend.

(** Modelled from the spec: the stored client rows of the REST backend
    (its handlers and models are not among the sources). "Each is a flat
    relational row"; the columns are the ones the list page reads. *)
Definition table : Type := list Clients.Client.

(** Modelled from the spec: the key the backend gives a new row, one
    past the largest key in use. *)
Definition next_id (db : table) : Z :=
  1 + fold_right Z.max 0 (map Clients.id db).

(** Modelled from the spec: reading one text field of a JSON body. *)
Definition str_field (k : string) (body : list (string * JS.value)) : option string :=
  match JS.get_prop k body with
  | Some (JS.VStr s) => Some s
  | _ => None
  end.

(** Modelled from the spec: the handler of [POST /api/v1/clients/]
    ("created via POST", "create → read returns same fields"). It
    stores one row holding the fields of the body, owned by the caller;
    a body without the required text fields is refused and stores
    nothing ("4xx for validation/auth failures"). *)
Definition create_client (owner : Z) (now : string) (body : list (string * JS.value))
    (db : table) : table :=
  match str_field "name" body, str_field "email" body,
        str_field "status" body, str_field "onboarding_stage" body with
  | Some n, Some e, Some s, Some o =>
      db ++ [Clients.mkClient (next_id db) n e (str_field "phone" body)
               (str_field "company" body) s o owner now None]
  | _, _, _, _ => db
  end.

(** Modelled from the spec: reading a decimal number from a path or
    query parameter; [seen] records that a digit has been read, so the
    empty text is refused. *)
Fixpoint digits (seen : bool) (s : string) (acc : N) : option N :=
  match s with
  | EmptyString => if seen then Some acc else None
  | String c rest =>
      if RegExp.is_digit c then digits true rest (acc * 10 + (RegExp.code c - 48))%N
      else None
  end.

(** Modelled from the spec: a natural number in decimal. *)
Definition parse_N (s : string) : option N := digits false s 0%N.

(** Modelled from the spec: an integer in decimal, with a minus sign
    when it is negative. *)
Definition parse_Z (s : string) : option Z :=
  match parse_N s with
  | Some n => Some (Z.of_N n)
  | None =>
      match s with
      | String "-" rest => (fun n => - Z.of_N n) <$> parse_N rest
      | _ => None
      end
  end.

(** Modelled from the spec: what follows a fixed prefix of a path. *)
Fixpoint strip_prefix (prefix s : string) : option string :=
  match prefix with
  | EmptyString => Some s
  | String a prefix' =>
      match s with
      | String b s' => if Ascii.eqb a b then strip_prefix prefix' s' else None
      | EmptyString => None
      end
  end.

(** Modelled from the spec: the value of a query parameter, absent when
    the request does not carry it. *)
Definition query_param (k : string) (url : Http.Url) : option string :=
  snd <$> List.find (fun kv => String.eqb (fst kv) k) (Http.url_query url).

(** Modelled from the spec: a column that may be empty, as JSON. *)
Definition opt_str (x : option string) : JS.value :=
  match x with
  | Some s => JS.VStr s
  | None => JS.VNull
  end.

(** Modelled from the spec: a stored row as the JSON object of a
    response ("JSON over HTTP"); the properties are the ones the list
    page declares for a client. *)
Definition client_json (r : Clients.Client) : JS.value :=
  JS.VObj [("id", JS.VNum (JS.num_of_Z (Clients.id r)));
           ("name", JS.VStr (Clients.name r));
           ("email", JS.VStr (Clients.email r));
           ("phone", opt_str (Clients.phone r));
           ("company", opt_str (Clients.company r));
           ("status", JS.VStr (Clients.status r));
           ("onboarding_stage", JS.VStr (Clients.onboarding_stage r));
           ("owner_id", JS.VNum (JS.num_of_Z (Clients.owner_id r)));
           ("created_at", JS.VStr (Clients.created_at r));
           ("updated_at", opt_str (Clients.updated_at r))].

(** Modelled from the spec: the page of rows [page] when the rows are
    cut into pages of [per_page]. *)
Definition slice (page per_page : Z) (rows : table) : table :=
  take (Z.to_nat per_page) (drop (Z.to_nat ((page - 1) * per_page)) rows).

(** Modelled from the spec: the response of a list read; the properties
    are the ones the list page declares for it. *)
Definition page_json (rows : table) (page per_page : Z) : JS.value :=
  let total := Z.of_nat (length rows) in
  let pages := (total + per_page - 1) / per_page in
  JS.VObj [("items", JS.VArr (map client_json (slice page per_page rows)));
           ("total", JS.VNum (JS.num_of_Z total));
           ("page", JS.VNum (JS.num_of_Z page));
           ("per_page", JS.VNum (JS.num_of_Z per_page));
           ("pages", JS.VNum (JS.num_of_Z pages));
           ("has_next", JS.VBool (Z.ltb page pages));
           ("has_prev", JS.VBool (Z.ltb 1 page))].

Section Reads.

(** Modelled from the spec: the text search of the list read ("search
    by name/email/company" in the development guide); how it matches is
    not described and is left open. *)
Variable text_search : string -> Clients.Client -> bool.

(** Modelled from the spec: the order in which a list read returns the
    rows; it is not described and is left open. *)
Variable order : table -> table.

(** Modelled from the spec: the rows a list read selects, "search/
    filter/pagination" in the development guide: the caller's own rows
    ("each user manages their own clients"), with the given status when
    a status is asked for, matching the search when one is given. *)
Definition selected (owner : Z) (search status : option string) (r : Clients.Client)
  : bool :=
  Z.eqb (Clients.owner_id r) owner
  && match status with
     | Some s => String.eqb (Clients.status r) s
     | None => true
     end
  && match search with
     | Some term => text_search term r
     | None => true
     end.

(** Modelled from the spec: the selected rows, in the order of the
    read. *)
Definition rows_for (owner : Z) (search status : option string) (db : table) : table :=
  order (List.filter (selected owner search status) db).

(** Modelled from the spec: the handler of [GET /api/v1/clients/]. A
    request without a proper [page] and [per_page] is refused ("4xx for
    validation/auth failures"). *)
Definition list_clients (owner : Z) (url : Http.Url) (db : table) : Http.outcome :=
  match query_param "page" url ≫= parse_Z, query_param "per_page" url ≫= parse_Z with
  | Some page, Some per_page =>
      if Z.leb 1 page && Z.leb 1 per_page
      then Http.Fulfilled
             (page_json (rows_for owner (query_param "search" url)
                           (query_param "status" url) db)
                page per_page)
      else Http.Failed "422"
  | _, _ => Http.Failed "422"
  end.

(** Modelled from the spec: the handler of [GET /api/v1/clients/{id}],
    which reads the stored row back. *)
Definition read_client (owner client_id : Z) (db : table) : option Clients.Client :=
  List.find (fun r => Z.eqb (Clients.id r) client_id && Z.eqb (Clients.owner_id r) owner) db.

(** Modelled from the spec: the server's reaction to a read of the
    client resource, routed by path: the list read and the read of one
    client. The other reads (the statistics among them) are not
    modelled and are answered like an unknown path. *)
Definition get (owner : Z) (db : table) (url : Http.Url) : Http.outcome :=
  if String.eqb (Http.url_path url) "/api/v1/clients/" then list_clients owner url db
  else
    match strip_prefix "/api/v1/clients/" (Http.url_path url) ≫= parse_Z with
    | Some client_id =>
        match read_client owner client_id db with
        | Some r => Http.Fulfilled (client_json r)
        | None => Http.Failed "404"
        end
    | None => Http.Failed "404"
    end.

End Reads.

(** Modelled from the spec: a stored task row, by column name. *)
Abbreviation task_row := (gmap string JS.value).

(** Modelled from the spec: the handler of [PUT /api/v1/tasks/{id}]
    ("mutated via PUT/PATCH", "update changes only targeted fields"):
    the columns named in the body take the body's values. *)
Definition update_task (body : list (string * JS.value)) (row : task_row) : task_row :=
  foldr (fun kv r => <[kv.1 := kv.2]> r) row body.

(** Modelled from the spec: the server's reaction to a call of the
    client form, routed by verb and path. *)
Definition handle (owner : Z) (now : string) (call : Http.ApiCall) (db : table) : table :=
  match Http.api_method call, Http.api_body call with
  | Http.POST, Some (JS.VObj body) =>
      if String.eqb (Http.url_path (Http.api_url call)) "/api/v1/clients/"
      then create_client owner now body db
      else db
  | _, _ => db
  end.

End Backend.

(** ** [pages/EmployeeProfile.tsx]: the profile queries *)

Module EmployeeProfile.

Import JS.

Definition int (z : Z) : value := VNum (num_of_Z z).
Definition dec (q : Q) : value := VNum (Finite q).

Section Queries.

(** [new Date(t).toISOString()], a built-in of the platform. *)
Variable toISOString : Z -> string.

(** The shared axios instance, as the function from the requested
    target to how the call ends. *)
Variable api_get : Http.Url -> Http.outcome.

(** The route parameter; a query is only enabled when it is bound. *)
Variable id : string.

(** The [employee] query: the promise of the call itself. *)
Definition employee_queryFn : Http.settled :=
  match api_get (Http.path ("/api/v1/users/" +:+ id)) with
  | Http.Fulfilled data => Http.Resolved data
  | Http.Failed e => Http.Rejected e
  end.

(** The object returned by the [catch] block of the task analytics
    query; [clock k] is the value read by the [k]-th [new Date()]. *)
Definition taskAnalytics_mock (clock : nat -> Z) : value :=
  VObj [("total_tasks", int 8);
        ("completed_tasks", int 5);
        ("in_progress_tasks", int 2);
        ("overdue_tasks", int 1);
        ("total_hours_logged", dec (85 # 2));
        ("avg_completion_time", dec (31 # 5));
        ("productivity_score", dec (171 # 2));
        ("tasks_by_month",
          VArr [VObj [("month", VStr "Sep 2025"); ("count", int 3)];
                VObj [("month", VStr "Oct 2025"); ("count", int 5)]]);
        ("tasks_by_priority",
          VArr [VObj [("priority", VStr "high"); ("count", int 3)];
                VObj [("priority", VStr "medium"); ("count", int 4)];
                VObj [("priority", VStr "low"); ("count", int 1)]]);
        ("recent_tasks",
          VArr [VObj [("id", int 1);
                      ("title", VStr "Design homepage mockup");
                      ("status", VStr "completed");
                      ("priority", VStr "high");
                      ("type", VStr "design");
                      ("due_date", VStr (toISOString (clock 0%nat)));
                      ("created_at", VStr (toISOString (clock 1%nat)))]])].

Definition taskAnalytics_queryFn (clock : nat -> Z) : Http.settled :=
  match api_get (Http.path ("/api/v1/analytics/employee/" +:+ id +:+ "/tasks")) with
  | Http.Fulfilled data => Http.Resolved data
  | Http.Failed _ => Http.Resolved (taskAnalytics_mock clock)
  end.

Definition financeAnalytics_mock : value :=
  VObj [("total_revenue_generated", int 15750);
        ("billable_hours", int 210);
        ("hourly_rate", int 75);
        ("monthly_earnings",
          VArr [VObj [("month", VStr "Aug 2025"); ("amount", int 5250)];
                VObj [("month", VStr "Sep 2025"); ("amount", int 6000)];
                VObj [("month", VStr "Oct 2025"); ("amount", int 4500)]]);
        ("project_earnings",
          VArr [VObj [("project", VStr "TechCorp Solutions"); ("amount", int 7500)];
                VObj [("project", VStr "Marketing Pro Agency"); ("amount", int 4250)];
                VObj [("project", VStr "StartupXYZ"); ("amount", int 4000)]]);
        ("efficiency_rating", dec (21 # 5))].

Definition financeAnalytics_queryFn : Http.settled :=
  match api_get (Http.path ("/api/v1/analytics/employee/" +:+ id +:+ "/finance")) with
  | Http.Fulfilled data => Http.Resolved data
  | Http.Failed _ => Http.Resolved financeAnalytics_mock
  end.

Definition day_ms : Z := 24 * 60 * 60 * 1000.

(** The object returned by the [catch] block of the project analytics
    query; [clock k] is the value read by the [k]-th [Date.now()]. *)
Definition projectAnalytics_mock (clock : nat -> Z) : value :=
  VObj [("active_projects", int 2);
        ("completed_projects", int 3);
        ("total_projects", int 5);
        ("project_success_rate", int 90);
        ("projects",
          VArr [VObj [("id", int 1);
                      ("name", VStr "TechCorp Website Redesign");
                      ("status", VStr "in_progress");
                      ("progress", int 75);
                      ("client", VStr "TechCorp Solutions");
                      ("start_date", VStr (toISOString (clock 0%nat - 30 * day_ms)));
                      ("budget", int 15000)];
                VObj [("id", int 2);
                      ("name", VStr "Marketing Campaign");
                      ("status", VStr "completed");
                      ("progress", int 100);
                      ("client", VStr "Marketing Pro Agency");
                      ("start_date", VStr (toISOString (clock 1%nat - 60 * day_ms)));
                      ("end_date", VStr (toISOString (clock 2%nat - 10 * day_ms)));
                      ("budget", int 8000)]])].

Definition projectAnalytics_queryFn (clock : nat -> Z) : Http.settled :=
  match api_get (Http.path ("/api/v1/analytics/employee/" +:+ id +:+ "/projects")) with
  | Http.Fulfilled data => Http.Resolved data
  | Http.Failed _ => Http.Resolved (projectAnalytics_mock clock)
  end.

Definition leadAnalytics_mock : value :=
  VObj [("leads_generated", int 24);
        ("leads_converted", int 18);
        ("conversion_rate", int 75);
        ("monthly_leads",
          VArr [VObj [("month", VStr "Aug 2025"); ("leads", int 8); ("converted", int 6)];
                VObj [("month", VStr "Sep 2025"); ("leads", int 10); ("converted", int 8)];
                VObj [("month", VStr "Oct 2025"); ("leads", int 6); ("converted", int 4)]]);
        ("lead_sources",
          VArr [VObj [("source", VStr "referral"); ("count", int 8)];
                VObj [("source", VStr "website"); ("count", int 6)];
                VObj [("source", VStr "social_media"); ("count", int 5)];
                VObj [("source", VStr "email"); ("count", int 5)]]);
        ("avg_lead_value", int 1250)].

Definition leadAnalytics_queryFn : Http.settled :=
  match api_get (Http.path ("/api/v1/analytics/employee/" +:+ id +:+ "/leads")) with
  | Http.Fulfilled data => Http.Resolved data
  | Http.Failed _ => Http.Resolved leadAnalytics_mock
  end.

End Queries.

End EmployeeProfile.

(** ** Every place where a page calls [fetch] *)

Module Requests.

Inductive FetchSite : Type :=
| TaskManagement_fetchTasks (currentPage : Z) (filters : TaskManagement.Filters)
| TaskManagement_fetchStats
| TaskManagement_fetchEmployees
| TaskManagement_createTask (taskData : JS.value)
| TaskManagement_updateTaskStatus (taskId : Z) (status : string)
| PerformanceDashboard_fetchTeamOverview
| PerformanceDashboard_fetchEmployeeStats
| PerformanceDashboard_fetchEmployeeHistory (employeeId : Z)
| MeetingManagement_fetchMeetings
| MeetingManagement_fetchUsers
| MeetingManagement_fetchClients
| MeetingManagement_fetchLeads
| MeetingManagement_handleSubmit (editingMeeting : option MeetingManagement.Meeting)
    (formData : JS.value)
| MeetingManagement_handleDelete (id : Z)
| MeetingManagement_handleStatusUpdate (id : Z) (status : string)
| ClientPortal_handleSubmit (clientId : option string)
    (formData : ClientPortal.ClientPortalData).

(** The request a call site sends, given the local storage it reads. *)
Definition request (st : JS.Storage) (site : FetchSite) : Http.FetchCall :=
  match site with
  | TaskManagement_fetchTasks p f => TaskManagement.fetchTasks st p f
  | TaskManagement_fetchStats => TaskManagement.fetchStats st
  | TaskManagement_fetchEmployees => TaskManagement.fetchEmployees st
  | TaskManagement_createTask d => TaskManagement.createTask st d
  | TaskManagement_updateTaskStatus i s => TaskManagement.updateTaskStatus st i s
  | PerformanceDashboard_fetchTeamOverview => PerformanceDashboard.fetchTeamOverview st
  | PerformanceDashboard_fetchEmployeeStats => PerformanceDashboard.fetchEmployeeStats st
  | PerformanceDashboard_fetchEmployeeHistory i =>
      PerformanceDashboard.fetchEmployeeHistory st i
  | MeetingManagement_fetchMeetings => MeetingManagement.fetchMeetings st
  | MeetingManagement_fetchUsers => MeetingManagement.fetchUsers st
  | MeetingManagement_fetchClients => MeetingManagement.fetchClients st
  | MeetingManagement_fetchLeads => MeetingManagement.fetchLeads st
  | MeetingManagement_handleSubmit e d => MeetingManagement.handleSubmit st e d
  | MeetingManagement_handleDelete i => MeetingManagement.handleDelete st i
  | MeetingManagement_handleStatusUpdate i s => MeetingManagement.handleStatusUpdate st i s
  | ClientPortal_handleSubmit c d => ClientPortal.handleSubmit c d
  end.

Definition is_portal (site : FetchSite) : bool :=
  match site with
  | ClientPortal_handleSubmit _ _ => true
  | _ => false
  end.






End Requests.

(** ** [Layout]: the sidebar *)

Module Layout.

Record NavItem : Type := mkNavItem {
  name : string;
  href : string
}.

Definition navigation : list NavItem :=
  [mkNavItem "Dashboard" "/";
   mkNavItem "Finance" "/finance";
   mkNavItem "Clients" "/clients";
   mkNavItem "Leads" "/leads";
   mkNavItem "Tasks" "/tasks";
   mkNavItem "Content Engine" "/content";
   mkNavItem "AI Script Generator" "/ai-script-generator";
   mkNavItem "Reports" "/reports"].

Definition adminNavigation : list NavItem :=
  [mkNavItem "Employee Management" "/employees"].

(** The links of the sidebar, in order; the admin block is rendered
    when [user?.role === 'admin']. *)
Definition links (user : option Types.User) : list NavItem :=
  navigation
  ++ match user with
     | Some u => if String.eqb (Types.role u) "admin" then adminNavigation else []
     | None => []
     end.

(** [location.pathname === item.href] *)
Definition isActive (pathname : string) (item : NavItem) : bool :=
  String.eqb pathname (href item).

End Layout.

(** ** [components/ui/tabs.tsx] *)

Module Tabs.

(** The props of [Tabs] that decide the active tab. *)
Record Props : Type := mkProps {
  defaultValue : string;
  controlledValue : option string
}.

(** The state: [internalValue], initialised from [defaultValue]. *)
Definition initial (p : Props) : string := defaultValue p.

(** The active value handed to the context. *)
Definition value (p : Props) (internalValue : string) : string :=
  match controlledValue p with
  | Some v => v
  | None => internalValue
  end.

(** [handleValueChange]: the new internal value, and the value the
    [onValueChange] prop is called with. *)
Definition handleValueChange (p : Props) (internalValue newValue : string)
  : string * string :=
  (match controlledValue p with
   | Some _ => internalValue
   | None => newValue
   end,
   newValue).

(** [TabsTrigger]: highlighted when its value is the active one; a
    click asks for its own value. *)
Definition trigger_isActive (activeValue v : string) : bool := String.eqb activeValue v.

(** [TabsContent]: rendered ([Some children]) only when its value is
    the active one. *)
Definition TabsContent {C : Type} (activeValue v : string) (children : C) : option C :=
  if String.eqb activeValue v then Some children else None.

End Tabs.

(** ** [pages/EmployeeManagement.tsx] *)

Module EmployeeManagement.

Record Employee : Type := mkEmployee {
  id : Z;
  email : string;
  full_name : string;
  role : string;
  is_active : bool;
  created_at : string
}.

(** The state of the "Add Employee" form. *)
Record NewEmployee : Type := mkNewEmployee {
  ne_email : string;
  ne_full_name : string;
  ne_password : string;
  ne_role : string
}.

(** [handleCreateEmployee]: the call it makes, if any. *)
Definition handleCreateEmployee (n : NewEmployee) : option Http.ApiCall :=
  if JS.truthy_string (ne_email n) && JS.truthy_string (ne_full_name n)
     && JS.truthy_string (ne_password n)
  then Some (Http.mkApiCall Http.POST (Http.path "/api/v1/auth/register")
               (Some (JS.VObj [("email", JS.VStr (ne_email n));
                               ("full_name", JS.VStr (ne_full_name n));
                               ("password", JS.VStr (ne_password n))])))
  else None.

(** [handleToggleStatus] *)
Definition handleToggleStatus (e : Employee) : Http.ApiCall :=
  Http.mkApiCall Http.PUT (Http.path ("/api/v1/users/" +:+ pretty (id e)))
    (Some (JS.VObj [("is_active", JS.VBool (negb (is_active e)))])).

Record EmployeeStats : Type := mkStats {
  total_employees : nat;
  active_employees : nat;
  total_tasks_assigned : nat;
  completed_tasks : nat
}.

(** [getEmployeeStats]; [employees] is absent until the query has
    data. *)
Definition getEmployeeStats (employees : option (list Employee)) : option EmployeeStats :=
  match employees with
  | None => None
  | Some l => Some (mkStats (length l) (length (List.filter is_active l)) 0 0)
  end.

(** The number on the "Inactive" card:
    [stats.total_employees - stats.active_employees]. *)
Definition inactive_shown (st : EmployeeStats) : Z :=
  Z.of_nat (total_employees st) - Z.of_nat (active_employees st).

(** The [allEmployees] query function. *)
Definition employees_queryFn (api_get : Http.Url -> Http.outcome) : Http.settled :=
  match api_get (Http.path "/api/v1/users/employees") with
  | Http.Fulfilled data => Http.Resolved data
  | Http.Failed e => Http.Rejected e
  end.

End EmployeeManagement.

(** ** [AIScriptGenerator] *)

Module AIScriptGenerator.

Record ScriptForm : Type := mkScriptForm {
  topic : string;
  video_style : string;
  target_duration : JS.number;
  tone : string;
  include_hook : bool
}.

Definition form_body (f : ScriptForm) : JS.value :=
  JS.VObj [("topic", JS.VStr (topic f));
           ("video_style", JS.VStr (video_style f));
           ("target_duration", JS.VNum (target_duration f));
           ("tone", JS.VStr (tone f));
           ("include_hook", JS.VBool (include_hook f))].

(** [handleSubmit]: the call it makes, if any. *)
Definition handleSubmit (f : ScriptForm) : option Http.ApiCall :=
  if JS.truthy_string (RegExp.trim (topic f))
  then Some (Http.mkApiCall Http.POST (Http.path "/api/v1/ai/generate-script")
               (Some (form_body f)))
  else None.

(** The [disabled] attribute of the submit button. *)
Definition submit_disabled (isPending : bool) (f : ScriptForm) : bool :=
  isPending || negb (JS.truthy_string (RegExp.trim (topic f))).

(** The [ai-scripts] query function. *)
Definition scripts_queryFn (api_get : Http.Url -> Http.outcome) : Http.settled :=
  match api_get (Http.path "/api/v1/ai/scripts") with
  | Http.Fulfilled data => Http.Resolved data
  | Http.Failed e => Http.Rejected e
  end.

End AIScriptGenerator.

(** ** [ClientDetail]: the queries of the client page *)

Module ClientDetail.

(** The [client] query function; [clientId] is the route parameter. *)
Definition client_queryFn (api_get : Http.Url -> Http.outcome) (clientId : string)
  : Http.settled :=
  match api_get (Http.path ("/api/v1/clients/" +:+ clientId)) with
  | Http.Fulfilled data => Http.Resolved data
  | Http.Failed e => Http.Rejected e
  end.

(** The [client-portal-submissions] query function. *)
Definition portalSubmissions_queryFn (api_get : Http.Url -> Http.outcome)
    (clientId : string) : Http.settled :=
  match api_get (Http.path ("/api/v1/clients/" +:+ clientId +:+ "/portal-submissions")) with
  | Http.Fulfilled data => Http.Resolved data
  | Http.Failed e => Http.Rejected e
  end.

End ClientDetail.

(** ** [Dashboard] *)

Module Dashboard.

(** The [dashboard-stats] query function. *)
Definition stats_queryFn (api_get : Http.Url -> Http.outcome) : Http.settled :=
  match api_get (Http.path "/api/v1/dashboard/stats") with
  | Http.Fulfilled data => Http.Resolved data
  | Http.Failed e => Http.Rejected e
  end.

End Dashboard.

(** ** The vocabulary of the properties *)

Module Spec.

(** The fixed enumeration of task statuses. *)
Definition TaskStatus : list string :=
  ["todo"; "in_progress"; "review"; "completed"; "blocked"].

(** The forward transitions of a task's status. *)
Inductive forward : string -> string -> Prop :=
| forward_start : forward "todo" "in_progress"
| forward_review : forward "in_progress" "review"
| forward_complete : forward "in_progress" "completed"
| forward_approve : forward "review" "completed".

(** The position of a status along [todo → in_progress → review →
    completed/blocked]. *)
Definition stage (s : string) : option nat :=
  if String.eqb s "todo" then Some 0%nat
  else if String.eqb s "in_progress" then Some 1%nat
  else if String.eqb s "review" then Some 2%nat
  else if String.eqb s "completed" then Some 3%nat
  else if String.eqb s "blocked" then Some 3%nat
  else None.

(** [t] lies strictly after [s]. *)
Definition advances (s t : string) : Prop :=
  exists i j, stage s = Some i /\ stage t = Some j /\ (i < j)%nat.

(** The body of a status update: the object [{ status }]. *)
Definition status_body (s : string) : option JS.value :=
  Some (JS.VObj [("status", JS.VStr s)]).

(** An API that fails every call. *)
Definition always_fails (api : Http.Url -> Http.outcome) : Prop :=
  forall url, exists e, api url = Http.Failed e.

(** A query falls back to placeholder data when, whatever the failure,
    it resolves to one and the same object. *)
Definition falls_back (queryFn : (Http.Url -> Http.outcome) -> Http.settled) : Prop :=
  exists placeholder, forall api, always_fails api -> queryFn api = Http.Resolved placeholder.

(** What one status button of [pages/Tasks.tsx] does to its task. *)
Definition Tasks_button_ok (task : Tasks.Task) (b : Tasks.Button) : Prop :=
  forward (Tasks.status task) (Tasks.newStatus b)
  /\ advances (Tasks.status task) (Tasks.newStatus b)
  /\ Tasks.status task <> "completed"
  /\ Tasks.status task <> "blocked"
  /\ Tasks.onClick task b
     = Http.mkApiCall Http.PUT (Http.path ("/api/v1/tasks/" +:+ pretty (Tasks.id task)))
         (status_body (Tasks.newStatus b)).

(** What one status button of [TaskManagement] does to its task: the
    request goes to the path of the task the card is rendered for. *)
Definition TaskManagement_button_ok (st : JS.Storage) (task : TaskManagement.Task)
    (b : TaskManagement.Button) : Prop :=
  forward (TaskManagement.status task) (TaskManagement.newStatus b)
  /\ advances (TaskManagement.status task) (TaskManagement.newStatus b)
  /\ TaskManagement.status task <> "completed"
  /\ TaskManagement.status task <> "blocked"
  /\ TaskManagement.onClick st task b
     = Http.mkFetchCall
         (Http.path ("http://localhost:8000/api/v1/tasks/"
                     +:+ pretty (TaskManagement.id task)))
         Http.PUT (TaskManagement.auth_headers st)
         (status_body (TaskManagement.newStatus b)).

(** A query falls back to the given placeholder at its call: whenever
    the call at [url] fails, whatever any other call does, the query
    resolves to the placeholder. *)
Definition falls_back_at (url : Http.Url) (placeholder : JS.value)
    (queryFn : (Http.Url -> Http.outcome) -> Http.settled) : Prop :=
  forall (api : Http.Url -> Http.outcome) (e : string),
    api url = Http.Failed e -> queryFn api = Http.Resolved placeholder.

(** A query surfaces the error of its call: whenever the call at [url]
    fails, the query rejects with the error of that call. *)
Definition rejects_at (url : Http.Url)
    (queryFn : (Http.Url -> Http.outcome) -> Http.settled) : Prop :=
  forall (api : Http.Url -> Http.outcome) (e : string),
    api url = Http.Failed e -> queryFn api = Http.Rejected e.

(** The target of the task list query: the filters that are set, in
    the order status, priority, assignee. *)
Definition tasks_url (statusFilter priorityFilter assigneeFilter : string) : Http.Url :=
  Http.mkUrl "/api/v1/tasks/"
    (List.filter (fun kv => JS.truthy_string (snd kv))
       [("status", statusFilter); ("priority", priorityFilter);
        ("assigned_to_id", assigneeFilter)]).

(** An API on which one call fails and every other call succeeds. *)
Definition failing_only (url : Http.Url) (e : string) (data : JS.value)
  : Http.Url -> Http.outcome :=
  fun u =>
    if String.eqb (Http.url_path u) (Http.url_path url) then Http.Failed e
    else Http.Fulfilled data.

(** The fields a caller of the status update provides. *)
Definition provided (a : Tasks.UpdateArgs) : list string :=
  (match Tasks.arg_status a with Some _ => ["status"] | None => [] end)
  ++ (match Tasks.arg_actual_hours a with Some _ => ["actual_hours"] | None => [] end).

(** An API that is down: every call fails with the same error. *)
Definition failing_api (e : string) : Http.Url -> Http.outcome :=
  fun _ => Http.Failed e.

(** Membership of a string in a list of literals. *)
Definition mem (s : string) (l : list string) : bool := existsb (String.eqb s) l.

(** The form creates (rather than updates) when its [client] prop has
    no truthy id. *)
Definition create_mode (client : option ClientForm.Client) : bool :=
  match client ≫= ClientForm.id with
  | Some i => Z.eqb i 0
  | None => true
  end.

(** The six fields of the form, and the value the form state holds for
    each. *)
Definition fields : list ClientForm.Field :=
  [ClientForm.FName; ClientForm.FEmail; ClientForm.FPhone; ClientForm.FCompany;
   ClientForm.FStatus; ClientForm.FOnboardingStage].

Definition field_value (field : ClientForm.Field) (f : ClientForm.FormData) : string :=
  match field with
  | ClientForm.FName => ClientForm.fd_name f
  | ClientForm.FEmail => ClientForm.fd_email f
  | ClientForm.FPhone => ClientForm.fd_phone f
  | ClientForm.FCompany => ClientForm.fd_company f
  | ClientForm.FStatus => ClientForm.fd_status f
  | ClientForm.FOnboardingStage => ClientForm.fd_onboarding_stage f
  end.

(** The property name of a form field. *)
Definition field_key (field : ClientForm.Field) : string :=
  match field with
  | ClientForm.FName => "name"
  | ClientForm.FEmail => "email"
  | ClientForm.FPhone => "phone"
  | ClientForm.FCompany => "company"
  | ClientForm.FStatus => "status"
  | ClientForm.FOnboardingStage => "onboarding_stage"
  end.

(** What the visitor does to the form before submitting: a sequence of
    input events, each on one field. *)
Definition typing (edits : list (ClientForm.Field * string)) (f0 : ClientForm.FormData)
  : ClientForm.FormData :=
  fold_left (fun f e => ClientForm.handleInputChange (fst e) (snd e) f) edits f0.

(** The value entered for a field: what the last input event on the
    field left there, or what the form showed from the start. *)
Fixpoint entered (field : ClientForm.Field) (edits : list (ClientForm.Field * string))
    (shown : string) : string :=
  match edits with
  | [] => shown
  | (field', v) :: rest =>
      entered field rest
        (if String.eqb (field_key field') (field_key field) then v else shown)
  end.

(** A row of a response holds the values of the form under the six
    property names. *)
Definition same_fields (f : ClientForm.FormData) (row : JS.value) : Prop :=
  exists props : list (string * JS.value),
    row = JS.VObj props
    /\ forall field : ClientForm.Field,
         JS.get_prop (field_key field) props = Some (JS.VStr (field_value field f)).

(** The [id] property of a row of a response. *)
Definition row_id (row : JS.value) : option JS.value :=
  match row with
  | JS.VObj props => JS.get_prop "id" props
  | _ => None
  end.

(** A client passes the filters of the list page: a filter that is
    left empty lets every client through. *)
Definition passes (text_search : string -> Clients.Client -> bool)
    (searchTerm statusFilter : string) (r : Clients.Client) : Prop :=
  (searchTerm = "" \/ text_search searchTerm r = true)
  /\ (statusFilter = "" \/ Clients.status r = statusFilter).

(** The row the backend stores for a form. *)
Definition stored_row (new_id owner : Z) (now : string) (f : ClientForm.FormData)
  : Clients.Client :=
  Clients.mkClient new_id (ClientForm.fd_name f) (ClientForm.fd_email f)
    (Some (ClientForm.fd_phone f)) (Some (ClientForm.fd_company f))
    (ClientForm.fd_status f) (ClientForm.fd_onboarding_stage f) owner now None.

(** The rows the list page shows for its state, read from a backend
    whose table is [db]. *)
Definition shown (text_search : string -> Clients.Client -> bool)
    (order : Backend.table -> Backend.table) (owner : Z) (db : Backend.table)
    (searchTerm statusFilter : string) (currentPage perPage : Z) : list JS.value :=
  Clients.clients
    (Http.data
       (Clients.clients_queryFn (Backend.get text_search order owner db)
          searchTerm statusFilter currentPage perPage)).

(** A text search for the examples: the term occurs in the name, the
    e-mail address or the company. *)
Definition occurs (term s : string) : bool :=
  match String.index 0 term s with
  | Some _ => true
  | None => false
  end.

Definition sample_text_search (term : string) (r : Clients.Client) : bool :=
  occurs term (Clients.name r) || occurs term (Clients.email r)
  || match Clients.company r with
     | Some c => occurs term c
     | None => false
     end.

(** What the visitor types into the blank form. *)
Definition sample_edits : list (ClientForm.Field * string) :=
  [(ClientForm.FName, "Ann"); (ClientForm.FEmail, "ann@example.com");
   (ClientForm.FName, "Ann Lee"); (ClientForm.FPhone, "+1 (555) 010-2030");
   (ClientForm.FCompany, "Acme")].

(** The order the tab promises, on topics. *)
Definition outranks (a b : ContentEngine.TrendingTopic) : Prop :=
  ContentEngine.num_ge (ContentEngine.popularity_score a)
    (ContentEngine.popularity_score b) = true.

(** A score that a JSON response can carry: any number but NaN. *)
Definition is_score (t : ContentEngine.TrendingTopic) : Prop :=
  ContentEngine.popularity_score t <> JS.NaN.

(** A meeting starts strictly after, or strictly before, the instant
    [now]; a start time that does not parse does neither. *)
Definition starts_after (Date_parse : string -> option Z) (now : Z)
    (m : MeetingManagement.Meeting) : Prop :=
  exists t, Date_parse (MeetingManagement.start_time m) = Some t /\ now < t.

Definition starts_before (Date_parse : string -> option Z) (now : Z)
    (m : MeetingManagement.Meeting) : Prop :=
  exists t, Date_parse (MeetingManagement.start_time m) = Some t /\ t < now.

(** A clock that stands still while the list is filtered. *)
Definition frozen (now : Z) : nat -> Z := fun _ => now.

(** Sample data. *)
Definition sample_topic (name : string) (score : Q) : ContentEngine.TrendingTopic :=
  ContentEngine.mkTopic name "" (JS.Finite score) [] [] "medium" [] "reddit" "2025-10-01".

Definition sample_topics : list ContentEngine.TrendingTopic :=
  [sample_topic "AI agents" 50; sample_topic "Rust 2.0" (241 # 2);
   sample_topic "Edge databases" 80].

Definition sample_form : ClientForm.FormData :=
  ClientForm.mkForm "Ann Lee" "ann@example.com" "+1 (555) 010-2030" "Acme"
    "pending" "initial".

Definition sample_user : Types.User :=
  Types.mkUser 7 "ann@example.com" "Ann Lee" "employee" true.

Definition sample_update : Tasks.UpdateArgs :=
  Tasks.mkUpdateArgs 3 (Some "review") (Some (JS.Finite (5 # 2))).

Definition sample_storage : gmap string string :=
  {[ "token" := "eyJhbGciOi" ]}.


Definition sample_meeting (i : Z) (start : string) : MeetingManagement.Meeting :=
  MeetingManagement.mkMeeting i "Kick-off" None start start "client_meeting" "scheduled"
    None None 7 "Ann Lee" None None None None None None "2025-10-01" None.

(** A stand-in for date parsing on the three sample start times. *)
Definition sample_parse (s : string) : option Z :=
  if String.eqb s "09:00" then Some 900
  else if String.eqb s "10:00" then Some 1000
  else if String.eqb s "11:00" then Some 1100
  else None.

Definition sample_meetings : list MeetingManagement.Meeting :=
  [sample_meeting 1 "09:00"; sample_meeting 2 "10:00"; sample_meeting 3 "11:00";
   sample_meeting 4 "soon"].

(** The "sorted order" of the language specification for a sort with
    comparator [comparefn]: no element sorts after a later one. *)
Definition sorted_order {A : Type} (comparefn : A -> A -> JS.number) (l : list A) : Prop :=
  forall (j k : nat) (a b : A),
    (j < k)%nat -> l !! j = Some a -> l !! k = Some b ->
    ContentEngine.SortCompare comparefn a b <= 0.

(** The characters of a string. *)
Definition chars (s : string) : list ascii := list_ascii_of_string s.

(** A text is blank when it holds nothing but whitespace. *)
Definition blank (s : string) : Prop := RegExp.all_in RegExp.is_space (chars s).

(** The shape of an accepted e-mail address: a local part, an [@], and
    a domain with an inner dot, none of the three pieces empty and none
    holding whitespace or a further [@]. *)
Definition email_shape (l : list ascii) : Prop :=
  exists a b c : list ascii,
    l = a ++ "@"%char :: b ++ "."%char :: c
    /\ a <> [] /\ b <> [] /\ c <> []
    /\ RegExp.all_in ClientForm.not_space_at a
    /\ RegExp.all_in ClientForm.not_space_at b
    /\ RegExp.all_in ClientForm.not_space_at c.

(** The shape of an accepted phone number, separators removed: an
    optional [+], a digit from 1 to 9, then at most fifteen digits. *)
Definition phone_shape (l : list ascii) : Prop :=
  exists (sign : list ascii) (d : ascii) (rest : list ascii),
    l = sign ++ d :: rest
    /\ (sign = [] \/ sign = ["+"%char])
    /\ (49 <= RegExp.code d <= 57)%N
    /\ RegExp.all_in RegExp.is_digit rest
    /\ (length rest <= 15)%nat.

(** A stand-in for [toISOString] on the sample start times. *)
Definition sample_iso (t : Z) : string := "2025-10-01T" +:+ pretty t +:+ ":00.000Z".

Definition sample_form_state : MeetingManagement.FormState :=
  MeetingManagement.mkFormState None
    (MeetingManagement.mkFormData "Quarterly review" "" "2025-10-02T09:00"
       "2025-10-02T10:00" "client_meeting" "" "" (Some 7) None None "")
    false.

Definition sample_search : ContentEngineForm.State :=
  ContentEngineForm.mkState
    (ContentEngineForm.mkSearchParams "technology" "blog" "general" "" ["Rust"; "WebGPU"])
    "  Edge AI " true.

End Spec.

(** * Properties *)

(** A string other than the empty one is truthy. *)
Lemma truthy_nonempty (s : string) : s <> "" -> JS.truthy_string s = true.
Proof.
  intros Hne. unfold JS.truthy_string.
  destruct (String.eqb_spec s ""); [contradiction | reflexivity].
Qed.

(** ** Task status controls *)

Lemma stage_forward (s t : string) : Spec.forward s t -> Spec.advances s t.
Proof.
  intros H; inversion H; subst; unfold Spec.advances, Spec.stage; simpl;
    do 2 eexists; repeat split; lia.
Qed.

Lemma Tasks_onClick_body (task : Tasks.Task) (caption target : string) :
  JS.truthy_string target = true ->
  Tasks.onClick task (Tasks.mkButton caption target)
  = Http.mkApiCall Http.PUT (Http.path ("/api/v1/tasks/" +:+ pretty (Tasks.id task)))
      (Spec.status_body target).
Proof.
  intros Ht. unfold Tasks.onClick, Tasks.handleStatusChange, Tasks.updateTaskMutation,
    Tasks.updateData. simpl. rewrite Ht. reflexivity.
Qed.

Ltac button_ok E lem :=
  repeat split; simpl; rewrite ?E;
  first [ discriminate
        | constructor
        | apply stage_forward; constructor
        | apply lem; reflexivity
        | reflexivity ].

Lemma Tasks_buttons_forward (user : option Types.User) (task : Tasks.Task) :
  Forall (Spec.Tasks_button_ok task) (Tasks.statusButtons user task).
Proof.
  unfold Tasks.statusButtons.
  destruct (Tasks.may_update user task); [|constructor].
  destruct (String.eqb_spec (Tasks.status task) "todo") as [E|_].
  { rewrite E; simpl. repeat constructor; button_ok E Tasks_onClick_body. }
  destruct (String.eqb_spec (Tasks.status task) "in_progress") as [E|_].
  { rewrite E; simpl. repeat constructor; button_ok E Tasks_onClick_body. }
  destruct (String.eqb_spec (Tasks.status task) "review") as [E|_]; simpl.
  { repeat constructor; button_ok E Tasks_onClick_body. }
  constructor.
Qed.

Lemma TaskManagement_buttons_forward (st : JS.Storage) (task : TaskManagement.Task) :
  Forall (Spec.TaskManagement_button_ok st task) (TaskManagement.statusButtons task).
Proof.
  unfold TaskManagement.statusButtons.
  destruct (String.eqb_spec (TaskManagement.status task) "completed") as [_|_];
    simpl; [constructor|].
  destruct (String.eqb_spec (TaskManagement.status task) "todo") as [E|_].
  { rewrite E; simpl. repeat constructor; button_ok E Tasks_onClick_body. }
  destruct (String.eqb_spec (TaskManagement.status task) "in_progress") as [E|_].
  { rewrite E; simpl. repeat constructor; button_ok E Tasks_onClick_body. }
  destruct (String.eqb_spec (TaskManagement.status task) "review") as [E|_]; simpl.
  { repeat constructor; button_ok E Tasks_onClick_body. }
  constructor.
Qed.

Lemma closed_status (s : string) :
  Spec.mem s ["completed"; "blocked"] = true -> s = "completed" \/ s = "blocked".
Proof.
  unfold Spec.mem. simpl.
  destruct (String.eqb_spec s "completed"); [auto|].
  destruct (String.eqb_spec s "blocked"); [auto|]. discriminate.
Qed.

(** C1. On both task pages every status button of a task card starts a
    forward transition of the fixed enumeration: from [todo] only to
    [in_progress], from [in_progress] only to [review] or [completed],
    from [review] only to [completed]. Each button's target lies
    strictly later than the task's status, no button is rendered for a
    task that is [completed] or [blocked], and the request a button
    sends is a [PUT] to the path of the very task the card shows, with
    the one-field object [{ status }] as its body: a control changes no
    task but its own. *)
Theorem status_controls_are_forward_transitions
    (user : option Types.User) (st : JS.Storage)
    (task : Tasks.Task) (task' : TaskManagement.Task) :
  Forall (Spec.Tasks_button_ok task) (Tasks.statusButtons user task)
  /\ Forall (Spec.TaskManagement_button_ok st task') (TaskManagement.statusButtons task')
  /\ (Spec.mem (Tasks.status task) ["completed"; "blocked"] = true ->
      Tasks.statusButtons user task = [])
  /\ (Spec.mem (TaskManagement.status task') ["completed"; "blocked"] = true ->
      TaskManagement.statusButtons task' = []).
Proof.
  pose proof (Tasks_buttons_forward user task) as H1.
  pose proof (TaskManagement_buttons_forward st task') as H2.
  split; [exact H1|]. split; [exact H2|]. split; intros Hdone.
  - destruct (Tasks.statusButtons user task) as [|b rest]; [reflexivity|].
    inversion H1 as [|? ? (_ & _ & Hc & Hb & _) _]; subst.
    destruct (closed_status _ Hdone); contradiction.
  - destruct (TaskManagement.statusButtons task') as [|b rest]; [reflexivity|].
    inversion H2 as [|? ? (_ & _ & Hc & Hb & _) _]; subst.
    destruct (closed_status _ Hdone); contradiction.
Qed.

(** The status buttons at work: an in-progress task offers "Review" and
    "Complete" to its assignee, a blocked task offers nothing. *)
Example status_buttons_in_progress :
  let u := Types.mkUser 7 "a@b.co" "Ann" "employee" true in
  let t s := Tasks.mkTask 3 "Write report" None "general" s "medium" None 7 None 1
               None None None None None "2025-10-01" None in
  Tasks.statusButtons (Some u) (t "in_progress")
  = [Tasks.mkButton "Review" "review"; Tasks.mkButton "Complete" "completed"]
  /\ Tasks.statusButtons (Some u) (t "blocked") = []
  /\ Tasks.statusButtons None (t "todo") = []
  /\ Tasks.onClick (t "in_progress") (Tasks.mkButton "Review" "review")
     = Http.mkApiCall Http.PUT (Http.path "/api/v1/tasks/3") (Spec.status_body "review").
Proof. repeat split; vm_compute; reflexivity. Qed.

(** ** Failed calls and placeholder data *)

Lemma failing_api_always_fails (e : string) : Spec.always_fails (Spec.failing_api e).
Proof. intros url. exists e. reflexivity. Qed.

(** The task list query of [pages/Tasks.tsx] has no fallback: with the
    API down it rejects, so it resolves to no placeholder at all. *)
Lemma tasks_query_has_no_fallback :
  ~ Spec.falls_back (fun api => Tasks.tasks_queryFn api "" "" "").
Proof.
  intros [placeholder H].
  specialize (H (Spec.failing_api "Network Error") (failing_api_always_fails _)).
  discriminate H.
Qed.

Lemma tasks_query_target (api : Http.Url -> Http.outcome)
    (statusFilter priorityFilter assigneeFilter : string) :
  Tasks.tasks_queryFn api statusFilter priorityFilter assigneeFilter
  = match api (Spec.tasks_url statusFilter priorityFilter assigneeFilter) with
    | Http.Fulfilled data => Http.Resolved data
    | Http.Failed e => Http.Rejected e
    end.
Proof.
  unfold Tasks.tasks_queryFn, Spec.tasks_url. simpl.
  destruct (JS.truthy_string statusFilter), (JS.truthy_string priorityFilter),
    (JS.truthy_string assigneeFilter); reflexivity.
Qed.

Ltac settle_query :=
  unfold Spec.falls_back_at, Spec.rejects_at; intros api e Hfail;
  first [ rewrite tasks_query_target
        | unfold EmployeeProfile.taskAnalytics_queryFn, EmployeeProfile.financeAnalytics_queryFn,
            EmployeeProfile.projectAnalytics_queryFn, EmployeeProfile.leadAnalytics_queryFn,
            EmployeeProfile.employee_queryFn, Tasks.taskStats_queryFn, Tasks.employees_queryFn,
            Clients.stats_queryFn, Clients.clients_queryFn,
            EmployeeManagement.employees_queryFn, AIScriptGenerator.scripts_queryFn,
            ClientDetail.client_queryFn, ClientDetail.portalSubmissions_queryFn,
            Dashboard.stats_queryFn ];
  rewrite Hfail; reflexivity.

(** C2, amended. When its own call fails, whatever the other calls do,
    each of the four analytics queries of the employee profile page
    falls back to its hard-coded object; the date strings inside the
    task and project objects are the clock readings taken at that
    moment. No other query of the pages falls back: the employee record
    on the same page, the task list, task statistics and employee list
    of the tasks page, the client list and client statistics, the
    employee list, the script list, the trending keywords (once a field
    is chosen), the client record and its portal submissions, and the
    dashboard statistics reject with the error of the failed call. *)
Theorem analytics_queries_fall_back
    (toISOString : Z -> string) (id : string) (clock : nat -> Z)
    (statusFilter priorityFilter assigneeFilter : string)
    (searchTerm clientStatus : string) (currentPage perPage : Z)
    (p : ContentEngineForm.SearchParams) (clientId : string) :
  Spec.falls_back_at (Http.path ("/api/v1/analytics/employee/" +:+ id +:+ "/tasks"))
    (EmployeeProfile.taskAnalytics_mock toISOString clock)
    (fun api => EmployeeProfile.taskAnalytics_queryFn toISOString api id clock)
  /\ Spec.falls_back_at (Http.path ("/api/v1/analytics/employee/" +:+ id +:+ "/finance"))
       EmployeeProfile.financeAnalytics_mock
       (fun api => EmployeeProfile.financeAnalytics_queryFn api id)
  /\ Spec.falls_back_at (Http.path ("/api/v1/analytics/employee/" +:+ id +:+ "/projects"))
       (EmployeeProfile.projectAnalytics_mock toISOString clock)
       (fun api => EmployeeProfile.projectAnalytics_queryFn toISOString api id clock)
  /\ Spec.falls_back_at (Http.path ("/api/v1/analytics/employee/" +:+ id +:+ "/leads"))
       EmployeeProfile.leadAnalytics_mock
       (fun api => EmployeeProfile.leadAnalytics_queryFn api id)
  /\ Spec.rejects_at (Http.path ("/api/v1/users/" +:+ id))
       (fun api => EmployeeProfile.employee_queryFn api id)
  /\ Spec.rejects_at (Spec.tasks_url statusFilter priorityFilter assigneeFilter)
       (fun api => Tasks.tasks_queryFn api statusFilter priorityFilter assigneeFilter)
  /\ Spec.rejects_at (Http.path "/api/v1/tasks/stats") Tasks.taskStats_queryFn
  /\ Spec.rejects_at (Http.path "/api/v1/tasks/employees/list") Tasks.employees_queryFn
  /\ Spec.rejects_at (Clients.clients_url searchTerm clientStatus currentPage perPage)
       (fun api => Clients.clients_queryFn api searchTerm clientStatus currentPage perPage)
  /\ Spec.rejects_at (Http.path "/api/v1/clients/stats") Clients.stats_queryFn
  /\ Spec.rejects_at (Http.path "/api/v1/users/employees")
       EmployeeManagement.employees_queryFn
  /\ Spec.rejects_at (Http.path "/api/v1/ai/scripts") AIScriptGenerator.scripts_queryFn
  /\ (ContentEngineForm.field p <> "" ->
      Spec.rejects_at
        (Http.path ("/api/v1/content/trending-keywords/" +:+ ContentEngineForm.field p))
        (fun api => ContentEngineForm.keywords_queryFn api p))
  /\ Spec.rejects_at (Http.path ("/api/v1/clients/" +:+ clientId))
       (fun api => ClientDetail.client_queryFn api clientId)
  /\ Spec.rejects_at (Http.path ("/api/v1/clients/" +:+ clientId +:+ "/portal-submissions"))
       (fun api => ClientDetail.portalSubmissions_queryFn api clientId)
  /\ Spec.rejects_at (Http.path "/api/v1/dashboard/stats") Dashboard.stats_queryFn.
Proof.
  repeat match goal with |- _ /\ _ => split end; try settle_query.
  intros Hfield api e Hfail. unfold ContentEngineForm.keywords_queryFn.
  rewrite (truthy_nonempty _ Hfield). simpl. rewrite Hfail. reflexivity.
Qed.

(** The fallback at work when only the analytics call fails: the employee
    record arrives, the task analytics are the hard-coded object. *)
Example only_the_analytics_call_fails :
  let api :=
    Spec.failing_only (Http.path "/api/v1/analytics/employee/7/tasks") "500"
      (JS.VStr "ok") in
  EmployeeProfile.employee_queryFn api "7" = Http.Resolved (JS.VStr "ok")
  /\ EmployeeProfile.taskAnalytics_queryFn Spec.sample_iso api "7" (Spec.frozen 900)
     = Http.Resolved (EmployeeProfile.taskAnalytics_mock Spec.sample_iso (Spec.frozen 900))
  /\ EmployeeProfile.financeAnalytics_queryFn api "7" = Http.Resolved (JS.VStr "ok").
Proof. repeat split; reflexivity. Qed.

(** A successful call is passed through unchanged by every query. *)
Lemma analytics_query_passes_data (toISOString : Z -> string) (id : string)
    (clock : nat -> Z) (data : JS.value) :
  EmployeeProfile.taskAnalytics_queryFn toISOString (fun _ => Http.Fulfilled data) id clock
  = Http.Resolved data.
Proof. reflexivity. Qed.

(** ** Authorization headers of the requests *)




(** The header of a [fetch] page, spelled out for any storage: the
    template literal prints the entry it reads, and prints [null] when
    the entry is absent. *)
Lemma fetch_header_spelled_out (st : JS.Storage) (site : Requests.FetchSite) :
  Http.header "Authorization" (Requests.request st site)
  = if Requests.is_portal site then None
    else Some ("Bearer " +:+ JS.template_nullable (JS.getItem "access_token" st)).
Proof. destruct site; reflexivity. Qed.

(** ** The status enumeration in declarations and controls *)

Lemma forward_target_in_enumeration (s t : string) :
  Spec.forward s t -> In t Spec.TaskStatus.
Proof. intros H; inversion H; subst; simpl; tauto. Qed.

(** The shared [Task] type of [types/index.ts] declares statuses outside
    the enumeration, so not every declaration stays inside it. *)
Lemma shared_Task_type_leaves_enumeration :
  ~ (forall s : string, In s Types.Task_status -> In s Spec.TaskStatus).
Proof.
  intros H. specialize (H "pending" (or_introl eq_refl)).
  simpl in H. repeat (destruct H as [H|H]; [discriminate H|]). exact H.
Qed.

(** C4, amended. The task pages keep to the enumeration [todo],
    [in_progress], [review], [completed], [blocked] in what they declare
    and write: the local [Task] interface of [pages/Tasks.tsx] declares
    exactly these, the status filters of both pages offer exactly these
    besides the empty "all" entry, the badge colours and icons are keyed
    by exactly these, and every status a button writes is one of them.
    What they read is not confined to it: [TaskManagement] types the
    status as a plain string and shows any other value under the
    default badge colour. *)
Theorem task_status_enumeration
    (user : option Types.User) (task : Tasks.Task) (task' : TaskManagement.Task) :
  Tasks.Task_status = Spec.TaskStatus
  /\ Tasks.statusFilter_options = "" :: Spec.TaskStatus
  /\ TaskManagement.statusFilter_options = "" :: Spec.TaskStatus
  /\ map fst Tasks.statusColors = Spec.TaskStatus
  /\ TaskManagement.status_cases = Spec.TaskStatus
  /\ Forall (fun b => In (Tasks.newStatus b) Spec.TaskStatus)
       (Tasks.statusButtons user task)
  /\ Forall (fun b => In (TaskManagement.newStatus b) Spec.TaskStatus)
       (TaskManagement.statusButtons task')
  /\ (Spec.mem (TaskManagement.status task') Spec.TaskStatus = false ->
      fst (TaskManagement.statusBadge task') = "bg-gray-100 text-gray-800 flex items-center").
Proof.
  repeat split; try reflexivity.
  - eapply List.Forall_impl; [|apply Tasks_buttons_forward].
    intros b [Hf _]. exact (forward_target_in_enumeration _ _ Hf).
  - eapply List.Forall_impl; [|apply (TaskManagement_buttons_forward ∅)].
    intros b [Hf _]. exact (forward_target_in_enumeration _ _ Hf).
  - unfold Spec.mem, TaskManagement.statusBadge, TaskManagement.getStatusColor. simpl.
    destruct (String.eqb (TaskManagement.status task') "todo");
      destruct (String.eqb (TaskManagement.status task') "in_progress");
      destruct (String.eqb (TaskManagement.status task') "review");
      destruct (String.eqb (TaskManagement.status task') "completed");
      destruct (String.eqb (TaskManagement.status task') "blocked");
      simpl; intros H; try discriminate H; reflexivity.
Qed.

(** How the shared [Task] type of [types/index.ts] differs from the
    enumeration: [pending] and [failed] are in it but not in the
    enumeration, and [todo], [review] and [blocked] are missing from
    it. *)
Lemma shared_Task_type_differs :
  List.filter (fun s => negb (Spec.mem s Spec.TaskStatus)) Types.Task_status
  = ["pending"; "failed"]
  /\ List.filter (fun s => negb (Spec.mem s Types.Task_status)) Spec.TaskStatus
     = ["todo"; "review"; "blocked"].
Proof. split; reflexivity. Qed.

(** A status outside the enumeration on a task card of
    [TaskManagement]: default colour, the text as it came, no button. *)
Example unknown_status_is_shown :
  let t := TaskManagement.mkTask 3 "Write report" None "general" "on_hold" "medium" None 7
             None 1 None None None None None "2025-10-01" None in
  TaskManagement.statusBadge t = ("bg-gray-100 text-gray-800 flex items-center", "on hold")
  /\ TaskManagement.statusButtons t = [].
Proof. split; reflexivity. Qed.

(** ** The body of a task update *)

(** The status buttons are the only callers of the update operation,
    and each of them gives a status that is not empty. *)
Lemma status_update_calls (user : option Types.User) (task : Tasks.Task) (b : Tasks.Button) :
  In b (Tasks.statusButtons user task) ->
  Tasks.newStatus b <> ""
  /\ Tasks.onClick task b
     = Tasks.updateTaskMutation
         (Tasks.mkUpdateArgs (Tasks.id task) (Some (Tasks.newStatus b)) None).
Proof.
  intros Hin. split; [|reflexivity].
  pose proof (Tasks_buttons_forward user task) as Hall.
  rewrite List.Forall_forall in Hall. destruct (Hall b Hin) as [Hf _].
  inversion Hf; discriminate.
Qed.

(** C5. A call of the status update with a given status (a text that
    is not empty: the status buttons, its only callers, pass literals),
    and optionally the hours, sends a [PUT] to the task's own path whose
    body holds exactly the provided fields with the given values and
    names no other field; a column that the body does not name keeps
    its stored value when the update is applied. *)
Theorem update_body_holds_targeted_fields
    (a : Tasks.UpdateArgs) (status : string) (row : gmap string JS.value) :
  Tasks.arg_status a = Some status ->
  status <> "" ->
  Http.api_method (Tasks.updateTaskMutation a) = Http.PUT
  /\ Http.api_url (Tasks.updateTaskMutation a)
     = Http.path ("/api/v1/tasks/" +:+ pretty (Tasks.taskId a))
  /\ Http.api_body (Tasks.updateTaskMutation a) = Some (JS.VObj (Tasks.updateData a))
  /\ JS.keys (Tasks.updateData a) = Spec.provided a
  /\ JS.get_prop "status" (Tasks.updateData a) = Some (JS.VStr status)
  /\ JS.get_prop "actual_hours" (Tasks.updateData a) = JS.VNum <$> Tasks.arg_actual_hours a
  /\ (forall field : string,
        ~ In field (Spec.provided a) -> JS.get_prop field (Tasks.updateData a) = None)
  /\ (forall column : string,
        ~ In column (Spec.provided a) ->
        Backend.update_task (Tasks.updateData a) row !! column = row !! column).
Proof.
  intros Hstatus Hne.
  destruct a as [i s h]; simpl in Hstatus; subst s.
  unfold Tasks.updateTaskMutation, Tasks.updateData, Spec.provided; simpl.
  rewrite (truthy_nonempty status Hne).
  do 3 (split; [reflexivity|]).
  destruct h as [h|]; simpl; repeat split; try reflexivity.
  - intros field Hf.
    destruct (String.eqb_spec field "status") as [->|_]; [exfalso; apply Hf; simpl; auto|].
    destruct (String.eqb_spec field "actual_hours") as [->|_];
      [exfalso; apply Hf; simpl; auto | reflexivity].
  - intros column Hc. rewrite !lookup_insert_ne; [reflexivity| |];
      intros <-; apply Hc; simpl; auto.
  - intros field Hf.
    destruct (String.eqb_spec field "status") as [->|_];
      [exfalso; apply Hf; simpl; auto | reflexivity].
  - intros column Hc. rewrite lookup_insert_ne; [reflexivity|].
    intros <-; apply Hc; simpl; auto.
Qed.

Lemma update_body_holds_targeted_fields_witness :
  Tasks.arg_status Spec.sample_update = Some "review"
  /\ "review" <> ""
  /\ JS.keys (Tasks.updateData Spec.sample_update) = ["status"; "actual_hours"]
  /\ JS.get_prop "status" (Tasks.updateData Spec.sample_update) = Some (JS.VStr "review")
  /\ JS.get_prop "title" (Tasks.updateData Spec.sample_update) = None.
Proof.
  assert (Hs : Tasks.arg_status Spec.sample_update = Some "review") by reflexivity.
  assert (Hne : "review" <> "") by discriminate.
  split; [exact Hs|]. split; [exact Hne|].
  destruct (update_body_holds_targeted_fields Spec.sample_update "review" ∅ Hs Hne)
    as (_ & _ & _ & Hkeys & Hstatus & _ & Hnone & _).
  split; [exact Hkeys|]. split; [exact Hstatus|].
  apply Hnone. simpl. intros [H|[H|[]]]; discriminate H.
Defined.

(** The update at work: the body of a click on "Review", and the body
    of a call that also logs hours. The mutation function tests the
    status for truthiness, so an empty status, which no control passes,
    would be left out. *)
Example update_bodies :
  Tasks.updateData (Tasks.mkUpdateArgs 3 (Some "review") None)
  = [("status", JS.VStr "review")]
  /\ Tasks.updateData (Tasks.mkUpdateArgs 3 (Some "completed") (Some (JS.Finite (5 # 2))))
     = [("status", JS.VStr "completed"); ("actual_hours", JS.VNum (JS.Finite (5 # 2)))]
  /\ Tasks.updateData (Tasks.mkUpdateArgs 3 (Some "") None) = [].
Proof. repeat split; reflexivity. Qed.

(** ** Creating a client and reading it back *)

Lemma ids_below_next_id (db : Backend.table) :
  Forall (fun r => Clients.id r < Backend.next_id db) db.
Proof.
  unfold Backend.next_id. induction db as [|r db IH]; simpl; constructor.
  - lia.
  - eapply List.Forall_impl; [|exact IH]. simpl. intros r' Hr'. lia.
Qed.

Lemma submit_creates (client : option ClientForm.Client) (f : ClientForm.FormData) :
  ClientForm.validateForm f = true ->
  Spec.create_mode client = true ->
  ClientForm.handleSubmit client f = Some (ClientForm.createClientMutation f).
Proof.
  unfold ClientForm.handleSubmit, Spec.create_mode. intros -> Hmode.
  destruct (client ≫= ClientForm.id) as [i|]; [rewrite Hmode|]; reflexivity.
Qed.

(** The decimal digits are read back as they are printed. *)
Lemma digit_char (d : N) :
  (d < 10)%N ->
  RegExp.is_digit (pretty_N_char d) = true
  /\ (RegExp.code (pretty_N_char d) - 48 = d)%N.
Proof.
  intros Hd.
  assert (d = 0 \/ d = 1 \/ d = 2 \/ d = 3 \/ d = 4 \/ d = 5 \/ d = 6 \/ d = 7
          \/ d = 8 \/ d = 9)%N as Hcases by lia.
  repeat (destruct Hcases as [->|Hcases]; [split; reflexivity|]).
  subst d. split; reflexivity.
Qed.

Lemma digits_pretty_go (x : N) :
  forall (s : string) (seen : bool) (acc : N),
    exists k : N,
      Backend.digits seen (pretty_N_go x s) acc
      = Backend.digits (seen || N.ltb 0 x) s (acc * 10 ^ k + x)%N
      /\ (x < 10 ^ k)%N.
Proof.
  induction (N.lt_wf_0 x) as [x _ IH]. intros s seen acc.
  destruct (N.eq_dec x 0%N) as [->|Hx].
  - exists 0%N. rewrite pretty_N_go_0, orb_false_r. split; [f_equal; lia | simpl; lia].
  - assert (Hpos : (0 < x)%N) by lia.
    rewrite (pretty_N_go_step x s Hpos).
    destruct (IH (x `div` 10)%N (N.div_lt x 10 Hpos eq_refl)
                (String (pretty_N_char (x `mod` 10)) s) seen acc) as (k & Hk & Hlt).
    exists (N.succ k). rewrite Hk. simpl.
    destruct (digit_char (x `mod` 10)%N) as [-> ->]; [apply N.mod_lt; lia|].
    assert (Hltb : N.ltb 0 x = true) by (apply N.ltb_lt; exact Hpos).
    rewrite Hltb, orb_true_r. rewrite N.pow_succ_r'.
    pose proof (N.div_mod x 10 ltac:(lia)) as Hdm.
    pose proof (N.mod_lt x 10 ltac:(lia)) as Hmod.
    clear Hk IH.
    remember (x `div` 10)%N as q. remember (x `mod` 10)%N as r.
    remember (10 ^ k)%N as pw.
    split; [f_equal; nia | nia].
Qed.

Lemma parse_N_pretty (x : N) : Backend.parse_N (pretty x) = Some x.
Proof.
  unfold pretty, pretty_N, Backend.parse_N.
  destruct (decide (x = 0)%N) as [->|Hx]; [reflexivity|].
  destruct (digits_pretty_go x "" false 0%N) as (k & -> & _).
  assert (Hltb : N.ltb 0 x = true) by (apply N.ltb_lt; lia).
  rewrite Hltb. simpl. reflexivity.
Qed.

(** A number printed into a path or a query string is read back by the
    backend as the same number. *)
Lemma parse_Z_pretty (z : Z) : Backend.parse_Z (pretty z) = Some z.
Proof.
  unfold Backend.parse_Z. destruct z as [|p|p]; unfold pretty, pretty_Z.
  - reflexivity.
  - change (pretty p) with (pretty (Npos p)). rewrite parse_N_pretty. reflexivity.
  - change (pretty p) with (pretty (Npos p)).
    change (Backend.parse_N ("-" +:+ pretty (N.pos p))) with (@None N).
    change ("-" +:+ pretty (N.pos p)) with (String "-" (pretty (N.pos p))).
    cbv beta iota. rewrite parse_N_pretty. reflexivity.
Qed.

Lemma pretty_Z_nonempty (z : Z) : pretty z <> "".
Proof.
  intros H. pose proof (parse_Z_pretty z) as Hp. rewrite H in Hp. discriminate Hp.
Qed.

(** What the backend reads from the target of the list query. *)
Lemma clients_url_params (searchTerm statusFilter : string) (currentPage perPage : Z) :
  let url := Clients.clients_url searchTerm statusFilter currentPage perPage in
  Http.url_path url = "/api/v1/clients/"
  /\ Backend.query_param "page" url = Some (pretty currentPage)
  /\ Backend.query_param "per_page" url = Some (pretty perPage)
  /\ Backend.query_param "search" url
     = (if JS.truthy_string searchTerm then Some searchTerm else None)
  /\ Backend.query_param "status" url
     = (if JS.truthy_string statusFilter then Some statusFilter else None).
Proof.
  unfold Clients.clients_url, Backend.query_param. simpl.
  destruct (JS.truthy_string searchTerm), (JS.truthy_string statusFilter);
    repeat split; reflexivity.
Qed.

(** After any sequence of input events each field holds the value
    entered for it. *)
Lemma typing_entered (edits : list (ClientForm.Field * string)) :
  forall (f0 : ClientForm.FormData) (field : ClientForm.Field),
    Spec.field_value field (Spec.typing edits f0)
    = Spec.entered field edits (Spec.field_value field f0).
Proof.
  induction edits as [|[field' v] edits IH]; intros f0 field; [reflexivity|].
  unfold Spec.typing in *. simpl. rewrite IH. f_equal.
  destruct field, field'; reflexivity.
Qed.

Lemma body_values (f : ClientForm.FormData) (field : ClientForm.Field) :
  JS.get_prop (Spec.field_key field) (ClientForm.body f)
  = Some (JS.VStr (Spec.field_value field f)).
Proof. destruct field; reflexivity. Qed.

Lemma handle_create (owner : Z) (now : string) (f : ClientForm.FormData)
    (db : Backend.table) :
  Backend.handle owner now (ClientForm.createClientMutation f) db
  = db ++ [Spec.stored_row (Backend.next_id db) owner now f].
Proof. reflexivity. Qed.

Lemma stored_row_json (new_id owner : Z) (now : string) (f : ClientForm.FormData) :
  Spec.same_fields f (Backend.client_json (Spec.stored_row new_id owner now f))
  /\ Spec.row_id (Backend.client_json (Spec.stored_row new_id owner now f))
     = Some (JS.VNum (JS.num_of_Z new_id)).
Proof.
  split; [|reflexivity]. eexists. split; [reflexivity|].
  intros field. destruct field; reflexivity.
Qed.

Lemma read_client_fresh (owner : Z) (db : Backend.table) (row : Clients.Client) :
  Clients.id row = Backend.next_id db ->
  Clients.owner_id row = owner ->
  Backend.read_client owner (Backend.next_id db) (db ++ [row]) = Some row.
Proof.
  intros Hid Howner. unfold Backend.read_client.
  pose proof (ids_below_next_id db) as Hlt.
  generalize dependent (Backend.next_id db). intros n Hid Hlt.
  induction Hlt as [|r db Hr Hlt IH]; simpl.
  - rewrite Hid, Howner, !Z.eqb_refl. reflexivity.
  - destruct (Z.eqb_spec (Clients.id r) n); [lia|]. exact IH.
Qed.

(** Every row lies on one of the pages it is cut into. *)
Lemma slice_covers (per_page : Z) (rows : Backend.table) (r : Clients.Client) :
  1 <= per_page ->
  In r rows ->
  exists page : Z,
    1 <= page /\ (page - 1) * per_page < Z.of_nat (length rows)
    /\ In r (Backend.slice page per_page rows).
Proof.
  intros Hn Hin. apply list_elem_of_In, list_elem_of_lookup in Hin as [i Hi].
  pose proof (lookup_lt_Some _ _ _ Hi) as Hlen.
  set (k := Z.of_nat i / per_page).
  assert (Hk : 0 <= k) by (apply Z.div_pos; lia).
  pose proof (Z.div_mod (Z.of_nat i) per_page ltac:(lia)) as Hdm.
  pose proof (Z.mod_pos_bound (Z.of_nat i) per_page ltac:(lia)) as Hmod.
  fold k in Hdm.
  exists (k + 1). split; [lia|]. split; [nia|].
  apply list_elem_of_In, list_elem_of_lookup.
  exists (Z.to_nat (Z.of_nat i mod per_page)).
  unfold Backend.slice.
  rewrite lookup_take_lt by lia.
  rewrite lookup_drop. rewrite <- Hi. f_equal. nia.
Qed.

Lemma slice_within (page per_page : Z) (rows : Backend.table) (r : Clients.Client) :
  In r (Backend.slice page per_page rows) -> In r rows.
Proof.
  unfold Backend.slice. rewrite <- !list_elem_of_In. intros Hin.
  eapply subseteq_drop, subseteq_take, Hin.
Qed.

Lemma single_page (per_page : Z) (rows : Backend.table) :
  Z.of_nat (length rows) <= per_page -> Backend.slice 1 per_page rows = rows.
Proof.
  intros Hlen. unfold Backend.slice. simpl. rewrite drop_0.
  apply take_ge. lia.
Qed.

(** The rows the list page shows: the requested page of the rows the
    backend selects for the filters the page sends, a filter left empty
    being no filter. *)
Lemma shown_rows (text_search : string -> Clients.Client -> bool)
    (order : Backend.table -> Backend.table) (owner : Z) (db : Backend.table)
    (searchTerm statusFilter : string) (currentPage perPage : Z) :
  Spec.shown text_search order owner db searchTerm statusFilter currentPage perPage
  = if Z.leb 1 currentPage && Z.leb 1 perPage
    then map Backend.client_json
           (Backend.slice currentPage perPage
              (Backend.rows_for text_search order owner
                 (if JS.truthy_string searchTerm then Some searchTerm else None)
                 (if JS.truthy_string statusFilter then Some statusFilter else None) db))
    else [].
Proof.
  unfold Spec.shown, Clients.clients_queryFn, Backend.get, Backend.list_clients.
  destruct (clients_url_params searchTerm statusFilter currentPage perPage)
    as (-> & -> & -> & -> & ->).
  simpl. rewrite !parse_Z_pretty. simpl.
  destruct (Z.leb 1 currentPage && Z.leb 1 perPage); reflexivity.
Qed.

Lemma selected_passes (text_search : string -> Clients.Client -> bool)
    (owner : Z) (searchTerm statusFilter : string) (r : Clients.Client) :
  Clients.owner_id r = owner ->
  Backend.selected text_search owner
    (if JS.truthy_string searchTerm then Some searchTerm else None)
    (if JS.truthy_string statusFilter then Some statusFilter else None) r = true
  <-> Spec.passes text_search searchTerm statusFilter r.
Proof.
  intros <-. unfold Backend.selected, Spec.passes, JS.truthy_string.
  rewrite Z.eqb_refl. simpl.
  destruct (String.eqb_spec searchTerm "") as [->|Hs],
    (String.eqb_spec statusFilter "") as [->|Hf]; simpl.
  - split; [intros _; split; left; reflexivity | reflexivity].
  - destruct (String.eqb_spec (Clients.status r) statusFilter) as [E|E]; simpl.
    + split; [intros _; split; [left; reflexivity | right; exact E] | reflexivity].
    + split; [discriminate|]. intros [_ [H|H]]; contradiction.
  - split; [intros H; split; [right; exact H | left; reflexivity]|].
    intros [[H|H] _]; [contradiction | exact H].
  - destruct (String.eqb_spec (Clients.status r) statusFilter) as [E|E]; simpl.
    + split; [intros H; split; right; assumption|].
      intros [[H|H] _]; [contradiction | exact H].
    + split; [discriminate|]. intros [_ [H|H]]; contradiction.
Qed.

Lemma num_of_Z_inj (a b : Z) : JS.VNum (JS.num_of_Z a) = JS.VNum (JS.num_of_Z b) -> a = b.
Proof. unfold JS.num_of_Z, inject_Z. intros H. injection H. auto. Qed.

Section ReadBack.

Variable text_search : string -> Clients.Client -> bool.
Variable order : Backend.table -> Backend.table.
Hypothesis order_keeps_rows : forall rows : Backend.table, Permutation (order rows) rows.

Lemma new_row_selected (owner : Z) (now : string) (f : ClientForm.FormData)
    (db : Backend.table) (searchTerm statusFilter : string) :
  Spec.passes text_search searchTerm statusFilter
    (Spec.stored_row (Backend.next_id db) owner now f) ->
  In (Spec.stored_row (Backend.next_id db) owner now f)
    (Backend.rows_for text_search order owner
       (if JS.truthy_string searchTerm then Some searchTerm else None)
       (if JS.truthy_string statusFilter then Some statusFilter else None)
       (db ++ [Spec.stored_row (Backend.next_id db) owner now f])).
Proof.
  intros Hpass. unfold Backend.rows_for.
  eapply Permutation_in; [symmetry; apply order_keeps_rows|].
  apply filter_In. split.
  - apply in_or_app. right. left. reflexivity.
  - apply selected_passes; [reflexivity | exact Hpass].
Qed.

Lemma shown_row_origin (owner : Z) (db : Backend.table)
    (searchTerm statusFilter : string) (currentPage perPage : Z) (row : JS.value) :
  In row (Spec.shown text_search order owner db searchTerm statusFilter
            currentPage perPage) ->
  exists r : Clients.Client,
    row = Backend.client_json r /\ In r db
    /\ Backend.selected text_search owner
         (if JS.truthy_string searchTerm then Some searchTerm else None)
         (if JS.truthy_string statusFilter then Some statusFilter else None) r = true.
Proof.
  rewrite shown_rows.
  destruct (Z.leb 1 currentPage && Z.leb 1 perPage); [|intros []].
  intros Hin. apply in_map_iff in Hin as (r & <- & Hr).
  apply slice_within in Hr. unfold Backend.rows_for in Hr.
  apply (Permutation_in _ (order_keeps_rows _)) in Hr.
  apply filter_In in Hr as [Hdb Hsel].
  exists r. auto.
Qed.

End ReadBack.

(** The detail read of the new client returns the stored row. *)
Lemma detail_read (text_search : string -> Clients.Client -> bool)
    (order : Backend.table -> Backend.table) (owner : Z) (now : string)
    (f : ClientForm.FormData) (db : Backend.table) :
  ClientDetail.client_queryFn
    (Backend.get text_search order owner
       (db ++ [Spec.stored_row (Backend.next_id db) owner now f]))
    (pretty (Backend.next_id db))
  = Http.Resolved (Backend.client_json (Spec.stored_row (Backend.next_id db) owner now f)).
Proof.
  unfold ClientDetail.client_queryFn, Backend.get.
  change (Http.url_path (Http.path ?p)) with p.
  destruct (String.eqb_spec ("/api/v1/clients/" +:+ pretty (Backend.next_id db))
              "/api/v1/clients/") as [E|_].
  { exfalso. apply (pretty_Z_nonempty (Backend.next_id db)).
    simpl in E. now injection E. }
  change (Backend.strip_prefix "/api/v1/clients/"
            ("/api/v1/clients/" +:+ pretty (Backend.next_id db)))
    with (Some (pretty (Backend.next_id db))).
  simpl. rewrite parse_Z_pretty. simpl.
  rewrite read_client_fresh; reflexivity.
Qed.

(** C6, amended. For every form input that passes validation, reached
    by any sequence of input events, the form in create mode sends
    [POST /api/v1/clients/] with a body that holds exactly [name],
    [email], [phone], [company], [status] and [onboarding_stage], each
    with the value entered for it. Once the backend has stored the row,
    the detail read of the new client returns a row with those values.
    The list read that follows returns that row on one of its pages (on
    the first one when the list fits on a page) if the new client passes
    the search and status filter of the list page, and on no page if it
    does not. *)
Theorem created_client_reads_back
    (text_search : string -> Clients.Client -> bool)
    (order : Backend.table -> Backend.table)
    (client : option ClientForm.Client) (edits : list (ClientForm.Field * string))
    (f : ClientForm.FormData) (owner : Z) (now : string) (db : Backend.table)
    (searchTerm statusFilter : string) (perPage : Z) :
  (forall rows : Backend.table, Permutation (order rows) rows) ->
  1 <= perPage ->
  Spec.create_mode client = true ->
  f = Spec.typing edits (ClientForm.initialForm client) ->
  ClientForm.validateForm f = true ->
  exists (call : Http.ApiCall) (stored : JS.value),
    ClientForm.handleSubmit client f = Some call
    /\ call = Http.mkApiCall Http.POST (Http.path "/api/v1/clients/")
               (Some (JS.VObj (ClientForm.body f)))
    /\ JS.keys (ClientForm.body f) = map Spec.field_key Spec.fields
    /\ (forall field : ClientForm.Field,
          JS.get_prop (Spec.field_key field) (ClientForm.body f)
          = Some (JS.VStr (Spec.entered field edits
                             (Spec.field_value field (ClientForm.initialForm client)))))
    /\ Spec.same_fields f stored
    /\ Spec.row_id stored = Some (JS.VNum (JS.num_of_Z (Backend.next_id db)))
    /\ ClientDetail.client_queryFn
         (Backend.get text_search order owner (Backend.handle owner now call db))
         (pretty (Backend.next_id db))
       = Http.Resolved stored
    /\ (Spec.passes text_search searchTerm statusFilter
          (Spec.stored_row (Backend.next_id db) owner now f) ->
        (exists page : Z,
           1 <= page
           /\ In stored
                (Spec.shown text_search order owner (Backend.handle owner now call db)
                   searchTerm statusFilter page perPage))
        /\ (Z.of_nat (length db) < perPage ->
            In stored
              (Spec.shown text_search order owner (Backend.handle owner now call db)
                 searchTerm statusFilter 1 perPage)))
    /\ (~ Spec.passes text_search searchTerm statusFilter
            (Spec.stored_row (Backend.next_id db) owner now f) ->
        forall (page : Z) (row : JS.value),
          In row
            (Spec.shown text_search order owner (Backend.handle owner now call db)
               searchTerm statusFilter page perPage) ->
          Spec.row_id row <> Some (JS.VNum (JS.num_of_Z (Backend.next_id db)))).
Proof.
  intros Horder Hper Hmode Hf Hvalid.
  set (new := Spec.stored_row (Backend.next_id db) owner now f).
  exists (ClientForm.createClientMutation f), (Backend.client_json new).
  rewrite handle_create. fold new.
  split; [apply submit_creates; assumption|].
  split; [reflexivity|]. split; [reflexivity|].
  split. { intros field. rewrite body_values, Hf, typing_entered. reflexivity. }
  destruct (stored_row_json (Backend.next_id db) owner now f) as [Hsame Hid].
  split; [exact Hsame|]. split; [exact Hid|].
  split; [apply detail_read|].
  split.
  - intros Hpass.
    pose proof (new_row_selected text_search order Horder owner now f db
                  searchTerm statusFilter Hpass) as Hin.
    fold new in Hin. split.
    + destruct (slice_covers perPage _ new Hper Hin) as (page & Hpage & _ & Hslice).
      exists page. split; [exact Hpage|]. rewrite shown_rows.
      destruct (Z.leb_spec 1 page); [|lia]. destruct (Z.leb_spec 1 perPage); [|lia].
      simpl. apply in_map. exact Hslice.
    + intros Hfew. rewrite shown_rows.
      destruct (Z.leb_spec 1 perPage); [|lia]. simpl.
      apply in_map. rewrite single_page; [exact Hin|].
      unfold Backend.rows_for.
      rewrite (Permutation_length (Horder _)).
      etransitivity;
        [apply inj_le, (List.filter_length_le _ (db ++ [new]))|].
      rewrite length_app. simpl. lia.
  - intros Hfail page row Hin Hrow.
    destruct (shown_row_origin text_search order Horder owner _ _ _ _ _ _ Hin)
      as (r & -> & Hdb & Hsel).
    simpl in Hrow. injection Hrow as Hr.
    apply in_app_or in Hdb as [Hold|[<-|[]]].
    + pose proof (ids_below_next_id db) as Hall.
      rewrite List.Forall_forall in Hall. specialize (Hall r Hold). lia.
    + apply Hfail. apply selected_passes in Hsel; [exact Hsel | reflexivity].
Qed.

(** With the status filter of the list page set to "active", the list
    read that follows the creation of a pending client returns no row:
    the read after a creation does not always return the new client. *)
Lemma filtered_list_hides_new_client :
  ~ (forall (f : ClientForm.FormData) (searchTerm statusFilter : string) (currentPage : Z),
       ClientForm.validateForm f = true ->
       exists row : JS.value,
         In row
           (Spec.shown Spec.sample_text_search (fun rows => rows) 1
              (Backend.handle 1 "2025-10-01" (ClientForm.createClientMutation f) [])
              searchTerm statusFilter currentPage 10)
         /\ Spec.same_fields f row).
Proof.
  intros H.
  assert (Hvalid : ClientForm.validateForm Spec.sample_form = true)
    by (vm_compute; reflexivity).
  destruct (H Spec.sample_form "" "active" 1 Hvalid) as (row & Hin & _).
  vm_compute in Hin. exact Hin.
Qed.

(** The theorem at work on a concrete form and an unfiltered list. *)
Lemma created_client_reads_back_witness :
  Spec.create_mode None = true
  /\ Spec.typing Spec.sample_edits (ClientForm.initialForm None) = Spec.sample_form
  /\ ClientForm.validateForm Spec.sample_form = true
  /\ exists stored : JS.value,
       Spec.same_fields Spec.sample_form stored
       /\ In stored
            (Spec.shown Spec.sample_text_search (fun rows => rows) 1
               (Backend.handle 1 "2025-10-01"
                  (ClientForm.createClientMutation Spec.sample_form) [])
               "" "" 1 10).
Proof.
  assert (Hvalid : ClientForm.validateForm Spec.sample_form = true)
    by (vm_compute; reflexivity).
  assert (Hper : 1 <= 10) by lia.
  split; [reflexivity|]. split; [reflexivity|]. split; [exact Hvalid|].
  destruct (created_client_reads_back Spec.sample_text_search (fun rows => rows) None
              Spec.sample_edits Spec.sample_form 1 "2025-10-01" [] "" "" 10
              (fun rows => Permutation_refl rows) Hper eq_refl eq_refl Hvalid)
    as (call & stored & _ & Hcall & _ & _ & Hsame & _ & _ & Hlist & _).
  exists stored. split; [exact Hsame|]. subst call.
  apply Hlist; [split; left; reflexivity | simpl; lia].
Defined.

(** ** Ranking of the trending topics *)

Section Ranking.

Import JS ContentEngine.

Lemma num_ge_trans (a b c : number) :
  num_ge a b = true -> num_ge b c = true -> num_ge a c = true.
Proof.
  destruct a as [p| | |], b as [q| | |], c as [r| | |]; simpl;
    try discriminate; try reflexivity.
  rewrite !Qle_bool_iff. intros H1 H2. eapply Qle_trans; eassumption.
Qed.

Lemma compare_after (x y : TrendingTopic) :
  Spec.is_score x -> Spec.is_score y ->
  Z.ltb 0 (SortCompare compareFn x y) = true -> Spec.outranks y x.
Proof.
  unfold Spec.is_score, Spec.outranks, SortCompare, compareFn.
  destruct (popularity_score x) as [p| | |], (popularity_score y) as [q| | |];
    simpl; try (intros; congruence); try reflexivity;
    try (intros _ _ E; cbv in E; discriminate E).
  intros _ _. destruct (Qcompare_spec (q - p) 0) as [H|H|H]; intros E; try discriminate E.
  apply Qle_bool_iff. lra.
Qed.

Lemma compare_not_after (x y : TrendingTopic) :
  Spec.is_score x -> Spec.is_score y ->
  Z.ltb 0 (SortCompare compareFn x y) = false -> Spec.outranks x y.
Proof.
  unfold Spec.is_score, Spec.outranks, SortCompare, compareFn.
  destruct (popularity_score x) as [p| | |], (popularity_score y) as [q| | |];
    simpl; try (intros; congruence); try reflexivity;
    try (intros _ _ E; cbv in E; discriminate E).
  intros _ _. destruct (Qcompare_spec (q - p) 0) as [H|H|H]; intros E; try discriminate E;
    apply Qle_bool_iff.
  - lra.
  - lra.
Qed.

Lemma sort_insert_Forall (P : TrendingTopic -> Prop) (x : TrendingTopic)
    (l : list TrendingTopic) :
  P x -> Forall P l -> Forall P (sort_insert compareFn x l).
Proof.
  intros Hx Hl. induction Hl as [|y l Hy Hl IH]; simpl.
  - repeat constructor; assumption.
  - destruct (Z.ltb 0 (SortCompare compareFn x y)); repeat constructor; assumption.
Qed.

Lemma sort_insert_HdRel (a x : TrendingTopic) (l : list TrendingTopic) :
  Spec.outranks a x -> HdRel Spec.outranks a l ->
  HdRel Spec.outranks a (sort_insert compareFn x l).
Proof.
  intros Hax Hal. destruct l as [|y l]; simpl.
  - constructor; assumption.
  - destruct (Z.ltb 0 (SortCompare compareFn x y)); constructor.
    + inversion Hal; assumption.
    + assumption.
Qed.

Lemma sort_insert_Sorted (x : TrendingTopic) (l : list TrendingTopic) :
  Spec.is_score x -> Forall Spec.is_score l ->
  Sorted Spec.outranks l -> Sorted Spec.outranks (sort_insert compareFn x l).
Proof.
  intros Hx Hl Hs. induction Hs as [|y l Hs IH Hd]; simpl.
  - repeat constructor.
  - inversion Hl as [|? ? Hy Hl']; subst.
    destruct (Z.ltb 0 (SortCompare compareFn x y)) eqn:E.
    + constructor; [apply IH; assumption|].
      apply sort_insert_HdRel; [|assumption].
      apply compare_after; assumption.
    + constructor; [constructor; assumption|].
      constructor. apply compare_not_after; assumption.
Qed.

Lemma Array_sort_Forall (P : TrendingTopic -> Prop) (l : list TrendingTopic) :
  Forall P l -> Forall P (Array_sort compareFn l).
Proof.
  intros H. induction H as [|x l Hx Hl IH]; simpl; [constructor|].
  apply sort_insert_Forall; assumption.
Qed.

Lemma Array_sort_Sorted (l : list TrendingTopic) :
  Forall Spec.is_score l -> Sorted Spec.outranks (Array_sort compareFn l).
Proof.
  intros H. induction H as [|x l Hx Hl IH]; simpl; [constructor|].
  apply sort_insert_Sorted; [assumption | apply Array_sort_Forall; assumption | exact IH].
Qed.

Lemma sort_insert_Permutation (x : TrendingTopic) (l : list TrendingTopic) :
  Permutation (x :: l) (sort_insert compareFn x l).
Proof.
  induction l as [|y l IH]; simpl; [reflexivity|].
  destruct (Z.ltb 0 (SortCompare compareFn x y)); [|reflexivity].
  rewrite perm_swap. constructor. exact IH.
Qed.

Lemma Array_sort_Permutation (l : list TrendingTopic) :
  Permutation l (Array_sort compareFn l).
Proof.
  induction l as [|x l IH]; simpl; [constructor|].
  rewrite <- sort_insert_Permutation. constructor. exact IH.
Qed.

Lemma Sorted_adjacent (l : list TrendingTopic) :
  Sorted Spec.outranks l ->
  forall (i : nat) (a b : TrendingTopic),
    l !! i = Some a -> l !! S i = Some b -> Spec.outranks a b.
Proof.
  intros Hs. induction Hs as [|x l Hs IH Hd]; intros i a b Ha Hb; [discriminate|].
  destruct i as [|i]; simpl in *.
  - injection Ha as <-. destruct Hd as [|y l' Hxy]; [discriminate|].
    simpl in Hb. injection Hb as <-. exact Hxy.
  - eapply IH; eassumption.
Qed.

End Ranking.

Lemma tab_topics (l : list ContentEngine.TrendingTopic) :
  map ContentEngine.topic (ContentEngine.TrendingTopicsTab l)
  = ContentEngine.Array_sort ContentEngine.compareFn l.
Proof.
  unfold ContentEngine.TrendingTopicsTab. apply list_eq. intros i.
  rewrite list_lookup_fmap, list_lookup_imap.
  destruct (ContentEngine.Array_sort ContentEngine.compareFn l !! i); reflexivity.
Qed.

(** C7. For every response of the discover-topics call (its scores are
    JSON numbers, so none is NaN) the cards of the Trending Topics tab
    are in non-increasing order of [popularity_score]: each card's
    score is at least the score of the card after it. The cards are the
    topics of the response, rearranged, and card [i] carries the rank
    badge [i + 1]. *)
Theorem trending_topics_are_ranked (trending_topics : list ContentEngine.TrendingTopic) :
  Forall Spec.is_score trending_topics ->
  ContentEngine.ranked (ContentEngine.TrendingTopicsTab trending_topics)
  /\ Permutation trending_topics
       (map ContentEngine.topic (ContentEngine.TrendingTopicsTab trending_topics))
  /\ map ContentEngine.rank (ContentEngine.TrendingTopicsTab trending_topics)
     = seq 1 (length trending_topics).
Proof.
  intros Hscores. split; [|split].
  - intros i c1 c2 H1 H2.
    pose proof (Array_sort_Sorted _ Hscores) as Hs.
    rewrite <- tab_topics in Hs.
    apply (Sorted_adjacent _ Hs i).
    + rewrite list_lookup_fmap, H1. reflexivity.
    + rewrite list_lookup_fmap, H2. reflexivity.
  - rewrite tab_topics. apply Array_sort_Permutation.
  - unfold ContentEngine.TrendingTopicsTab.
    rewrite (Permutation_length (Array_sort_Permutation trending_topics)).
    generalize (ContentEngine.Array_sort ContentEngine.compareFn trending_topics).
    intros l. apply list_eq. intros i.
    rewrite list_lookup_fmap, list_lookup_imap.
    destruct (l !! i) as [t|] eqn:E; simpl.
    + symmetry. apply lookup_seq. split; [reflexivity|].
      apply lookup_lt_Some in E. exact E.
    + symmetry. apply lookup_ge_None. rewrite length_seq.
      apply lookup_ge_None in E. exact E.
Qed.

Lemma trending_topics_are_ranked_witness :
  Forall Spec.is_score Spec.sample_topics
  /\ ContentEngine.ranked (ContentEngine.TrendingTopicsTab Spec.sample_topics)
  /\ Permutation Spec.sample_topics
       (map ContentEngine.topic (ContentEngine.TrendingTopicsTab Spec.sample_topics))
  /\ map ContentEngine.rank (ContentEngine.TrendingTopicsTab Spec.sample_topics)
     = seq 1 (length Spec.sample_topics).
Proof.
  assert (H : Forall Spec.is_score Spec.sample_topics)
    by (repeat constructor; discriminate).
  split; [exact H | apply (trending_topics_are_ranked Spec.sample_topics H)].
Defined.

(** The tab on the sample response: scores 50, 120.5 and 80 come out as
    120.5, 80, 50. *)
Example trending_topics_sample_order :
  map (fun c => ContentEngine.title (ContentEngine.topic c))
    (ContentEngine.TrendingTopicsTab Spec.sample_topics)
  = ["Rust 2.0"; "Edge databases"; "AI agents"].
Proof. vm_compute. reflexivity. Qed.

(** ** The route guard *)

(** While the context is still loading, a signed-in user sees the
    spinner, not the protected page: the children are not rendered
    exactly when the user is non-null. *)
Lemma children_hidden_while_loading :
  ~ (forall (user : option Types.User) (loading : bool) (children : string),
        App.ProtectedRoute user loading children = App.Fragment children
        <-> user <> None).
Proof.
  intros H.
  destruct (H (Some Spec.sample_user) true "Dashboard") as [_ Hrender].
  assert (Hu : Some Spec.sample_user <> None) by discriminate.
  specialize (Hrender Hu). discriminate Hrender.
Qed.

(** C8, amended. [ProtectedRoute] renders the spinner exactly when
    [loading] is true, the redirect to [/login] exactly when [loading]
    is false and the user is null, and its children exactly when
    [loading] is false and the user is non-null; whatever it renders as
    children, a user is signed in. *)
Theorem ProtectedRoute_renders
    {C : Type} (user : option Types.User) (loading : bool) (children : C) :
  (App.ProtectedRoute user loading children = App.Spinner <-> loading = true)
  /\ (App.ProtectedRoute user loading children = App.Navigate "/login" true
      <-> loading = false /\ user = None)
  /\ (App.ProtectedRoute user loading children = App.Fragment children
      <-> loading = false /\ user <> None)
  /\ (forall c : C, App.ProtectedRoute user loading children = App.Fragment c ->
        c = children /\ is_Some user).
Proof.
  destruct loading, user as [u|]; simpl; repeat split;
    try discriminate; try reflexivity; try tauto;
    try (intros [? ?]; congruence); try (intros H; congruence); try congruence;
    try (eexists; reflexivity).
Qed.

(** ** The mount effect of the authentication context *)

(** C9. On start, when a token is stored and the verification call
    [GET /api/v1/auth/me] fails, the context removes the token from the
    local storage (and touches no other entry), leaves [user] null and
    sets [loading] to false. Whatever is stored and whatever the API
    answers, [user] ends up non-null only if a token was stored and the
    verification call succeeded with that user. A stored token is a
    non-empty entry: for an empty one the effect makes no call. *)
Theorem failed_verification_clears_token
    (api : Http.ApiCall -> AuthContext.me_result) (st : JS.Storage)
    (token error : string) :
  JS.getItem "token" st = Some token ->
  token <> "" ->
  api AuthContext.me_call = AuthContext.MeFailed error ->
  JS.getItem "token" (AuthContext.storage (AuthContext.verifyToken api (AuthContext.initial st)))
  = None
  /\ (forall k : string, k <> "token" ->
        JS.getItem k (AuthContext.storage
                        (AuthContext.verifyToken api (AuthContext.initial st)))
        = JS.getItem k st)
  /\ AuthContext.user (AuthContext.verifyToken api (AuthContext.initial st)) = None
  /\ AuthContext.loading (AuthContext.verifyToken api (AuthContext.initial st)) = false
  /\ (forall (api' : Http.ApiCall -> AuthContext.me_result) (st' : JS.Storage)
             (u : Types.User),
        AuthContext.user (AuthContext.verifyToken api' (AuthContext.initial st')) = Some u ->
        (exists token' : string, JS.getItem "token" st' = Some token' /\ token' <> "")
        /\ api' AuthContext.me_call = AuthContext.MeOk (Some u)).
Proof.
  intros Htoken Hne Hfail. unfold AuthContext.verifyToken. simpl.
  rewrite Htoken, (truthy_nonempty token Hne), Hfail. simpl.
  repeat split.
  - unfold JS.getItem, JS.removeItem. apply lookup_delete_eq.
  - intros k Hk. unfold JS.getItem, JS.removeItem. apply lookup_delete_ne. congruence.
  - destruct (JS.getItem "token" st') as [token'|]; [|discriminate].
    destruct (String.eqb_spec token' "") as [->|Hne']; [discriminate|].
    exists token'. split; [reflexivity | exact Hne'].
  - revert H. destruct (JS.getItem "token" st') as [token'|]; [|discriminate].
    destruct (JS.truthy_string token'); [|discriminate].
    destruct (api' AuthContext.me_call) as [data|e]; simpl.
    + intros ->. reflexivity.
    + discriminate.
Qed.

Lemma failed_verification_clears_token_witness :
  JS.getItem "token" Spec.sample_storage = Some "eyJhbGciOi"
  /\ "eyJhbGciOi" <> ""
  /\ JS.getItem "token"
       (AuthContext.storage
          (AuthContext.verifyToken (fun _ => AuthContext.MeFailed "401")
             (AuthContext.initial Spec.sample_storage)))
     = None
  /\ AuthContext.user
       (AuthContext.verifyToken (fun _ => AuthContext.MeFailed "401")
          (AuthContext.initial Spec.sample_storage))
     = None
  /\ AuthContext.loading
       (AuthContext.verifyToken (fun _ => AuthContext.MeFailed "401")
          (AuthContext.initial Spec.sample_storage))
     = false.
Proof.
  assert (Ht : JS.getItem "token" Spec.sample_storage = Some "eyJhbGciOi")
    by reflexivity.
  assert (Hne : "eyJhbGciOi" <> "") by discriminate.
  split; [exact Ht|]. split; [exact Hne|].
  destruct (failed_verification_clears_token (fun _ => AuthContext.MeFailed "401")
              Spec.sample_storage "eyJhbGciOi" "401" Ht Hne eq_refl)
    as (H1 & _ & H3 & H4 & _).
  repeat split; assumption.
Defined.

(** The other ways the effect can go: a verified token signs the user
    in; without a token, or with an empty entry under the key, no call
    is made, only [loading] changes and the entry stays as it is. *)
Example verification_success_and_no_token :
  AuthContext.verifyToken (fun _ => AuthContext.MeOk (Some Spec.sample_user))
    (AuthContext.initial Spec.sample_storage)
  = AuthContext.mkState (Some Spec.sample_user) false Spec.sample_storage
  /\ AuthContext.verifyToken (fun _ => AuthContext.MeOk (Some Spec.sample_user))
       (AuthContext.initial ∅)
     = AuthContext.mkState None false ∅
  /\ AuthContext.verifyToken (fun _ => AuthContext.MeFailed "401")
       (AuthContext.initial {[ "token" := "" ]})
     = AuthContext.mkState None false {[ "token" := "" ]}.
Proof. repeat split; reflexivity. Qed.

(** ** The meeting filters *)

Section Meetings.

Import MeetingManagement.

Variable Date_parse : string -> timeValue.

Lemma filter_from_frozen (filter : string) (now : Z) (k : nat) (meetings : list Meeting) :
  filter_from Date_parse filter (Spec.frozen now) k meetings
  = List.filter (keep Date_parse filter now) meetings.
Proof.
  revert k. induction meetings as [|m rest IH]; intros k; simpl; [reflexivity|].
  unfold Spec.frozen at 1. rewrite IH. reflexivity.
Qed.

(** X15. With a moving clock each meeting is compared with the reading taken
    at its own turn. *)
Lemma filter_from_lookup (filter : string) (clock : nat -> Z) (meetings : list Meeting)
    (m : Meeting) :
  In m (filteredMeetings Date_parse filter clock meetings)
  <-> exists i : nat, meetings !! i = Some m /\ keep Date_parse filter (clock i) m = true.
Proof.
  unfold filteredMeetings.
  assert (G : forall k,
             In m (filter_from Date_parse filter clock k meetings)
             <-> exists i : nat, meetings !! i = Some m
                                 /\ keep Date_parse filter (clock (k + i)%nat) m = true).
  { induction meetings as [|x rest IH]; intros k; simpl.
    - split; [tauto | intros (i & Hi & _); discriminate Hi].
    - destruct (keep Date_parse filter (clock k) x) eqn:E; simpl; rewrite IH; split.
      + intros [->|(i & Hi & Hk)].
        * exists 0%nat. rewrite Nat.add_0_r. auto.
        * exists (S i). rewrite Nat.add_succ_r. auto.
      + intros ([|i] & Hi & Hk); simpl in Hi.
        * left. congruence.
        * right. exists i. rewrite Nat.add_succ_r in Hk. auto.
      + intros (i & Hi & Hk). exists (S i). rewrite Nat.add_succ_r. auto.
      + intros ([|i] & Hi & Hk); simpl in Hi.
        * injection Hi as ->. rewrite Nat.add_0_r in Hk. congruence.
        * exists i. rewrite Nat.add_succ_r in Hk. auto. }
  apply (G 0%nat).
Qed.

Lemma keep_upcoming (now : Z) (m : Meeting) :
  keep Date_parse "upcoming" now m = true <-> Spec.starts_after Date_parse now m.
Proof.
  unfold keep, Spec.starts_after, date_gt. simpl.
  destruct (Date_parse (start_time m)) as [t|].
  - rewrite Z.ltb_lt. split; [eauto | intros (t' & [= <-] & H); exact H].
  - split; [discriminate | intros (t' & H & _); discriminate H].
Qed.

Lemma keep_past (now : Z) (m : Meeting) :
  keep Date_parse "past" now m = true <-> Spec.starts_before Date_parse now m.
Proof.
  unfold keep, Spec.starts_before, date_lt. simpl.
  destruct (Date_parse (start_time m)) as [t|].
  - rewrite Z.ltb_lt. split; [eauto | intros (t' & [= <-] & H); exact H].
  - split; [discriminate | intros (t' & H & _); discriminate H].
Qed.

(** C10. With the clock at [now], the "upcoming" filter shows exactly
    the meetings whose start time is strictly after [now], the "past"
    filter exactly those whose start time is strictly before [now], both
    in list order; a meeting that starts at [now] is shown by neither,
    and "all" shows every meeting. *)
Theorem meeting_filters_are_strict (now : Z) (meetings : list Meeting) :
  (forall m : Meeting,
      In m (filteredMeetings Date_parse "upcoming" (Spec.frozen now) meetings)
      <-> In m meetings /\ Spec.starts_after Date_parse now m)
  /\ (forall m : Meeting,
        In m (filteredMeetings Date_parse "past" (Spec.frozen now) meetings)
        <-> In m meetings /\ Spec.starts_before Date_parse now m)
  /\ filteredMeetings Date_parse "upcoming" (Spec.frozen now) meetings
     = List.filter (fun m => date_gt (Date_parse (start_time m)) (Some now)) meetings
  /\ filteredMeetings Date_parse "past" (Spec.frozen now) meetings
     = List.filter (fun m => date_lt (Date_parse (start_time m)) (Some now)) meetings
  /\ (forall m : Meeting,
        Date_parse (start_time m) = Some now ->
        ~ In m (filteredMeetings Date_parse "upcoming" (Spec.frozen now) meetings)
        /\ ~ In m (filteredMeetings Date_parse "past" (Spec.frozen now) meetings))
  /\ (forall clock : nat -> Z, filteredMeetings Date_parse "all" clock meetings = meetings).
Proof.
  unfold filteredMeetings. rewrite !filter_from_frozen.
  split; [|split; [|split; [|split; [|split]]]].
  - intros m. rewrite filter_In, keep_upcoming. reflexivity.
  - intros m. rewrite filter_In, keep_past. reflexivity.
  - reflexivity.
  - reflexivity.
  - intros m Hm. rewrite !filter_In, keep_upcoming, keep_past.
    unfold Spec.starts_after, Spec.starts_before. rewrite Hm.
    split; intros (_ & t & [= <-] & H); lia.
  - intros clock. generalize 0%nat.
    induction meetings as [|m rest IH]; intros k; simpl; [reflexivity|].
    rewrite IH. reflexivity.
Qed.

End Meetings.

(** The filters at ten o'clock: the meeting that starts at ten and the
    one whose start time does not parse are shown by neither filter. *)
Example meeting_filters_at_ten :
  map MeetingManagement.id
    (MeetingManagement.filteredMeetings Spec.sample_parse "upcoming" (Spec.frozen 1000)
       Spec.sample_meetings) = [3]
  /\ map MeetingManagement.id
       (MeetingManagement.filteredMeetings Spec.sample_parse "past" (Spec.frozen 1000)
          Spec.sample_meetings) = [1]
  /\ map MeetingManagement.id
       (MeetingManagement.filteredMeetings Spec.sample_parse "all" (Spec.frozen 1000)
          Spec.sample_meetings) = [1; 2; 3; 4].
Proof. repeat split; vm_compute; reflexivity. Qed.

(** ** Supporting facts *)

(** Typing a value into a field puts that value, and nothing else new,
    into the body the form will send. *)
Lemma typed_value_is_sent (field : ClientForm.Field) (v : string)
    (prev : ClientForm.FormData) :
  JS.get_prop (Spec.field_key field)
    (ClientForm.body (ClientForm.handleInputChange field v prev))
  = Some (JS.VStr v)
  /\ JS.keys (ClientForm.body (ClientForm.handleInputChange field v prev))
     = JS.keys (ClientForm.body prev).
Proof. destruct field; split; reflexivity. Qed.

(** Nothing is sent for a form that fails validation. *)
Lemma invalid_form_sends_nothing (client : option ClientForm.Client)
    (f : ClientForm.FormData) :
  ClientForm.validateForm f = false -> ClientForm.handleSubmit client f = None.
Proof. unfold ClientForm.handleSubmit. intros ->. reflexivity. Qed.

(** After a failed verification the guard sends the visitor to the
    login page. *)
Lemma guard_after_failed_verification
    (api : Http.ApiCall -> AuthContext.me_result) (st : JS.Storage) (error : string)
    (page : string) :
  api AuthContext.me_call = AuthContext.MeFailed error ->
  App.guarded (AuthContext.verifyToken api (AuthContext.initial st)) page
  = App.Navigate "/login" true.
Proof.
  intros Hfail. unfold App.guarded, AuthContext.verifyToken. simpl.
  destruct (JS.getItem "token" st) as [token|]; [|reflexivity].
  destruct (JS.truthy_string token); [rewrite Hfail|]; reflexivity.
Qed.

(** X11. The authentication context keeps its token under the key [token]:
    neither signing in, nor the mount effect, nor signing out writes the
    [access_token] entry that the [fetch] pages read. *)
Lemma access_token_entry_untouched
    (api : Http.ApiCall -> AuthContext.me_result)
    (post : AuthContext.login_result) (me : AuthContext.me_result)
    (s : AuthContext.State) :
  JS.getItem "access_token" (AuthContext.storage (AuthContext.login post me s))
  = JS.getItem "access_token" (AuthContext.storage s)
  /\ JS.getItem "access_token" (AuthContext.storage (AuthContext.verifyToken api s))
     = JS.getItem "access_token" (AuthContext.storage s)
  /\ JS.getItem "access_token" (AuthContext.storage (AuthContext.logout s))
     = JS.getItem "access_token" (AuthContext.storage s).
Proof.
  unfold JS.getItem. split; [|split].
  - unfold AuthContext.login. destruct post as [tok|e]; [|reflexivity].
    destruct me; simpl; unfold JS.setItem; rewrite lookup_insert_ne; done.
  - unfold AuthContext.verifyToken.
    destruct (JS.getItem "token" (AuthContext.storage s)) as [token|]; [|reflexivity].
    destruct (JS.truthy_string token); [|reflexivity].
    destruct (api AuthContext.me_call); simpl; [reflexivity|].
    unfold JS.removeItem. rewrite lookup_delete_ne; done.
  - simpl. unfold JS.removeItem. rewrite lookup_delete_ne; done.
Qed.

(** Any arrangement of the topics that is in the specification's sorted
    order for the page's comparator is ranked by score, whichever
    algorithm produced it. *)
Lemma sorted_order_is_ranked (l : list ContentEngine.TrendingTopic) :
  Forall Spec.is_score l ->
  Spec.sorted_order ContentEngine.compareFn l ->
  forall (i : nat) (a b : ContentEngine.TrendingTopic),
    l !! i = Some a -> l !! S i = Some b -> Spec.outranks a b.
Proof.
  intros Hscores Hsorted i a b Ha Hb.
  apply compare_not_after.
  - rewrite List.Forall_forall in Hscores. apply Hscores.
    apply list_elem_of_In. eapply list_elem_of_lookup_2. exact Ha.
  - rewrite List.Forall_forall in Hscores. apply Hscores.
    apply list_elem_of_In. eapply list_elem_of_lookup_2. exact Hb.
  - apply Z.ltb_ge. apply (Hsorted i (S i) a b); [lia | exact Ha | exact Hb].
Qed.

Lemma outranks_compare (a b : ContentEngine.TrendingTopic) :
  Spec.outranks a b -> ContentEngine.SortCompare ContentEngine.compareFn a b <= 0.
Proof.
  unfold Spec.outranks, ContentEngine.SortCompare, ContentEngine.compareFn.
  destruct (ContentEngine.popularity_score a) as [p| | |],
           (ContentEngine.popularity_score b) as [q| | |];
    simpl; try discriminate; try lia.
  rewrite Qle_bool_iff. intros H.
  destruct (Qcompare_spec (q - p) 0) as [E|E|E]; try lia. lra.
Qed.

Lemma outranks_transitive : Relations_1.Transitive Spec.outranks.
Proof. intros a b c Hab Hbc. exact (num_ge_trans _ _ _ Hab Hbc). Qed.

Lemma StronglySorted_pairs (l : list ContentEngine.TrendingTopic) :
  StronglySorted Spec.outranks l ->
  forall (j k : nat) (a b : ContentEngine.TrendingTopic),
    (j < k)%nat -> l !! j = Some a -> l !! k = Some b -> Spec.outranks a b.
Proof.
  intros Hs. induction Hs as [|x l Hs IH Hx]; intros j k a b Hjk Ha Hb; [discriminate|].
  destruct k as [|k]; [lia|]. simpl in Hb.
  destruct j as [|j]; simpl in Ha.
  - injection Ha as <-. rewrite List.Forall_forall in Hx. apply Hx.
    apply list_elem_of_In. eapply list_elem_of_lookup_2. exact Hb.
  - apply (IH j k); [lia | exact Ha | exact Hb].
Qed.

(** The sort of the model meets the specification's contract: its
    result is in sorted order for the comparator. *)
Lemma Array_sort_sorted_order (l : list ContentEngine.TrendingTopic) :
  Forall Spec.is_score l ->
  Spec.sorted_order ContentEngine.compareFn
    (ContentEngine.Array_sort ContentEngine.compareFn l).
Proof.
  intros Hscores j k a b Hjk Ha Hb. apply outranks_compare.
  eapply StronglySorted_pairs; [|exact Hjk|exact Ha|exact Hb].
  apply Sorted_StronglySorted; [exact outranks_transitive|].
  apply Array_sort_Sorted. exact Hscores.
Qed.

(** * Further properties of the pages *)

(** ** The pattern matcher of the form validation *)

Section Matcher.

Import RegExp.

Lemma matches_empty_inv (l : list ascii) : matches Empty l <-> False.
Proof. split; [intros H; inversion H | tauto]. Qed.

Lemma matches_eps_inv (l : list ascii) : matches Eps l <-> l = [].
Proof. split; [intros H; inversion H; reflexivity | intros ->; constructor]. Qed.

Lemma matches_cls_inv (p : ascii -> bool) (l : list ascii) :
  matches (Cls p) l <-> exists c, l = [c] /\ p c = true.
Proof.
  split.
  - intros H; inversion H; subst; eauto.
  - intros (c & -> & Hp). constructor. exact Hp.
Qed.

Lemma matches_seq_inv (r1 r2 : regex) (l : list ascii) :
  matches (Seq r1 r2) l
  <-> exists s1 s2, l = s1 ++ s2 /\ matches r1 s1 /\ matches r2 s2.
Proof.
  split.
  - intros H; inversion H; subst; eauto.
  - intros (s1 & s2 & -> & H1 & H2). constructor; assumption.
Qed.

Lemma matches_alt_inv (r1 r2 : regex) (l : list ascii) :
  matches (Alt r1 r2) l <-> matches r1 l \/ matches r2 l.
Proof.
  split.
  - intros H; inversion H; subst; auto.
  - intros [H|H]; [apply matches_alt_l | apply matches_alt_r]; exact H.
Qed.

Lemma nullable_matches (r : regex) : nullable r = true <-> matches r [].
Proof.
  induction r as [| |p|r1 IH1 r2 IH2|r1 IH1 r2 IH2|r IH]; simpl.
  - rewrite matches_empty_inv. split; [discriminate | tauto].
  - rewrite matches_eps_inv. tauto.
  - rewrite matches_cls_inv. split; [discriminate | intros (c & H & _); discriminate H].
  - rewrite andb_true_iff, IH1, IH2, matches_seq_inv. split.
    + intros [H1 H2]. exists [], []. auto.
    + intros (s1 & s2 & E & H1 & H2). symmetry in E.
      apply app_eq_nil in E as [-> ->]. auto.
  - rewrite orb_true_iff, IH1, IH2, matches_alt_inv. tauto.
  - split; [constructor | reflexivity].
Qed.

Lemma star_cons (re : regex) (l : list ascii) :
  matches re l ->
  forall (r : regex) (c : ascii) (s : list ascii),
    re = Star r -> l = c :: s ->
    exists s1 s2, s = s1 ++ s2 /\ matches r (c :: s1) /\ matches (Star r) s2.
Proof.
  induction 1 as [| | | | | |r0 s1 s2 H1 _ H2 IH2]; intros r' ch s' Hre Hl;
    try discriminate.
  injection Hre as ->.
  destruct s1 as [|c1 s1]; simpl in Hl.
  - apply (IH2 r' ch s' eq_refl Hl).
  - injection Hl as -> <-. exists s1, s2. auto.
Qed.

Lemma deriv_matches (c : ascii) (r : regex) (s : list ascii) :
  matches (deriv c r) s <-> matches r (c :: s).
Proof.
  revert s. induction r as [| |p|r1 IH1 r2 IH2|r1 IH1 r2 IH2|r IH]; intros s; simpl.
  - rewrite !matches_empty_inv. tauto.
  - rewrite matches_empty_inv, matches_eps_inv. split; [tauto | discriminate].
  - rewrite matches_cls_inv. destruct (p c) eqn:Hp.
    + rewrite matches_eps_inv. split.
      * intros ->. eauto.
      * intros (c' & [= <- ->] & _). reflexivity.
    + rewrite matches_empty_inv. split; [tauto|].
      intros (c' & [= <- ->] & Hc). congruence.
  - assert (Hseq : matches (Seq (deriv c r1) r2) s
                   <-> exists s1 s2, s = s1 ++ s2 /\ matches r1 (c :: s1) /\ matches r2 s2).
    { rewrite matches_seq_inv. split; intros (s1 & s2 & E & H1 & H2);
        exists s1, s2; (split; [exact E|]); (split; [apply IH1; exact H1 | exact H2]). }
    rewrite (matches_seq_inv r1 r2).
    destruct (nullable r1) eqn:Hn.
    + rewrite matches_alt_inv, Hseq, IH2. split.
      * intros [(s1 & s2 & -> & H1 & H2)|H2].
        -- exists (c :: s1), s2. auto.
        -- exists [], (c :: s). apply nullable_matches in Hn. auto.
      * intros ([|c1 s1] & s2 & E & H1 & H2); simpl in E.
        -- subst s2. right. exact H2.
        -- injection E as <- ->. left. eauto.
    + rewrite Hseq. split.
      * intros (s1 & s2 & -> & H1 & H2). exists (c :: s1), s2. auto.
      * intros ([|c1 s1] & s2 & E & H1 & H2); simpl in E.
        -- apply nullable_matches in H1. congruence.
        -- injection E as <- ->. eauto.
  - rewrite !matches_alt_inv, IH1, IH2. tauto.
  - rewrite matches_seq_inv. split.
    + intros (s1 & s2 & -> & H1 & H2). apply IH in H1.
      apply (matches_star_app r (c :: s1) s2 H1 H2).
    + intros H. destruct (star_cons _ _ H r c s eq_refl eq_refl) as (s1 & s2 & -> & H1 & H2).
      exists s1, s2. split; [reflexivity|]. split; [apply IH|]; assumption.
Qed.

(** The matcher decides matching: [/^r$/.test(s)] is true exactly when
    the characters of [s] match [r]. *)
Lemma test_matches (r : regex) (s : string) :
  test r s = true <-> matches r (list_ascii_of_string s).
Proof.
  unfold test. generalize (list_ascii_of_string s). intros l. revert r.
  induction l as [|c l IH]; intros r; simpl.
  - apply nullable_matches.
  - rewrite IH. apply deriv_matches.
Qed.

End Matcher.

Section Patterns.

Import RegExp.

Lemma matches_star_cls (p : ascii -> bool) (l : list ascii) :
  matches (Star (Cls p)) l <-> all_in p l.
Proof.
  split.
  - intros H. remember (Star (Cls p)) as re eqn:E.
    induction H as [| | | | | |r s1 s2 H1 _ H2 IH2]; try discriminate.
    + constructor.
    + injection E as ->. apply matches_cls_inv in H1 as (c & -> & Hc).
      constructor; [exact Hc | apply IH2; reflexivity].
  - intros H. induction H as [|c l Hc _ IH]; [constructor|].
    apply (matches_star_app (Cls p) [c] l); [constructor; exact Hc | exact IH].
Qed.

Lemma matches_plus_cls (p : ascii -> bool) (l : list ascii) :
  matches (Plus (Cls p)) l <-> l <> [] /\ all_in p l.
Proof.
  unfold Plus. rewrite matches_seq_inv. split.
  - intros (s1 & s2 & -> & H1 & H2).
    apply matches_cls_inv in H1 as (c & -> & Hc). apply matches_star_cls in H2.
    split; [discriminate | constructor; assumption].
  - intros [Hne H]. destruct H as [|c l Hc Hl]; [congruence|].
    exists [c], l. split; [reflexivity|].
    split; [constructor; exact Hc | apply matches_star_cls; exact Hl].
Qed.

Lemma matches_upto_cls (p : ascii -> bool) (n : nat) (l : list ascii) :
  matches (UpTo n (Cls p)) l <-> all_in p l /\ (length l <= n)%nat.
Proof.
  revert l. induction n as [|n IH]; intros l; simpl.
  - rewrite matches_eps_inv. split.
    + intros ->. split; [constructor | reflexivity].
    + intros [_ Hlen]. destruct l; [reflexivity | simpl in Hlen; lia].
  - unfold Opt. rewrite matches_alt_inv, matches_eps_inv, matches_seq_inv. split.
    + intros [->|(s1 & s2 & -> & H1 & H2)].
      * split; [constructor | simpl; lia].
      * apply matches_cls_inv in H1 as (c & -> & Hc). apply IH in H2 as [H2 Hlen].
        split; [constructor; assumption | simpl; lia].
    + intros [H Hlen]. destruct H as [|c l Hc Hl]; [left; reflexivity|].
      right. exists [c], l. split; [reflexivity|].
      split; [constructor; exact Hc | apply IH; simpl in Hlen; split; [exact Hl | lia]].
Qed.

Lemma matches_char (x : ascii) (l : list ascii) :
  matches (Cls (is_char x)) l <-> l = [x].
Proof.
  rewrite matches_cls_inv. unfold is_char. split.
  - intros (c & -> & Hc). apply Ascii.eqb_eq in Hc. congruence.
  - intros ->. exists x. split; [reflexivity | apply Ascii.eqb_refl].
Qed.

Lemma email_re_shape (s : string) :
  test ClientForm.email_re s = true <-> Spec.email_shape (Spec.chars s).
Proof.
  rewrite test_matches. unfold Spec.chars, Spec.email_shape, ClientForm.email_re.
  generalize (list_ascii_of_string s). intros l.
  rewrite matches_seq_inv. split.
  - intros (a & r1 & -> & Ha & H1).
    apply matches_seq_inv in H1 as (at_ & r2 & -> & Hat & H2).
    apply matches_seq_inv in H2 as (b & r3 & -> & Hb & H3).
    apply matches_seq_inv in H3 as (dot & c & -> & Hdot & Hc).
    apply matches_char in Hat as ->. apply matches_char in Hdot as ->.
    apply matches_plus_cls in Ha as [? ?]. apply matches_plus_cls in Hb as [? ?].
    apply matches_plus_cls in Hc as [? ?].
    exists a, b, c. simpl. repeat split; assumption.
  - intros (a & b & c & -> & Ha & Hb & Hc & Pa & Pb & Pc).
    exists a, ("@"%char :: b ++ "."%char :: c). split; [reflexivity|].
    split; [apply matches_plus_cls; auto|].
    apply (matches_seq _ _ ["@"%char] (b ++ "."%char :: c)); [apply matches_char; reflexivity|].
    apply (matches_seq _ _ b ("."%char :: c)); [apply matches_plus_cls; auto|].
    apply (matches_seq _ _ ["."%char] c); [apply matches_char; reflexivity|].
    apply matches_plus_cls; auto.
Qed.

Lemma phone_re_shape (s : string) :
  test ClientForm.phone_re s = true <-> Spec.phone_shape (Spec.chars s).
Proof.
  rewrite test_matches. unfold Spec.chars, Spec.phone_shape, ClientForm.phone_re.
  generalize (list_ascii_of_string s). intros l.
  rewrite matches_seq_inv. split.
  - intros (sign & r1 & -> & Hs & H1).
    apply matches_seq_inv in H1 as (d1 & rest & -> & Hd & Hrest).
    apply matches_cls_inv in Hd as (d & -> & Hd).
    apply matches_upto_cls in Hrest as [Hrest Hlen].
    apply andb_true_iff in Hd as [Hlo Hhi]. apply N.leb_le in Hlo, Hhi.
    exists sign, d, rest. split; [reflexivity|]. split; [|auto].
    unfold Opt in Hs. apply matches_alt_inv in Hs as [Hs|Hs].
    + left. apply matches_eps_inv. exact Hs.
    + right. apply matches_char. exact Hs.
  - intros (sign & d & rest & -> & Hs & [Hlo Hhi] & Hrest & Hlen).
    exists sign, (d :: rest). split; [reflexivity|]. split.
    + unfold Opt. apply matches_alt_inv. destruct Hs as [->| ->].
      * left. constructor.
      * right. apply matches_char. reflexivity.
    + apply (matches_seq _ _ [d] rest).
      * constructor. apply andb_true_iff. split; apply N.leb_le; assumption.
      * apply matches_upto_cls. auto.
Qed.

(** X1. The addresses accepted by the form's e-mail pattern are exactly the
    texts of the shape [local@domain.tld] with the three pieces
    non-empty and free of whitespace and of [@]. *)
Theorem email_pattern_accepts (s : string) :
  test ClientForm.email_re s = true <-> Spec.email_shape (Spec.chars s).
Proof. exact (email_re_shape s). Qed.

(** X2. The numbers accepted by the form's phone pattern are exactly an
    optional [+], one digit from 1 to 9 and at most fifteen further
    digits: between one and sixteen digits in all, the first not 0. *)
Theorem phone_pattern_accepts (s : string) :
  test ClientForm.phone_re s = true <-> Spec.phone_shape (Spec.chars s).
Proof. exact (phone_re_shape s). Qed.

End Patterns.

Section Validation.

Import RegExp.

Lemma dropWhile_nil (p : ascii -> bool) (l : list ascii) :
  dropWhile p l = [] <-> all_in p l.
Proof.
  induction l as [|c l IH]; simpl.
  - split; [constructor | reflexivity].
  - destruct (p c) eqn:Hc.
    + rewrite IH. split; [constructor; assumption | intros H; inversion H; assumption].
    + split; [discriminate | intros H; inversion H; congruence].
Qed.

Lemma dropWhile_head (p : ascii -> bool) (l : list ascii) (c : ascii) (rest : list ascii) :
  dropWhile p l = c :: rest -> p c = false.
Proof.
  induction l as [|x l IH]; simpl; [discriminate|].
  destruct (p x) eqn:Hx; [exact IH|]. intros [= <- _]. exact Hx.
Qed.

Lemma string_of_list_ascii_nil (l : list ascii) :
  string_of_list_ascii l = "" <-> l = [].
Proof. destruct l; simpl; split; congruence. Qed.

(** Trimming leaves nothing exactly when the text is blank. *)
Lemma trim_empty (s : string) : trim s = "" <-> Spec.blank s.
Proof.
  unfold trim, Spec.blank, Spec.chars. generalize (list_ascii_of_string s). intros l.
  rewrite string_of_list_ascii_nil. split.
  - intros H. apply (f_equal (@rev ascii)) in H. rewrite rev_involutive in H. simpl in H.
    apply dropWhile_nil in H.
    destruct (dropWhile is_space l) as [|c rest] eqn:E; [apply dropWhile_nil; exact E|].
    apply dropWhile_head in E. unfold all_in in H.
    apply List.Forall_rev in H. rewrite rev_involutive in H. inversion H; congruence.
  - intros H. apply dropWhile_nil in H. rewrite H. reflexivity.
Qed.

Lemma truthy_trim (s : string) : JS.truthy_string (trim s) = true <-> ~ Spec.blank s.
Proof.
  unfold JS.truthy_string. rewrite negb_true_iff, <- trim_empty.
  destruct (String.eqb_spec (trim s) ""); split; congruence.
Qed.

Lemma email_shape_not_blank (l : list ascii) :
  Spec.email_shape l -> ~ all_in is_space l.
Proof.
  intros (a & b & c & -> & _) H. unfold all_in in H.
  apply List.Forall_app in H as [_ H]. inversion H as [|? ? Hat _]. discriminate Hat.
Qed.

Lemma chars_remove_all (cls : ascii -> bool) (s : string) :
  Spec.chars (remove_all cls s) = List.filter (fun c => negb (cls c)) (Spec.chars s).
Proof. unfold Spec.chars, remove_all. apply list_ascii_of_string_of_list_ascii. Qed.

(** X3. The client form passes validation exactly when the name is not
    blank, the e-mail has the accepted shape, and the phone is either
    left empty or, once spaces, dashes and parentheses are removed, has
    the accepted shape. *)
Theorem validateForm_accepts (f : ClientForm.FormData) :
  ClientForm.validateForm f = true
  <-> ~ Spec.blank (ClientForm.fd_name f)
      /\ Spec.email_shape (Spec.chars (ClientForm.fd_email f))
      /\ (ClientForm.fd_phone f = ""
          \/ Spec.phone_shape
               (List.filter (fun c => negb (ClientForm.phone_noise c))
                  (Spec.chars (ClientForm.fd_phone f)))).
Proof.
  unfold ClientForm.validateForm, ClientForm.newErrors.
  rewrite <- chars_remove_all, <- phone_re_shape, <- email_re_shape.
  rewrite <- truthy_trim.
  destruct (JS.truthy_string (trim (ClientForm.fd_name f))); simpl;
    [|split; [discriminate | intros [H _]; congruence]].
  destruct (test ClientForm.email_re (ClientForm.fd_email f)) eqn:Hemail.
  - assert (Ht : JS.truthy_string (trim (ClientForm.fd_email f)) = true).
    { apply truthy_trim. unfold Spec.blank. apply email_shape_not_blank.
      apply email_re_shape. exact Hemail. }
    rewrite Ht. simpl.
    unfold JS.truthy_string.
    destruct (String.eqb_spec (ClientForm.fd_phone f) ""); simpl; [tauto|].
    destruct (test ClientForm.phone_re
                (remove_all ClientForm.phone_noise (ClientForm.fd_phone f))); simpl.
    + tauto.
    + split; [discriminate | intros (_ & _ & [H|H]); congruence].
  - destruct (JS.truthy_string (trim (ClientForm.fd_email f))); simpl;
      (split; [discriminate | intros (_ & H & _); discriminate H]).
Qed.

End Validation.

(** ** Pagination *)

Lemma pageButtons_window (page pages : Z) :
  Clients.pageButtons page pages
  = map (fun i => Clients.pageNum page pages 0 + Z.of_nat i)
      (seq 0 (Z.to_nat (Z.min 5 pages))).
Proof.
  unfold Clients.pageButtons. apply map_ext. intros i. unfold Clients.pageNum.
  destruct (Z.leb pages 5); [lia|].
  destruct (Z.leb page 3); [lia|].
  destruct (Z.geb page (pages - 2)); lia.
Qed.

(** X4. The numbered page buttons of the client list are [min(5, pages)]
    consecutive page numbers, every one of them an existing page, and
    the current page is among them exactly when it is an existing
    page. *)
Theorem page_buttons_stay_in_range (page pages : Z) :
  length (Clients.pageButtons page pages) = Z.to_nat (Z.min 5 pages)
  /\ (forall (i : nat) (n m : Z),
        Clients.pageButtons page pages !! i = Some n ->
        Clients.pageButtons page pages !! S i = Some m -> m = n + 1)
  /\ Forall (fun n => 1 <= n <= pages) (Clients.pageButtons page pages)
  /\ (In page (Clients.pageButtons page pages) <-> 1 <= page <= pages).
Proof.
  rewrite pageButtons_window.
  set (start := Clients.pageNum page pages 0).
  set (len := Z.to_nat (Z.min 5 pages)).
  assert (Hstart : (0 < len)%nat -> 1 <= start /\ start + Z.of_nat len - 1 <= pages).
  { subst start len. unfold Clients.pageNum. intros Hlen.
    destruct (Z.leb_spec pages 5); [lia|].
    destruct (Z.leb_spec page 3); [lia|].
    destruct (Z.geb_spec page (pages - 2)); lia. }
  split; [|split; [|split]].
  - rewrite length_map, length_seq. reflexivity.
  - intros i n m Hn Hm. rewrite list_lookup_fmap in Hn, Hm.
    destruct (seq 0 len !! i) as [a|] eqn:Ea; [|discriminate].
    destruct (seq 0 len !! S i) as [b|] eqn:Eb; [|discriminate].
    apply lookup_seq in Ea as [-> _]. apply lookup_seq in Eb as [-> _].
    simpl in Hn, Hm. injection Hn as <-. injection Hm as <-. lia.
  - apply List.Forall_forall. intros n Hn.
    apply in_map_iff in Hn as (i & <- & Hi). apply in_seq in Hi. lia.
  - rewrite in_map_iff. split.
    + intros (i & E & Hi). apply in_seq in Hi. lia.
    + intros Hpage. exists (Z.to_nat (page - start)).
      assert (Hlen : (0 < len)%nat) by (subst len; lia).
      specialize (Hstart Hlen).
      assert (Hin : start <= page < start + Z.of_nat len).
      { subst start len. unfold Clients.pageNum in *.
        destruct (Z.leb_spec pages 5); [lia|].
        destruct (Z.leb_spec page 3); [lia|].
        destruct (Z.geb_spec page (pages - 2)); lia. }
      split; [lia | apply in_seq; lia].
Qed.

(** X5. On a page that holds at least one client, the "Showing a to b of
    total" line names a non-empty range inside the result set that is
    no longer than one page. *)
Theorem showing_range_is_sound (page perPage total : Z) :
  1 <= page -> 1 <= perPage -> (page - 1) * perPage < total ->
  1 <= fst (Clients.showing page perPage total)
  /\ fst (Clients.showing page perPage total) <= snd (Clients.showing page perPage total)
  /\ snd (Clients.showing page perPage total) <= total
  /\ snd (Clients.showing page perPage total) - fst (Clients.showing page perPage total)
     < perPage.
Proof.
  intros Hpage Hper Htotal. unfold Clients.showing. simpl. nia.
Qed.

Lemma showing_range_is_sound_witness :
  1 <= fst (Clients.showing 3 10 27)
  /\ fst (Clients.showing 3 10 27) <= snd (Clients.showing 3 10 27)
  /\ snd (Clients.showing 3 10 27) <= 27
  /\ snd (Clients.showing 3 10 27) - fst (Clients.showing 3 10 27) < 10.
Proof. apply (showing_range_is_sound 3 10 27); lia. Defined.

(** X6. While the current page of the task list is an existing page, every
    enabled pagination button leads to an existing page, and the block,
    when shown, always has an enabled button. *)
Theorem task_pagination_stays_in_range (currentPage totalPages : Z) :
  1 <= currentPage <= totalPages ->
  Forall (fun b => TaskManagement.pb_disabled b = false ->
                   1 <= TaskManagement.pb_target b <= totalPages)
    (TaskManagement.pagination currentPage totalPages)
  /\ (TaskManagement.pagination currentPage totalPages <> [] ->
      Exists (fun b => TaskManagement.pb_disabled b = false)
        (TaskManagement.pagination currentPage totalPages)).
Proof.
  intros Hrange. unfold TaskManagement.pagination.
  destruct (Z.ltb_spec 1 totalPages) as [Hmany|Hone].
  - split.
    + constructor; [|constructor; [|constructor]]; simpl; intros Hen;
        apply Z.eqb_neq in Hen; lia.
    + intros _. destruct (Z.eqb_spec currentPage 1) as [E|E].
      * apply Exists_cons_tl. apply Exists_cons_hd. simpl. apply Z.eqb_neq. lia.
      * apply Exists_cons_hd. reflexivity.
  - split; [constructor | congruence].
Qed.

Lemma task_pagination_stays_in_range_witness :
  1 <= 2 <= 4
  /\ Forall (fun b => TaskManagement.pb_disabled b = false ->
                      1 <= TaskManagement.pb_target b <= 4)
       (TaskManagement.pagination 2 4)
  /\ (TaskManagement.pagination 2 4 <> [] ->
      Exists (fun b => TaskManagement.pb_disabled b = false)
        (TaskManagement.pagination 2 4)).
Proof. split; [lia | apply (task_pagination_stays_in_range 2 4); lia]. Defined.

(** ** Signing in, signing out and the guard *)

(** X7. On start the guard shows the spinner until the mount effect has
    finished; after it, the protected page is shown exactly when a
    non-empty token was stored and the verification call returned a
    user, and the visitor is sent to the login page in every other
    case: no token, an empty entry (for which no call is made), a
    failed call, or a response without a user. *)
Theorem startup_guard
    (api : Http.ApiCall -> AuthContext.me_result) (st : JS.Storage) (page : string) :
  App.guarded (AuthContext.initial st) page = App.Spinner
  /\ (App.guarded (AuthContext.verifyToken api (AuthContext.initial st)) page
      = App.Fragment page
      <-> exists (token : string) (u : Types.User),
            JS.getItem "token" st = Some token
            /\ token <> ""
            /\ api AuthContext.me_call = AuthContext.MeOk (Some u))
  /\ (App.guarded (AuthContext.verifyToken api (AuthContext.initial st)) page
      = App.Fragment page
      \/ App.guarded (AuthContext.verifyToken api (AuthContext.initial st)) page
         = App.Navigate "/login" true).
Proof.
  unfold App.guarded, AuthContext.verifyToken, JS.truthy_string. simpl.
  split; [reflexivity|].
  destruct (JS.getItem "token" st) as [token|]; simpl;
    [destruct (String.eqb_spec token "") as [->|Hne]; simpl;
       [|destruct (api AuthContext.me_call) as [[u|]|e]; simpl]|];
    (split;
     [ split;
       [ intros H; first [discriminate H | eauto]
       | intros (t & u' & H1 & Hne' & H2);
         first [discriminate H1 | discriminate H2 | reflexivity
               | exfalso; apply Hne'; congruence] ]
     | first [left; reflexivity | right; reflexivity] ]).
Qed.

(** X8. Signing out always ends with no user and no stored token, whatever
    the state before; nothing else in the storage is touched, and once
    loading is over the guard sends the visitor to the login page. *)
Theorem logout_clears_session (s : AuthContext.State) (page : string) :
  AuthContext.user (AuthContext.logout s) = None
  /\ JS.getItem "token" (AuthContext.storage (AuthContext.logout s)) = None
  /\ (forall k : string, k <> "token" ->
        JS.getItem k (AuthContext.storage (AuthContext.logout s))
        = JS.getItem k (AuthContext.storage s))
  /\ AuthContext.loading (AuthContext.logout s) = AuthContext.loading s
  /\ (AuthContext.loading s = false ->
      App.guarded (AuthContext.logout s) page = App.Navigate "/login" true).
Proof.
  unfold App.guarded, AuthContext.logout, JS.getItem, JS.removeItem. simpl.
  repeat split.
  - apply lookup_delete_eq.
  - intros k Hk. apply lookup_delete_ne. congruence.
  - intros ->. reflexivity.
Qed.

(** X9. A sign-in that fails at either call leaves the user as it was. The
    token is stored as soon as the login call succeeds, so a failure of
    the user lookup that follows leaves a stored token without a
    signed-in user; a failed registration changes nothing at all. *)
Theorem failed_login_keeps_user
    (post : AuthContext.login_result) (me : AuthContext.me_result)
    (s : AuthContext.State) (error access_token : string) :
  AuthContext.login (AuthContext.LoginFailed error) me s = s
  /\ AuthContext.user
       (AuthContext.login (AuthContext.LoginOk access_token) (AuthContext.MeFailed error) s)
     = AuthContext.user s
  /\ JS.getItem "token"
       (AuthContext.storage
          (AuthContext.login (AuthContext.LoginOk access_token)
             (AuthContext.MeFailed error) s))
     = Some access_token
  /\ AuthContext.register (AuthContext.RegisterFailed error) post me s = s
  /\ AuthContext.loading (AuthContext.login post me s) = AuthContext.loading s.
Proof.
  repeat split; simpl.
  - unfold JS.getItem, JS.setItem. apply lookup_insert_eq.
  - destruct post as [tok|e]; [destruct me|]; reflexivity.
Qed.

(** X10. A successful sign-in survives a reload: the token it stored,
    when it is not the empty string, is found by the mount effect, and
    when the verification call returns the same user the context ends
    up signed in as that user, with the token still stored. An empty
    [access_token] is stored as well, but on reload the effect makes no
    call for it and the visitor is not signed in. *)
Theorem login_survives_reload
    (api : Http.ApiCall -> AuthContext.me_result) (s : AuthContext.State)
    (access_token : string) (u : Types.User) :
  access_token <> "" ->
  api AuthContext.me_call = AuthContext.MeOk (Some u) ->
  AuthContext.user
    (AuthContext.login (AuthContext.LoginOk access_token) (AuthContext.MeOk (Some u)) s)
  = Some u
  /\ AuthContext.verifyToken api
       (AuthContext.initial
          (AuthContext.storage
             (AuthContext.login (AuthContext.LoginOk access_token)
                (AuthContext.MeOk (Some u)) s)))
     = AuthContext.mkState (Some u) false
         (JS.setItem "token" access_token (AuthContext.storage s))
  /\ AuthContext.verifyToken api
       (AuthContext.initial
          (AuthContext.storage
             (AuthContext.login (AuthContext.LoginOk "") (AuthContext.MeOk (Some u)) s)))
     = AuthContext.mkState None false (JS.setItem "token" "" (AuthContext.storage s)).
Proof.
  intros Hne Hme. split; [reflexivity|].
  unfold AuthContext.verifyToken. simpl.
  unfold JS.getItem, JS.setItem. rewrite !lookup_insert_eq, Hme.
  rewrite (truthy_nonempty access_token Hne). split; reflexivity.
Qed.

Lemma login_survives_reload_witness :
  "eyJhbGciOi" <> ""
  /\ AuthContext.user
       (AuthContext.login (AuthContext.LoginOk "eyJhbGciOi")
          (AuthContext.MeOk (Some Spec.sample_user)) (AuthContext.initial ∅))
     = Some Spec.sample_user
  /\ AuthContext.verifyToken (fun _ => AuthContext.MeOk (Some Spec.sample_user))
       (AuthContext.initial
          (AuthContext.storage
             (AuthContext.login (AuthContext.LoginOk "eyJhbGciOi")
                (AuthContext.MeOk (Some Spec.sample_user)) (AuthContext.initial ∅))))
     = AuthContext.mkState (Some Spec.sample_user) false
         (JS.setItem "token" "eyJhbGciOi" ∅).
Proof.
  assert (Hne : "eyJhbGciOi" <> "") by discriminate.
  split; [exact Hne|].
  destruct (login_survives_reload (fun _ => AuthContext.MeOk (Some Spec.sample_user))
              (AuthContext.initial ∅) "eyJhbGciOi" Spec.sample_user Hne eq_refl)
    as (H1 & H2 & _).
  split; assumption.
Defined.

(** ** More on the meeting page *)

Section MeetingPage.

Import MeetingManagement.

Variable Date_parse : string -> timeValue.

(** X12. Whatever the filter and however the clock moves, the list shown is
    a selection from the meetings in their original order: nothing is
    added, repeated or reordered. *)
Theorem filtered_meetings_are_a_selection
    (filter : string) (clock : nat -> Z) (meetings : list Meeting) :
  filteredMeetings Date_parse filter clock meetings `sublist_of` meetings.
Proof.
  unfold filteredMeetings. generalize 0%nat.
  induction meetings as [|m rest IH]; intros k; simpl; [constructor|].
  destruct (keep Date_parse filter (clock k) m).
  - apply sublist_skip. apply IH.
  - apply sublist_cons. apply IH.
Qed.

(** X13. A filter other than "all", "upcoming" and "past" selects by status:
    it shows exactly the meetings whose status is the filter's name, and
    the clock plays no part. *)
Theorem status_filter_selects_by_status
    (filter : string) (clock : nat -> Z) (meetings : list Meeting) :
  filter <> "all" -> filter <> "upcoming" -> filter <> "past" ->
  filteredMeetings Date_parse filter clock meetings
  = List.filter (fun m => String.eqb (status m) filter) meetings.
Proof.
  intros Hall Hup Hpast. unfold filteredMeetings. generalize 0%nat.
  induction meetings as [|m rest IH]; intros k; simpl; [reflexivity|].
  rewrite IH. unfold keep.
  destruct (String.eqb_spec filter "all"); [contradiction|].
  destruct (String.eqb_spec filter "upcoming"); [contradiction|].
  destruct (String.eqb_spec filter "past"); [contradiction|].
  reflexivity.
Qed.

Lemma filter_disjoint_length {A : Type} (p q : A -> bool) (l : list A) :
  (forall x, p x = true -> q x = true -> False) ->
  (length (List.filter p l) + length (List.filter q l) <= length l)%nat.
Proof.
  intros Hpq. induction l as [|x l IH]; simpl; [lia|].
  destruct (p x) eqn:Hp, (q x) eqn:Hq; simpl; try lia.
  exfalso. eauto.
Qed.

(** X14. At any one instant no meeting is both upcoming and past, so the two
    lists together never hold more entries than there are meetings. *)
Theorem upcoming_and_past_are_disjoint (now : Z) (meetings : list Meeting) :
  (forall m : Meeting,
      ~ (In m (filteredMeetings Date_parse "upcoming" (Spec.frozen now) meetings)
         /\ In m (filteredMeetings Date_parse "past" (Spec.frozen now) meetings)))
  /\ (length (filteredMeetings Date_parse "upcoming" (Spec.frozen now) meetings)
      + length (filteredMeetings Date_parse "past" (Spec.frozen now) meetings)
      <= length meetings)%nat.
Proof.
  unfold filteredMeetings. rewrite !filter_from_frozen. split.
  - intros m [Hup Hpast]. apply filter_In in Hup as [_ Hup], Hpast as [_ Hpast].
    apply keep_upcoming in Hup as (t & Ht & Hlt).
    apply keep_past in Hpast as (t' & Ht' & Hlt').
    rewrite Ht in Ht'. injection Ht' as <-. lia.
  - apply filter_disjoint_length. intros m Hup Hpast.
    apply keep_upcoming in Hup as (t & Ht & Hlt).
    apply keep_past in Hpast as (t' & Ht' & Hlt').
    rewrite Ht in Ht'. injection Ht' as <-. lia.
Qed.

End MeetingPage.

Lemma status_filter_selects_by_status_witness :
  "scheduled" <> "all" /\ "scheduled" <> "upcoming" /\ "scheduled" <> "past"
  /\ MeetingManagement.filteredMeetings Spec.sample_parse "scheduled" (Spec.frozen 1000)
       Spec.sample_meetings
     = List.filter (fun m => String.eqb (MeetingManagement.status m) "scheduled")
         Spec.sample_meetings.
Proof.
  assert (H1 : "scheduled" <> "all") by discriminate.
  assert (H2 : "scheduled" <> "upcoming") by discriminate.
  assert (H3 : "scheduled" <> "past") by discriminate.
  split; [exact H1|]. split; [exact H2|]. split; [exact H3|].
  apply (status_filter_selects_by_status Spec.sample_parse "scheduled" (Spec.frozen 1000)
           Spec.sample_meetings H1 H2 H3).
Defined.

(** The status buttons of a meeting card exist for scheduled meetings
    only and lead to [completed] or [cancelled]; each sends a [PATCH] to
    the meeting's status path with the one-field body [{ status }].
    A meeting in any other status has no status button. *)
Theorem meeting_status_buttons (st : JS.Storage) (meeting : MeetingManagement.Meeting) :
  Forall (fun b =>
            MeetingManagement.status meeting = "scheduled"
            /\ In (MeetingManagement.sb_status b) ["completed"; "cancelled"]
            /\ MeetingManagement.onStatusClick st meeting b
               = Http.mkFetchCall
                   (Http.path ("http://localhost:8000/api/v1/meetings/"
                               +:+ pretty (MeetingManagement.id meeting) +:+ "/status"))
                   Http.PATCH (MeetingManagement.auth_headers st)
                   (Spec.status_body (MeetingManagement.sb_status b)))
    (MeetingManagement.statusButtons meeting)
  /\ (MeetingManagement.status meeting <> "scheduled" ->
      MeetingManagement.statusButtons meeting = []).
Proof.
  unfold MeetingManagement.statusButtons.
  destruct (String.eqb_spec (MeetingManagement.status meeting) "scheduled") as [E|E].
  - split; [|congruence].
    constructor; [|constructor; [|constructor]]; simpl; repeat split; auto.
  - split; [constructor | reflexivity].
Qed.

Section MeetingForm.

Import MeetingManagement.

Variable Date_parse : string -> timeValue.
Variable toISOString : Z -> string.

(** X16. Editing a meeting whose times parse loads the form with the
    meeting's data (missing texts as empty strings, times cut to the
    minute), opens it, and makes the next submission an update of that
    meeting; resetting the form afterwards empties it, closes it, and
    makes the next submission a creation. *)
Theorem edit_loads_the_form
    (st : JS.Storage) (s : FormState) (m : Meeting) (t1 t2 : Z) :
  Date_parse (start_time m) = Some t1 ->
  Date_parse (end_time m) = Some t2 ->
  snd (handleEdit Date_parse toISOString m) = Returned
  /\ apply_calls (fst (handleEdit Date_parse toISOString m)) s
     = mkFormState (Some m)
         (mkFormData (title m) (or_empty (description m))
            (substring 0 16 (toISOString t1)) (substring 0 16 (toISOString t2))
            (type m) (or_empty (location m)) (or_empty (meeting_url m))
            (Some (assigned_to_id m)) (client_id m) (lead_id m)
            (or_empty (attendees m)))
         true
  /\ Http.fetch_method
       (submit st (apply_calls (fst (handleEdit Date_parse toISOString m)) s))
     = Http.PUT
  /\ Http.fetch_url
       (submit st (apply_calls (fst (handleEdit Date_parse toISOString m)) s))
     = Http.path (API_BASE_URL +:+ "/meetings/" +:+ pretty (id m))
  /\ apply_calls resetForm (apply_calls (fst (handleEdit Date_parse toISOString m)) s)
     = mkFormState None blankForm false
  /\ Http.fetch_method
       (submit st
          (apply_calls resetForm
             (apply_calls (fst (handleEdit Date_parse toISOString m)) s)))
     = Http.POST.
Proof.
  intros H1 H2. unfold handleEdit, local_input. rewrite H1, H2. simpl.
  repeat split.
Qed.

(** X17. Editing a meeting one of whose times does not parse throws after a
    single setter call: the meeting is recorded as the one being edited,
    but the form is neither loaded nor opened. Opening the form with the
    "Schedule Meeting" button and submitting it then sends an update of
    that meeting carrying whatever the form held before. *)
Theorem failed_edit_leaves_meeting_selected
    (st : JS.Storage) (s : FormState) (m : Meeting) :
  Date_parse (start_time m) = None \/ Date_parse (end_time m) = None ->
  handleEdit Date_parse toISOString m = ([SetEditingMeeting (Some m)], Threw)
  /\ apply_calls (fst (handleEdit Date_parse toISOString m) ++ scheduleButton) s
     = mkFormState (Some m) (formData s) true
  /\ Http.fetch_method
       (submit st
          (apply_calls (fst (handleEdit Date_parse toISOString m) ++ scheduleButton) s))
     = Http.PUT
  /\ Http.fetch_url
       (submit st
          (apply_calls (fst (handleEdit Date_parse toISOString m) ++ scheduleButton) s))
     = Http.path (API_BASE_URL +:+ "/meetings/" +:+ pretty (id m))
  /\ Http.fetch_body
       (submit st
          (apply_calls (fst (handleEdit Date_parse toISOString m) ++ scheduleButton) s))
     = Some (form_body (formData s)).
Proof.
  intros Hbad.
  assert (E : handleEdit Date_parse toISOString m = ([SetEditingMeeting (Some m)], Threw)).
  { unfold handleEdit, local_input.
    destruct (Date_parse (start_time m)); [|reflexivity].
    destruct (Date_parse (end_time m)); [|reflexivity].
    destruct Hbad; discriminate. }
  rewrite E. simpl. repeat split.
Qed.

End MeetingForm.

Lemma edit_loads_the_form_witness :
  Spec.sample_parse "09:00" = Some 900
  /\ snd (MeetingManagement.handleEdit Spec.sample_parse Spec.sample_iso
            (Spec.sample_meeting 1 "09:00")) = MeetingManagement.Returned
  /\ Http.fetch_method
       (MeetingManagement.submit ∅
          (MeetingManagement.apply_calls
             (fst (MeetingManagement.handleEdit Spec.sample_parse Spec.sample_iso
                     (Spec.sample_meeting 1 "09:00")))
             Spec.sample_form_state))
     = Http.PUT.
Proof.
  assert (H : Spec.sample_parse "09:00" = Some 900) by reflexivity.
  split; [exact H|].
  destruct (edit_loads_the_form Spec.sample_parse Spec.sample_iso ∅ Spec.sample_form_state
              (Spec.sample_meeting 1 "09:00") 900 900 H H) as (R & _ & P & _).
  split; [exact R | exact P].
Defined.

Lemma failed_edit_leaves_meeting_selected_witness :
  Spec.sample_parse "soon" = None
  /\ MeetingManagement.handleEdit Spec.sample_parse Spec.sample_iso
       (Spec.sample_meeting 4 "soon")
     = ([MeetingManagement.SetEditingMeeting (Some (Spec.sample_meeting 4 "soon"))],
        MeetingManagement.Threw)
  /\ Http.fetch_body
       (MeetingManagement.submit ∅
          (MeetingManagement.apply_calls
             (fst (MeetingManagement.handleEdit Spec.sample_parse Spec.sample_iso
                     (Spec.sample_meeting 4 "soon"))
              ++ MeetingManagement.scheduleButton)
             Spec.sample_form_state))
     = Some (MeetingManagement.form_body
               (MeetingManagement.formData Spec.sample_form_state)).
Proof.
  assert (H : Spec.sample_parse "soon" = None) by reflexivity.
  split; [exact H|].
  destruct (failed_edit_leaves_meeting_selected Spec.sample_parse Spec.sample_iso ∅
              Spec.sample_form_state (Spec.sample_meeting 4 "soon") (or_introl H))
    as (E & _ & _ & _ & B).
  split; [exact E | exact B].
Defined.

(** ** The content engine's search form and ranking *)

Lemma filter_not_index_later {A : Type} (index i : nat) (l : list A) :
  (index < i)%nat -> ContentEngineForm.filter_not_index index i l = l.
Proof.
  revert i. induction l as [|x l IH]; intros i Hi; simpl; [reflexivity|].
  destruct (Nat.eqb_spec i index); [lia|]. rewrite IH; [reflexivity | lia].
Qed.

Lemma filter_not_index_delete {A : Type} (index i : nat) (l : list A) :
  ContentEngineForm.filter_not_index (i + index) i l = delete index l.
Proof.
  revert index i. induction l as [|x l IH]; intros index i; simpl; [reflexivity|].
  destruct index as [|index]; simpl.
  - rewrite Nat.add_0_r, Nat.eqb_refl. apply filter_not_index_later. lia.
  - destruct (Nat.eqb_spec i (i + S index)); [lia|].
    replace (i + S index)%nat with (S i + index)%nat by lia.
    rewrite IH. reflexivity.
Qed.

Lemma filter_not_index_delete0 {A : Type} (index : nat) (l : list A) :
  ContentEngineForm.filter_not_index index 0 l = delete index l.
Proof. exact (filter_not_index_delete index 0 l). Qed.

Lemma delete_last {A : Type} (l : list A) (x : A) : delete (length l) (l ++ [x]) = l.
Proof. induction l as [|y l IH]; simpl; [reflexivity|]. f_equal. exact IH. Qed.

(** X18. Adding a custom topic that is not blank appends the trimmed text at
    the end of the list, empties and hides the input and leaves the rest
    of the search form alone; removing the entry just added restores
    the search form as it was. *)
Theorem custom_topic_add_then_remove (s : ContentEngineForm.State) :
  ~ Spec.blank (ContentEngineForm.newCustomTopic s) ->
  ContentEngineForm.addCustomTopic s
  = ContentEngineForm.mkState
      (ContentEngineForm.mkSearchParams
         (ContentEngineForm.field (ContentEngineForm.searchParams s))
         (ContentEngineForm.content_type (ContentEngineForm.searchParams s))
         (ContentEngineForm.target_audience (ContentEngineForm.searchParams s))
         (ContentEngineForm.industry (ContentEngineForm.searchParams s))
         (ContentEngineForm.custom_topics (ContentEngineForm.searchParams s)
          ++ [RegExp.trim (ContentEngineForm.newCustomTopic s)]))
      "" false
  /\ ContentEngineForm.searchParams
       (ContentEngineForm.removeCustomTopic
          (length (ContentEngineForm.custom_topics (ContentEngineForm.searchParams s)))
          (ContentEngineForm.addCustomTopic s))
     = ContentEngineForm.searchParams s.
Proof.
  intros Hnb. apply truthy_trim in Hnb.
  unfold ContentEngineForm.addCustomTopic. rewrite Hnb.
  split; [reflexivity|].
  unfold ContentEngineForm.removeCustomTopic. simpl.
  rewrite filter_not_index_delete0.
  destruct s as [[f c t i topics] input shown]. simpl. f_equal.
  apply delete_last.
Qed.

Lemma custom_topic_add_then_remove_witness :
  ContentEngineForm.custom_topics
    (ContentEngineForm.searchParams (ContentEngineForm.addCustomTopic Spec.sample_search))
  = ["Rust"; "WebGPU"; "Edge AI"]
  /\ ContentEngineForm.searchParams
       (ContentEngineForm.removeCustomTopic 2
          (ContentEngineForm.addCustomTopic Spec.sample_search))
     = ContentEngineForm.searchParams Spec.sample_search.
Proof.
  assert (Hnb : ~ Spec.blank (ContentEngineForm.newCustomTopic Spec.sample_search)).
  { apply truthy_trim. vm_compute. reflexivity. }
  destruct (custom_topic_add_then_remove Spec.sample_search Hnb) as [Hadd Hrem].
  split; [rewrite Hadd; reflexivity | exact Hrem].
Defined.

(** X19. Removing a custom topic deletes exactly the entry at the given
    position (nothing when the position is past the end) and touches
    nothing else; adding a blank topic changes nothing. *)
Theorem custom_topic_remove (index : nat) (s : ContentEngineForm.State) :
  ContentEngineForm.removeCustomTopic index s
  = ContentEngineForm.mkState
      (ContentEngineForm.mkSearchParams
         (ContentEngineForm.field (ContentEngineForm.searchParams s))
         (ContentEngineForm.content_type (ContentEngineForm.searchParams s))
         (ContentEngineForm.target_audience (ContentEngineForm.searchParams s))
         (ContentEngineForm.industry (ContentEngineForm.searchParams s))
         (delete index (ContentEngineForm.custom_topics (ContentEngineForm.searchParams s))))
      (ContentEngineForm.newCustomTopic s) (ContentEngineForm.showCustomTopicInput s)
  /\ length (ContentEngineForm.custom_topics
               (ContentEngineForm.searchParams
                  (ContentEngineForm.removeCustomTopic index s)))
     = (if Nat.ltb index
             (length (ContentEngineForm.custom_topics (ContentEngineForm.searchParams s)))
        then pred (length (ContentEngineForm.custom_topics
                             (ContentEngineForm.searchParams s)))
        else length (ContentEngineForm.custom_topics (ContentEngineForm.searchParams s)))
  /\ (Spec.blank (ContentEngineForm.newCustomTopic s) ->
      ContentEngineForm.addCustomTopic s = s).
Proof.
  unfold ContentEngineForm.removeCustomTopic. simpl.
  rewrite filter_not_index_delete0. split; [reflexivity|]. split.
  - generalize (ContentEngineForm.custom_topics (ContentEngineForm.searchParams s)).
    intros l. rewrite delete_take_drop, length_app, length_take, length_drop.
    destruct (Nat.ltb_spec index (length l)); lia.
  - intros Hb. unfold ContentEngineForm.addCustomTopic.
    apply trim_empty in Hb. rewrite Hb. reflexivity.
Qed.

(** X20. The two action buttons and their handlers agree: a handler sends
    nothing exactly when the field or the content type is missing, and
    a button that is not disabled always sends its request, whose body
    is the search form with the custom topics as an array. *)
Theorem enabled_action_sends (isPending : bool) (p : ContentEngineForm.SearchParams) :
  (ContentEngineForm.handleDiscoverTopics p = None
   <-> ContentEngineForm.field p = "" \/ ContentEngineForm.content_type p = "")
  /\ (ContentEngineForm.handleGeneratePDF p = None
      <-> ContentEngineForm.field p = "" \/ ContentEngineForm.content_type p = "")
  /\ (ContentEngineForm.action_disabled isPending p = false ->
      ContentEngineForm.handleDiscoverTopics p
      = Some (Http.mkApiCall Http.POST (Http.path "/api/v1/content/discover-topics")
                (Some (ContentEngineForm.params_body p)))
      /\ ContentEngineForm.handleGeneratePDF p
         = Some (Http.mkApiCall Http.POST (Http.path "/api/v1/content/generate-pdf-report")
                   (Some (ContentEngineForm.params_body p)))).
Proof.
  unfold ContentEngineForm.handleDiscoverTopics, ContentEngineForm.handleGeneratePDF,
    ContentEngineForm.action_disabled, JS.truthy_string.
  destruct (String.eqb_spec (ContentEngineForm.field p) "") as [Ef|Ef];
    destruct (String.eqb_spec (ContentEngineForm.content_type p) "") as [Ec|Ec];
    simpl; repeat split; auto; try discriminate; try tauto;
    try (rewrite orb_true_r; discriminate);
    try (destruct isPending; discriminate).
Qed.

(** X21. Sorting an already sorted response changes nothing: rendering the
    tab again, which sorts the same array in place once more, shows the
    cards in the same order. *)
Theorem sorting_again_changes_nothing (trending_topics : list ContentEngine.TrendingTopic) :
  Forall Spec.is_score trending_topics ->
  ContentEngine.Array_sort ContentEngine.compareFn
    (ContentEngine.Array_sort ContentEngine.compareFn trending_topics)
  = ContentEngine.Array_sort ContentEngine.compareFn trending_topics
  /\ ContentEngine.TrendingTopicsTab
       (map ContentEngine.topic (ContentEngine.TrendingTopicsTab trending_topics))
     = ContentEngine.TrendingTopicsTab trending_topics.
Proof.
  intros Hscores.
  assert (Hfix : forall l, Sorted Spec.outranks l ->
                   ContentEngine.Array_sort ContentEngine.compareFn l = l).
  { intros l Hs. induction Hs as [|x l Hs IH Hd]; [reflexivity|].
    change (ContentEngine.Array_sort ContentEngine.compareFn (x :: l))
      with (ContentEngine.sort_insert ContentEngine.compareFn x
              (ContentEngine.Array_sort ContentEngine.compareFn l)).
    rewrite IH.
    destruct Hd as [|y l' Hxy]; simpl; [reflexivity|].
    apply outranks_compare in Hxy.
    destruct (Z.ltb_spec 0 (ContentEngine.SortCompare ContentEngine.compareFn x y));
      [lia | reflexivity]. }
  pose proof (Hfix _ (Array_sort_Sorted _ Hscores)) as H.
  split; [exact H|].
  unfold ContentEngine.TrendingTopicsTab at 1. rewrite tab_topics, H. reflexivity.
Qed.

Lemma sorting_again_changes_nothing_witness :
  ContentEngine.Array_sort ContentEngine.compareFn
    (ContentEngine.Array_sort ContentEngine.compareFn Spec.sample_topics)
  = ContentEngine.Array_sort ContentEngine.compareFn Spec.sample_topics
  /\ ContentEngine.TrendingTopicsTab
       (map ContentEngine.topic (ContentEngine.TrendingTopicsTab Spec.sample_topics))
     = ContentEngine.TrendingTopicsTab Spec.sample_topics.
Proof.
  apply (sorting_again_changes_nothing Spec.sample_topics).
  repeat constructor; discriminate.
Defined.

(** ** More on the task page *)

Lemma may_update_spec (user : option Types.User) (task : Tasks.Task) :
  Tasks.may_update user task = true
  <-> exists u : Types.User,
        user = Some u
        /\ (Types.role u = "admin" \/ Tasks.assigned_to_id task = Types.user_id u).
Proof.
  unfold Tasks.may_update. destruct user as [u|].
  - rewrite orb_true_iff, String.eqb_eq, Z.eqb_eq. split.
    + intros H. exists u. auto.
    + intros (u' & [= <-] & H). exact H.
  - split; [discriminate | intros (u & H & _); discriminate H].
Qed.

Lemma open_status_buttons (s : string) :
  (if String.eqb s "todo" then [Tasks.mkButton "Start" "in_progress"] else [])
  ++ (if String.eqb s "in_progress"
      then [Tasks.mkButton "Review" "review"; Tasks.mkButton "Complete" "completed"]
      else [])
  ++ (if String.eqb s "review" then [Tasks.mkButton "Complete" "completed"] else [])
  <> []
  <-> In s ["todo"; "in_progress"; "review"].
Proof.
  simpl.
  destruct (String.eqb_spec s "todo") as [E1|E1]; simpl; [split; [auto | discriminate]|].
  destruct (String.eqb_spec s "in_progress") as [E2|E2]; simpl;
    [split; [auto | discriminate]|].
  destruct (String.eqb_spec s "review") as [E3|E3]; simpl; [split; [auto | discriminate]|].
  split; [congruence|]. intros [H|[H|[H|[]]]]; congruence.
Qed.

(** X22. A task card shows status buttons exactly when the viewer is an
    administrator or the task's assignee and the task is in one of the
    three open statuses; a visitor who is not signed in, or an employee
    looking at someone else's task, gets none. *)
Theorem status_buttons_need_admin_or_assignee
    (user : option Types.User) (task : Tasks.Task) :
  Tasks.statusButtons user task <> []
  <-> (exists u : Types.User,
         user = Some u
         /\ (Types.role u = "admin" \/ Tasks.assigned_to_id task = Types.user_id u))
      /\ In (Tasks.status task) ["todo"; "in_progress"; "review"].
Proof.
  rewrite <- may_update_spec. unfold Tasks.statusButtons.
  destruct (Tasks.may_update user task).
  - rewrite open_status_buttons. tauto.
  - split; [congruence | intros [H _]; discriminate H].
Qed.

Section OverdueBadge.

Variable Date_parse : string -> option Z.

(** X23. The OVERDUE badge is shown exactly for a task that has a due date
    which parses to an instant strictly before now and that is not
    completed: never for a completed task, a task without due date, or
    a task due at this very instant. *)
Theorem overdue_badge_shown (now : Z) (task : Tasks.Task) :
  Tasks.overdueBadge Date_parse now task = true
  <-> exists (d : string) (t : Z),
        Tasks.due_date task = Some d /\ d <> ""
        /\ Date_parse d = Some t /\ t < now
        /\ Tasks.status task <> "completed".
Proof.
  unfold Tasks.overdueBadge, Tasks.isOverdue, JS.truthy_string.
  destruct (Tasks.due_date task) as [d|].
  - destruct (String.eqb_spec d "") as [Ed|Ed]; simpl.
    + split; [discriminate | intros (d' & t & [= <-] & H & _); contradiction].
    + destruct (Date_parse d) as [t|] eqn:Et; simpl.
      * destruct (Z.ltb_spec t now) as [Hlt|Hge]; simpl.
        -- destruct (String.eqb_spec (Tasks.status task) "completed") as [Ec|Ec]; simpl.
           ++ split; [discriminate | intros (d' & t' & _ & _ & _ & _ & H); contradiction].
           ++ split; [intros _; exists d, t; auto|reflexivity].
        -- split; [discriminate|].
           intros (d' & t' & [= <-] & _ & Ht' & Hlt & _).
           rewrite Et in Ht'. injection Ht' as <-. lia.
      * split; [discriminate|].
        intros (d' & t' & [= <-] & _ & Ht' & _). congruence.
  - split; [discriminate | intros (d & t & H & _); discriminate H].
Qed.

End OverdueBadge.

Section CreateTask.

Variable parseInt : string -> JS.number.
Variable parseFloat : string -> JS.number.

(** X24. The create form sends a request exactly when the title and the
    assignee are non-empty. The request is a [POST] to the task
    collection whose body holds the seven form fields and nothing else
    (no status, no creator): an empty due date or estimate is sent as
    [null], a non-empty one as entered or parsed. *)
Theorem create_task_request (t : Tasks.NewTask) :
  (Tasks.handleCreateTask parseInt parseFloat t <> None
   <-> Tasks.nt_title t <> "" /\ Tasks.nt_assigned_to_id t <> "")
  /\ (forall call : Http.ApiCall,
        Tasks.handleCreateTask parseInt parseFloat t = Some call ->
        Http.api_method call = Http.POST
        /\ Http.api_url call = Http.path "/api/v1/tasks/"
        /\ Http.api_body call = Some (JS.VObj (Tasks.createBody parseInt parseFloat t)))
  /\ JS.keys (Tasks.createBody parseInt parseFloat t)
     = ["title"; "description"; "type"; "priority"; "due_date"; "assigned_to_id";
        "estimated_hours"]
  /\ (JS.get_prop "due_date" (Tasks.createBody parseInt parseFloat t) = Some JS.VNull
      <-> Tasks.nt_due_date t = "")
  /\ (JS.get_prop "estimated_hours" (Tasks.createBody parseInt parseFloat t)
      = Some JS.VNull
      <-> Tasks.nt_estimated_hours t = "")
  /\ JS.get_prop "assigned_to_id" (Tasks.createBody parseInt parseFloat t)
     = Some (JS.VNum (parseInt (Tasks.nt_assigned_to_id t))).
Proof.
  unfold Tasks.handleCreateTask, Tasks.createBody, JS.truthy_string. simpl.
  split; [|split; [|split; [reflexivity|split; [|split; [|reflexivity]]]]].
  - destruct (String.eqb_spec (Tasks.nt_title t) "");
      destruct (String.eqb_spec (Tasks.nt_assigned_to_id t) ""); simpl;
      split; try tauto; try discriminate; try (intros H; exfalso; apply H; reflexivity).
  - intros call H.
    destruct (negb (String.eqb (Tasks.nt_title t) "")
              && negb (String.eqb (Tasks.nt_assigned_to_id t) "")); [|discriminate].
    injection H as <-. repeat split.
  - destruct (String.eqb_spec (Tasks.nt_due_date t) ""); simpl;
      split; try tauto; try discriminate; congruence.
  - destruct (String.eqb_spec (Tasks.nt_estimated_hours t) ""); simpl;
      split; try tauto; try discriminate; congruence.
Qed.

End CreateTask.

(** ** The client portal page *)

(** X25. A submission marks the form as submitted exactly when the response
    is ok (or it was submitted already); whatever happens, the
    submitting flag is cleared and the entered data is kept, so after a
    failure the visitor still sees the filled-in form and can retry. *)
Theorem portal_submission_outcome
    (r : ClientPortal.fetch_result) (s : ClientPortal.State) :
  (ClientPortal.isSubmitted (ClientPortal.submitted r s) = true
   <-> ClientPortal.isSubmitted s = true \/ r = ClientPortal.Response true)
  /\ ClientPortal.isSubmitting (ClientPortal.submitted r s) = false
  /\ ClientPortal.formData (ClientPortal.submitted r s) = ClientPortal.formData s
  /\ (ClientPortal.isSubmitted s = false -> r <> ClientPortal.Response true ->
      ClientPortal.render (ClientPortal.submitted r s)
      = ClientPortal.Form (ClientPortal.formData s) false).
Proof.
  unfold ClientPortal.render.
  destruct r as [[|]|e]; simpl; repeat split; auto;
    try (intros [H|H]; [exact H | discriminate H]);
    try (intros H1 H2; first [congruence | rewrite H1; reflexivity]).
Qed.

Lemma step_keeps_submitted (s s' : ClientPortal.State) :
  ClientPortal.step s s' ->
  ClientPortal.isSubmitted s = true -> ClientPortal.isSubmitted s' = true.
Proof.
  intros Hstep Hs. destruct Hstep as [field v s|r s].
  - exact Hs.
  - destruct r as [[|]|e]; simpl; [reflexivity | exact Hs | exact Hs].
Qed.

(** X26. The thank-you page is final: once the form has been submitted, no
    sequence of further inputs and submissions brings the form back. *)
Theorem portal_thank_you_is_final (s s' : ClientPortal.State) :
  rtc ClientPortal.step s s' ->
  ClientPortal.render s = ClientPortal.ThankYou ->
  ClientPortal.render s' = ClientPortal.ThankYou.
Proof.
  intros Hrun. unfold ClientPortal.render.
  induction Hrun as [s|s s1 s' Hstep _ IH]; [tauto|].
  intros Hs. apply IH.
  destruct (ClientPortal.isSubmitted s) eqn:E; [|discriminate].
  rewrite (step_keeps_submitted s s1 Hstep E). reflexivity.
Qed.

Lemma portal_thank_you_is_final_witness :
  ClientPortal.render
    (ClientPortal.submitted (ClientPortal.NetworkError "offline")
       (ClientPortal.handleInputChange ClientPortal.Timeline "3 months"
          (ClientPortal.submitted (ClientPortal.Response true) ClientPortal.initial)))
  = ClientPortal.ThankYou.
Proof.
  apply (portal_thank_you_is_final
           (ClientPortal.submitted (ClientPortal.Response true) ClientPortal.initial)).
  - eapply rtc_l; [apply ClientPortal.step_input|].
    eapply rtc_l; [apply ClientPortal.step_submit|]. apply rtc_refl.
  - reflexivity.
Defined.

(** ** The sidebar, the tabs and the employee pages *)

Lemma active_links_at_most_one (pathname : string) (l : list Layout.NavItem) :
  List.NoDup (map Layout.href l) ->
  (length (List.filter (Layout.isActive pathname) l) <= 1)%nat.
Proof.
  induction l as [|x l IH]; simpl; [lia|].
  intros Hnd. inversion Hnd as [|? ? Hx Hnd']; subst. clear Hnd. rename Hnd' into Hnd.
  unfold Layout.isActive at 1.
  destruct (String.eqb_spec pathname (Layout.href x)) as [E|E]; [|apply IH; exact Hnd].
  simpl.
  assert (Hnone : List.filter (Layout.isActive pathname) l = []).
  { clear IH Hnd. induction l as [|y l IH]; simpl; [reflexivity|].
    unfold Layout.isActive at 1.
    destruct (String.eqb_spec pathname (Layout.href y)) as [Ey|Ey].
    - exfalso. apply Hx. rewrite <- E, Ey. simpl. left. reflexivity.
    - apply IH. intros Hin. apply Hx. simpl. right. exact Hin. }
  rewrite Hnone. simpl. lia.
Qed.

(** X27. Whatever the current path and whoever is signed in, at most one
    sidebar link is highlighted; the "Employee Management" link is in
    the sidebar exactly for administrators. *)
Theorem sidebar_links (pathname : string) (user : option Types.User) :
  (length (List.filter (Layout.isActive pathname) (Layout.links user)) <= 1)%nat
  /\ (In "/employees" (map Layout.href (Layout.links user))
      <-> exists u : Types.User, user = Some u /\ Types.role u = "admin").
Proof.
  split.
  - apply active_links_at_most_one. unfold Layout.links, Layout.navigation,
      Layout.adminNavigation.
    destruct user as [u|]; [destruct (String.eqb (Types.role u) "admin")|];
      simpl; repeat (apply List.NoDup_cons;
                     [simpl; intros H; repeat (destruct H as [H|H]; [discriminate H|]);
                      exact H|]);
      apply List.NoDup_nil.
  - unfold Layout.links. destruct user as [u|].
    + destruct (String.eqb_spec (Types.role u) "admin") as [E|E]; simpl.
      * split; [intros _; exists u; auto | tauto].
      * split.
        -- intros H. repeat (destruct H as [H|H]; [discriminate H|]). destruct H.
        -- intros (u' & [= <-] & H). contradiction.
    + simpl. split.
      * intros H. repeat (destruct H as [H|H]; [discriminate H|]). destruct H.
      * intros (u & H & _). discriminate H.
Qed.

(** X28. Of the tab panels exactly the one whose value is the active value
    is rendered. Without a controlled value a click on a trigger makes
    its tab the active one; with a controlled value the active tab stays
    the controlled one and the click is only reported to the parent. *)
Theorem tabs_show_the_active_panel
    {C : Type} (p : Tabs.Props) (internalValue clicked panel : string) (children : C) :
  (Tabs.TabsContent (Tabs.value p internalValue) panel children = Some children
   <-> panel = Tabs.value p internalValue)
  /\ (Tabs.TabsContent (Tabs.value p internalValue) panel children = None
      <-> panel <> Tabs.value p internalValue)
  /\ snd (Tabs.handleValueChange p internalValue clicked) = clicked
  /\ Tabs.value p (fst (Tabs.handleValueChange p internalValue clicked))
     = match Tabs.controlledValue p with
       | Some v => v
       | None => clicked
       end.
Proof.
  unfold Tabs.TabsContent, Tabs.handleValueChange, Tabs.value.
  destruct (Tabs.controlledValue p) as [v|]; simpl;
    match goal with |- context [String.eqb ?a ?b] =>
      destruct (String.eqb_spec a b) as [E|E] end;
    repeat split; try congruence; try discriminate; try (intros; exfalso; congruence).
Qed.

(** X29. The "Add Employee" form sends a request exactly when e-mail, name
    and password are non-empty; the body holds these three fields only,
    so the role chosen in the form never reaches the server. *)
Theorem employee_create_drops_role (n : EmployeeManagement.NewEmployee) (role' : string) :
  (EmployeeManagement.handleCreateEmployee n <> None
   <-> EmployeeManagement.ne_email n <> "" /\ EmployeeManagement.ne_full_name n <> ""
       /\ EmployeeManagement.ne_password n <> "")
  /\ EmployeeManagement.handleCreateEmployee
       (EmployeeManagement.mkNewEmployee (EmployeeManagement.ne_email n)
          (EmployeeManagement.ne_full_name n) (EmployeeManagement.ne_password n) role')
     = EmployeeManagement.handleCreateEmployee n
  /\ (forall (call : Http.ApiCall) (body : list (string * JS.value)),
        EmployeeManagement.handleCreateEmployee n = Some call ->
        Http.api_body call = Some (JS.VObj body) ->
        JS.keys body = ["email"; "full_name"; "password"]).
Proof.
  unfold EmployeeManagement.handleCreateEmployee, JS.truthy_string. simpl.
  destruct (String.eqb_spec (EmployeeManagement.ne_email n) "");
    destruct (String.eqb_spec (EmployeeManagement.ne_full_name n) "");
    destruct (String.eqb_spec (EmployeeManagement.ne_password n) ""); simpl;
    (split; [split; [try tauto; try congruence | try tauto; try discriminate]|]);
    (split; [reflexivity|]);
    intros call body H; try discriminate H;
    injection H as <-; simpl; intros [= <-]; reflexivity.
Qed.

(** X30. The three employee counters are consistent: the active count never
    exceeds the total, the "Inactive" card shows the number of employees
    that are not active, and no statistics are shown before the list
    has loaded. *)
Theorem employee_stats_consistent (l : list EmployeeManagement.Employee) :
  EmployeeManagement.getEmployeeStats None = None
  /\ exists st : EmployeeManagement.EmployeeStats,
       EmployeeManagement.getEmployeeStats (Some l) = Some st
       /\ EmployeeManagement.total_employees st = length l
       /\ (EmployeeManagement.active_employees st
           <= EmployeeManagement.total_employees st)%nat
       /\ EmployeeManagement.inactive_shown st
          = Z.of_nat (length (List.filter
                                (fun e => negb (EmployeeManagement.is_active e)) l))
       /\ (EmployeeManagement.inactive_shown st = 0
           <-> Forall (fun e => EmployeeManagement.is_active e = true) l).
Proof.
  split; [reflexivity|]. eexists. split; [reflexivity|].
  unfold EmployeeManagement.inactive_shown. simpl.
  assert (Hsum : (length (List.filter EmployeeManagement.is_active l)
                  + length (List.filter
                              (fun e => negb (EmployeeManagement.is_active e)) l)
                  = length l)%nat).
  { induction l as [|e l IH]; simpl; [reflexivity|].
    destruct (EmployeeManagement.is_active e); simpl; lia. }
  split; [reflexivity|]. split; [lia|]. split; [lia|].
  split.
  - intros H0.
    assert (Hnone : List.filter (fun e => negb (EmployeeManagement.is_active e)) l = []).
    { apply length_zero_iff_nil. lia. }
    apply List.Forall_forall. intros e He.
    destruct (EmployeeManagement.is_active e) eqn:E; [reflexivity|].
    assert (Hin : In e (List.filter (fun e => negb (EmployeeManagement.is_active e)) l)).
    { apply filter_In. split; [exact He | rewrite E; reflexivity]. }
    rewrite Hnone in Hin. destruct Hin.
  - intros Hall.
    assert (Hnone : List.filter (fun e => negb (EmployeeManagement.is_active e)) l = []).
    { clear Hsum. induction Hall as [|e l He _ IH]; simpl; [reflexivity|].
      rewrite He. simpl. exact IH. }
    rewrite Hnone in Hsum. simpl in Hsum. lia.
Qed.

(** The script form sends nothing for a blank topic, and its submit
    button, when not disabled, always sends; the topic travels as
    typed, not trimmed. *)
Theorem script_submit_needs_topic (isPending : bool) (f : AIScriptGenerator.ScriptForm) :
  (AIScriptGenerator.handleSubmit f = None <-> Spec.blank (AIScriptGenerator.topic f))
  /\ (AIScriptGenerator.submit_disabled isPending f = false ->
      AIScriptGenerator.handleSubmit f
      = Some (Http.mkApiCall Http.POST (Http.path "/api/v1/ai/generate-script")
                (Some (AIScriptGenerator.form_body f))))
  /\ (forall call : Http.ApiCall,
        AIScriptGenerator.handleSubmit f = Some call ->
        Http.api_body call = Some (AIScriptGenerator.form_body f)).
Proof.
  unfold AIScriptGenerator.handleSubmit, AIScriptGenerator.submit_disabled,
    JS.truthy_string.
  rewrite <- trim_empty.
  destruct (String.eqb_spec (RegExp.trim (AIScriptGenerator.topic f)) "") as [E|E]; simpl.
  - split; [tauto|]. split; [rewrite orb_true_r; discriminate | discriminate].
  - split; [split; [discriminate | contradiction]|].
    split; [reflexivity | intros call [= <-]; reflexivity].
Qed.
